(** * primrose-mcp-jira: the protocol adapter's glue contracts

    A shallow embedding of the parts of the Jira MCP server that carry a
    contract: credential parsing and validation ([src/types/env.ts]),
    the HTTP client's authentication, status classification, rich-text
    coercion and pagination reshaping ([src/client.ts]), the tool
    handlers' envelopes and error boundary ([src/tools/*.ts],
    [src/utils/formatters.ts]) and the worker's [/mcp] route
    ([src/index.ts]).

    Conventions of the embedding.
    - A JavaScript string is a [string]: a sequence of code units below
      256 (header values, environment bindings and vendor messages are
      such byte strings here).
    - A JavaScript number that the code computes with (offsets, counts,
      status codes) is a [Z]; the result of [Number.parseInt], which can
      be [NaN], is a [number], rounded as a double is.
    - [undefined] / [null] of an optional field is [None].
    - A call that can throw returns a [Completion]. *)

From Stdlib Require Import ZArith NArith List String Ascii Bool Lia.
From Stdlib Require Import Decimal DecimalString DecimalPos.
Import ListNotations.

Set Warnings "-register-all".

Local Open Scope string_scope.
Local Open Scope Z_scope.

(* ================================================================== *)
(** * JavaScript runtime pieces the code relies on                     *)
(* ================================================================== *)

Module Js.

(** Result of [Number.parseInt]: [NaN] or an integer.  The integer is
    the value of a double: [parseInt10] rounds it with [toDouble]. *)
Inductive number : Type :=
| NaN : number
| Num (z : Z) : number.

(** The double nearest to an integer (the Number value of a
    mathematical integer).  Up to [2 ^ 53] in magnitude every integer
    is a double.  Beyond, an integer [a] with [2 ^ k <= a < 2 ^ (k + 1)]
    is rounded to the nearest multiple of [2 ^ (k - 52)], the spacing of
    the doubles there, and to the multiple with the even quotient when
    it lies half-way between two of them. *)
Definition toDouble (z : Z) : Z :=
  let a := Z.abs z in
  if a <? 2 ^ 53 then z
  else
    let ulp := 2 ^ (Z.log2 a - 52) in
    let q := a / ulp in
    let r := a mod ulp in
    let up := (ulp <? 2 * r) || ((2 * r =? ulp) && Z.odd q) in
    Z.sgn z * ((if up then q + 1 else q) * ulp).

(** [String(n)] / template-literal rendering of an integer. *)
Definition string_of_Z (z : Z) : string :=
  NilZero.string_of_int (Z.to_int z).

(** Truthiness of a [string | undefined] value: [undefined] and the
    empty string are falsy. *)
Definition truthy (v : option string) : bool :=
  match v with
  | Some (String _ _) => true
  | _ => false
  end.

(** [v || undefined] on a [string | null] value. *)
Definition or_undefined (v : option string) : option string :=
  if truthy v then v else None.

(** [v || ''] on a [string | null] value. *)
Definition or_empty (v : option string) : string :=
  match v with
  | Some (String c s) => String c s
  | _ => EmptyString
  end.

(** [Array.prototype.join] on an array of strings. *)
Fixpoint join (sep : string) (l : list string) : string :=
  match l with
  | [] => EmptyString
  | [x] => x
  | x :: rest => x ++ sep ++ join sep rest
  end.

(** StrWhiteSpaceChar among the code units below 256: TAB, LF, VT, FF,
    CR, SP and NBSP. *)
Definition isWhiteSpace (c : ascii) : bool :=
  let n := N_of_ascii c in
  (N.eqb n 9 || N.eqb n 10 || N.eqb n 11 || N.eqb n 12 || N.eqb n 13
   || N.eqb n 32 || N.eqb n 160)%bool.

Fixpoint trimStart (s : string) : string :=
  match s with
  | String c rest => if isWhiteSpace c then trimStart rest else s
  | EmptyString => EmptyString
  end.

Definition digitValue (c : ascii) : option Z :=
  let n := Z.of_N (N_of_ascii c) in
  if (48 <=? n) && (n <=? 57) then Some (n - 48) else None.

(** Value of the longest prefix of decimal digits; [None] when that
    prefix is empty. *)
Fixpoint digitsPrefix (s : string) (acc : option Z) : option Z :=
  match s with
  | String c rest =>
      match digitValue c with
      | Some d =>
          digitsPrefix rest
            (Some (10 * match acc with Some a => a | None => 0 end + d))
      | None => acc
      end
  | EmptyString => acc
  end.

(** [Number.parseInt(s, 10)]: skip leading white space, read an
    optional sign, then the longest run of decimal digits; [NaN] when
    there is no digit.  (With an explicit radix of 10 no [0x] prefix is
    recognised.)  The result is the double nearest to the integer that
    the digits denote.  Two values of the runtime have no counterpart
    in [number]: [-0], which is read as [0] (the text [-0] is the only
    way to it), and [Infinity], which takes digits that denote
    [2 ^ 1024] or more, so at least 309 of them. *)
Definition parseInt10 (s : string) : number :=
  let s1 := trimStart s in
  let '(sign, s2) :=
    match s1 with
    | String "-"%char rest => (-1, rest)
    | String "+"%char rest => (1, rest)
    | _ => (1, s1)
    end in
  match digitsPrefix s2 None with
  | Some n => Num (toDouble (sign * n))
  | None => NaN
  end.

(** [Number.isNaN]. *)
Definition isNaN (n : number) : bool :=
  match n with NaN => true | Num _ => false end.

(** ** [btoa]: base64 of a byte string *)

Definition b64_alphabet : string :=
  "ABCDEFGHIJKLMNOPQRSTUVWXYZabcdefghijklmnopqrstuvwxyz0123456789+/".

Definition b64_char (n : N) : ascii :=
  match String.get (N.to_nat n) b64_alphabet with
  | Some c => c
  | None => "="%char
  end.

Fixpoint b64_groups (l : list N) : string :=
  match l with
  | [] => EmptyString
  | [a] =>
      let w := (a * 16)%N in
      String (b64_char (w / 64)) (String (b64_char (w mod 64)) "==")
  | [a; b] =>
      let w := ((a * 256 + b) * 4)%N in
      String (b64_char (w / 4096))
        (String (b64_char ((w / 64) mod 64))
           (String (b64_char (w mod 64)) "="))
  | a :: b :: c :: rest =>
      let w := (a * 65536 + b * 256 + c)%N in
      String (b64_char (w / 262144))
        (String (b64_char ((w / 4096) mod 64))
           (String (b64_char ((w / 64) mod 64))
              (String (b64_char (w mod 64)) (b64_groups rest))))
  end.

Definition btoa (s : string) : string :=
  b64_groups (map N_of_ascii (list_ascii_of_string s)).

(** [atob], the decoder of well-formed padded base64; it is only used
    to state that [btoa] loses nothing. *)
Definition b64_index (c : ascii) : option N :=
  let n := N_of_ascii c in
  if (N.leb 65 n && N.leb n 90)%bool then Some (n - 65)%N
  else if (N.leb 97 n && N.leb n 122)%bool then Some (n - 71)%N
  else if (N.leb 48 n && N.leb n 57)%bool then Some (n + 4)%N
  else if N.eqb n 43 then Some 62%N
  else if N.eqb n 47 then Some 63%N
  else None.

Definition isPad (c : ascii) : bool := N.eqb (N_of_ascii c) 61.

Fixpoint atob_groups (s : string) : option (list N) :=
  match s with
  | EmptyString => Some []
  | String c1 (String c2 (String c3 (String c4 rest))) =>
      match b64_index c1, b64_index c2 with
      | Some i1, Some i2 =>
          let b1 := (i1 * 4 + i2 / 16)%N in
          match b64_index c3 with
          | None =>
              match rest with
              | EmptyString =>
                  if (isPad c3 && isPad c4)%bool then Some [b1] else None
              | _ => None
              end
          | Some i3 =>
              let b2 := ((i2 mod 16) * 16 + i3 / 4)%N in
              match b64_index c4 with
              | None =>
                  match rest with
                  | EmptyString => if isPad c4 then Some [b1; b2] else None
                  | _ => None
                  end
              | Some i4 =>
                  let b3 := ((i3 mod 4) * 64 + i4)%N in
                  match atob_groups rest with
                  | Some l => Some (b1 :: b2 :: b3 :: l)
                  | None => None
                  end
              end
          end
      | _, _ => None
      end
  | _ => None
  end.

Definition atob (s : string) : option string :=
  match atob_groups s with
  | Some l => Some (string_of_list_ascii (map ascii_of_N l))
  | None => None
  end.

(** ASCII lower-casing, used for the case-insensitive header names of
    the Fetch [Headers] object. *)
Definition lower_ascii (c : ascii) : ascii :=
  let n := N_of_ascii c in
  if (N.leb 65 n && N.leb n 90)%bool then ascii_of_N (n + 32) else c.

Fixpoint toLowerCase (s : string) : string :=
  match s with
  | EmptyString => EmptyString
  | String c rest => String (lower_ascii c) (toLowerCase rest)
  end.

End Js.

(** Values handed to [JSON.stringify] or obtained from [JSON.parse].
    Numeric literals are integers here; no modelled code path inspects a
    fraction or an exponent. *)
Inductive json : Type :=
| JNull : json
| JBool (b : bool) : json
| JNum (z : Z) : json
| JStr (s : string) : json
| JArr (items : list json) : json
| JObj (fields : list (string * json)) : json.

(** Outcome of a call that may throw: [E] is the type of thrown values. *)
Inductive Completion (E A : Type) : Type :=
| Throw (e : E) : Completion E A
| Return (a : A) : Completion E A.
Arguments Throw {E A} e.
Arguments Return {E A} a.

(* ================================================================== *)
(** * Thrown values                                                    *)
(* ================================================================== *)

Module Errors.

(** The values the modelled code throws.  [JiraApiError],
    [AuthenticationError] and [RateLimitError] are the classes that
    [client.ts] imports from [utils/errors.js]; each constructor below
    carries the arguments of the [new ...(...)] expression as written
    at the call site.  [Error] is the built-in class (also standing
    for its built-in subclasses such as [TypeError] and [SyntaxError]);
    [NonError] is a thrown value that is not an [Error], given by its
    [String(...)] rendering. *)
Inductive JsError : Type :=
| Error (message : string)
| JiraApiError (message : string) (status : Z)
| AuthenticationError (message : string)
| RateLimitError (message : string) (retryAfter : Js.number)
| NonError (rendering : string).

(** [error instanceof Error]. *)
Definition instanceofError (e : JsError) : bool :=
  match e with NonError _ => false | _ => true end.

(** [error.message] (the first constructor argument). *)
Definition error_message (e : JsError) : string :=
  match e with
  | Error m | JiraApiError m _ | AuthenticationError m
  | RateLimitError m _ => m
  | NonError r => r
  end.

End Errors.

(* ================================================================== *)
(** * src/types/env.ts                                                 *)
(* ================================================================== *)

Module Env.

Record TenantCredentials : Type := {
  domain : string;
  email : option string;
  apiToken : option string;
  accessToken : option string
}.

(** The Fetch [Headers] object: the header lines in order.  Names are
    case-insensitive; [get] joins the values of a repeated name with
    [", "] and yields [null] for an absent one. *)
Definition Headers : Type := list (string * string).

Definition header_named (name : string) (kv : string * string) : bool :=
  String.eqb (Js.toLowerCase (fst kv)) (Js.toLowerCase name).

Definition headers_get (h : Headers) (name : string) : option string :=
  match map snd (filter (header_named name) h) with
  | [] => None
  | vs => Some (Js.join ", " vs)
  end.

(** The part of a [Request] the worker reads: [new URL(url).pathname],
    [method] and [headers]. *)
Record Request : Type := {
  pathname : string;
  method : string;
  headers : Headers
}.

Definition parseTenantCredentials (request : Request) : TenantCredentials :=
  let headers := headers request in
  {| domain := Js.or_empty (headers_get headers "X-Jira-Domain");
     email := Js.or_undefined (headers_get headers "X-Jira-Email");
     apiToken := Js.or_undefined (headers_get headers "X-Jira-API-Token");
     accessToken :=
       Js.or_undefined (headers_get headers "X-Jira-Access-Token") |}.

Definition missing_domain_message : string :=
  "Missing X-Jira-Domain header. Provide your Jira Cloud domain.".

Definition missing_credentials_message : string :=
  "Missing credentials. Provide either X-Jira-Email + X-Jira-API-Token headers, or X-Jira-Access-Token header.".

Definition validateCredentials (credentials : TenantCredentials)
  : Completion Errors.JsError unit :=
  if negb (Js.truthy (Some (domain credentials))) then
    Throw (Errors.Error missing_domain_message)
  else
    let hasBasicAuth :=
      Js.truthy (email credentials) && Js.truthy (apiToken credentials) in
    let hasOAuth := Js.truthy (accessToken credentials) in
    if negb hasBasicAuth && negb hasOAuth then
      Throw (Errors.Error missing_credentials_message)
    else Return tt.

(** Keys of the [Env] interface. *)
Inductive EnvKey : Type :=
| CHARACTER_LIMIT | DEFAULT_PAGE_SIZE | MAX_PAGE_SIZE
| OAUTH_KV | MCP_SESSIONS | AI.

(** A binding as found at run time: absent, a string, or a value of
    another type (a number, a KV namespace, ...). *)
Inductive EnvValue : Type :=
| EnvUndefined : EnvValue
| EnvString (s : string) : EnvValue
| EnvOther : EnvValue.

Definition EnvBindings : Type := EnvKey -> EnvValue.

Definition getEnvNumber (env : EnvBindings) (key : EnvKey)
           (defaultValue : Z) : Z :=
  match env key with
  | EnvString value =>
      match Js.parseInt10 value with
      | Js.NaN => defaultValue
      | Js.Num parsed => parsed
      end
  | _ => defaultValue
  end.

Definition getCharacterLimit (env : EnvBindings) : Z :=
  getEnvNumber env CHARACTER_LIMIT 50000.

Definition getDefaultPageSize (env : EnvBindings) : Z :=
  getEnvNumber env DEFAULT_PAGE_SIZE 20.

Definition getMaxPageSize (env : EnvBindings) : Z :=
  getEnvNumber env MAX_PAGE_SIZE 100.

End Env.

(* ================================================================== *)
(** * What the vendor sends and what a list call returns               *)
(* ================================================================== *)

Module Vendor.

(** The vendor's error envelope, at the types the vendor documents.
    [None] is an absent (or [null]) field. *)
Record ErrorJson : Type := {
  errorMessages : option (list string);
  (** own enumerable properties, in [Object.entries] order *)
  errors : option (list (string * string));
  message : option string
}.

(** What the code observes of the [Response] of one [fetch]: the
    status, [headers.get('Retry-After')], the parsed error envelope
    ([JSON.parse(await response.text())], [None] when the parse throws)
    and the typed payload ([await response.json() as T], which rejects
    on a body that is not JSON). *)
Record HttpResponse (T : Type) : Type := {
  status : Z;
  retryAfterHeader : option string;
  errorJson : option ErrorJson;
  json_body : Completion Errors.JsError T
}.
Arguments status {T} _.
Arguments retryAfterHeader {T} _.
Arguments errorJson {T} _.
Arguments json_body {T} _.

(** [response.ok]. *)
Definition ok {T} (response : HttpResponse T) : bool :=
  (200 <=? status response) && (status response <=? 299).

(** A page as the paginated REST endpoints return it; [entries] is the
    array under the endpoint's own key ([values], [comments],
    [worklogs], [groups] or [dashboards]). *)
Record Page : Type := {
  startAt : Z;
  maxResults : Z;
  total : Z;
  entries : list json
}.

(** [JiraMyself], as far as [testConnection] reads it. *)
Record JiraMyself : Type := {
  accountId : string;
  emailAddress : option string;
  displayName : string
}.

End Vendor.

(** [JiraSearchResult] (types/entities.ts), without the optional
    [expand], [warningMessages], [names] and [schema], which no modelled
    code reads. *)
Module Search.
Record JiraSearchResult : Type := {
  startAt : Z;
  maxResults : Z;
  total : Z;
  issues : list json
}.
End Search.

(** [PaginatedResponse<T>] (types/entities.ts); [nextCursor] is never
    set. *)
Module Paginated.
Record PaginatedResponse : Type := {
  items : list json;
  count : Z;
  total : option Z;
  startAt : Z;
  maxResults : Z;
  hasMore : bool
}.

(** The object as [JSON.stringify] sees it: a key whose value is
    [undefined] is left out. *)
Definition to_json (p : PaginatedResponse) : json :=
  JObj ([("items", JArr (items p)); ("count", JNum (count p))]
        ++ match total p with
           | Some t => [("total", JNum t)]
           | None => []
           end
        ++ [("startAt", JNum (startAt p));
            ("maxResults", JNum (maxResults p));
            ("hasMore", JBool (hasMore p))]).
End Paginated.

(* ================================================================== *)
(** * Asynchronous calls over a scripted network                       *)
(* ================================================================== *)

(** The network as one tool invocation sees it: [replies k] is the
    outcome of the [k]-th [fetch] (a rejection or a response) and
    [fetched] counts the [fetch] calls made so far. *)
Record Network (T : Type) : Type := {
  fetched : nat;
  replies : nat -> Completion Errors.JsError (Vendor.HttpResponse T)
}.
Arguments fetched {T} _.
Arguments replies {T} _ _.

(** An [async] function body: it may [fetch], and completes by returning
    or throwing. *)
Definition Async (T A : Type) : Type :=
  Network T -> Completion Errors.JsError A * Network T.

Definition ret {T A} (a : A) : Async T A := fun net => (Return a, net).

Definition throw {T A} (e : Errors.JsError) : Async T A :=
  fun net => (Throw e, net).

Definition bind {T A B} (c : Async T A) (k : A -> Async T B) : Async T B :=
  fun net =>
    match c net with
    | (Throw e, net') => (Throw e, net')
    | (Return a, net') => k a net'
    end.

Notation "x <- c ;; k" := (bind c (fun x => k))
  (at level 61, c at next level, right associativity).

(** [try { body } catch (error) { return handler(error) }] where the
    handler itself performs no call. *)
Definition try_catch {T A} (body : Async T A) (handler : Errors.JsError -> A)
  : Async T A :=
  fun net =>
    match body net with
    | (Throw e, net') => (Return (handler e), net')
    | (Return a, net') => (Return a, net')
    end.

(** [await fetch(url, init)]. *)
Definition fetch_call {T} : Async T (Vendor.HttpResponse T) :=
  fun net =>
    (replies net (fetched net),
     {| fetched := S (fetched net); replies := replies net |}).

(** Lifting a synchronous computation. *)
Definition lift {T A} (c : Completion Errors.JsError A) : Async T A :=
  fun net => (c, net).

(* ================================================================== *)
(** * src/client.ts                                                    *)
(* ================================================================== *)

Module Client.
Import Errors Env Vendor.

(** The object literal returned by [getAuthHeaders]. *)
Record AuthHeaders : Type := {
  Authorization : string;
  ContentType : string;
  Accept : string
}.

(** Rendering of a [string | undefined] inside a template literal. *)
Definition interpolate (v : option string) : string :=
  match v with Some s => s | None => "undefined" end.

Definition no_credentials_message : string :=
  "No credentials provided. Include X-Jira-Email + X-Jira-API-Token or X-Jira-Access-Token header.".

Definition getAuthHeaders (credentials : TenantCredentials)
  : Completion JsError AuthHeaders :=
  if Js.truthy (accessToken credentials) then
    Return {| Authorization := "Bearer " ++ interpolate (accessToken credentials);
              ContentType := "application/json";
              Accept := "application/json" |}
  else if Js.truthy (email credentials) && Js.truthy (apiToken credentials) then
    let encoded :=
      Js.btoa (interpolate (email credentials) ++ ":"
               ++ interpolate (apiToken credentials)) in
    Return {| Authorization := "Basic " ++ encoded;
              ContentType := "application/json";
              Accept := "application/json" |}
  else Throw (AuthenticationError no_credentials_message).

(** [retryAfter ? Number.parseInt(retryAfter, 10) : 60]. *)
Definition retryAfterValue (retryAfter : option string) : Js.number :=
  if Js.truthy retryAfter then Js.parseInt10 (interpolate retryAfter)
  else Js.Num 60.

(** The [message] computed in the [if (!response.ok)] block. *)
Definition errorMessage {T} (response : HttpResponse T) : string :=
  let default := "Jira API error: " ++ Js.string_of_Z (status response) in
  match errorJson response with
  | None => default
  | Some parsed =>
      (* [errorJson.errorMessages?.length > 0]: false when the field is
         absent *)
      let messages :=
        match errorMessages parsed with Some l => l | None => [] end in
      if 0 <? Z.of_nat (List.length messages) then Js.join "; " messages
      else
        match errors parsed with
        | Some entries =>
            Js.join "; " (map (fun kv => fst kv ++ ": " ++ snd kv) entries)
        | None =>
            if Js.truthy (message parsed)
            then interpolate (message parsed)
            else default
        end
  end.

(** The part of [request] that follows [await fetch(...)]. *)
Definition handleResponse {T} (response : HttpResponse T)
  : Completion JsError (option T) :=
  if status response =? 429 then
    Throw (RateLimitError "Rate limit exceeded"
             (retryAfterValue (retryAfterHeader response)))
  else if status response =? 401 then
    Throw (AuthenticationError "Authentication failed. Check your credentials.")
  else if status response =? 403 then
    Throw (JiraApiError "Permission denied. Check your access rights." 403)
  else if negb (ok response) then
    Throw (JiraApiError (errorMessage response) (status response))
  else if status response =? 204 then
    Return None
  else
    match json_body response with
    | Throw e => Throw e
    | Return v => Return (Some v)
    end.

(** [request<T>(endpoint, options, useAgile)].  The headers are built
    (and [getAuthHeaders] may throw) before [fetch] is called; which
    reply the network gives does not depend on the URL in this model,
    so the endpoint is not an argument. *)
Definition request {T} (credentials : TenantCredentials)
  : Async T (option T) :=
  _ <- lift (getAuthHeaders credentials) ;;
  response <- fetch_call ;;
  lift (handleResponse response).

(** ** ADF helper *)

(** [ADFNode], [ADFDocument] and the argument type of [toADF],
    [string | ADFDocument].  The [type] of a document is kept as a
    string because [toADF] tests it at run time; a node's [text] can
    then hold whatever [toADF] was given. *)
Inductive ADFNode : Type :=
| Node (type : string) (content : option (list ADFNode))
       (text : option ADFInput) (attrs : option json)
       (marks : option (list json))
with ADFDocument : Type :=
| Document (type : string) (version : Z) (content : list ADFNode)
with ADFInput : Type :=
| Plain (s : string)
| Object (d : ADFDocument).

Definition document_type (d : ADFDocument) : string :=
  match d with Document type _ _ => type end.

Definition document_content (d : ADFDocument) : list ADFNode :=
  match d with Document _ _ content => content end.

Definition wrap (text : ADFInput) : ADFDocument :=
  Document "doc" 1
    [Node "paragraph"
       (Some [Node "text" None (Some text) None None])
       None None None].

Definition toADF (text : ADFInput) : ADFDocument :=
  match text with
  | Object d => if String.eqb (document_type d) "doc" then d else wrap text
  | Plain _ => wrap text
  end.

(** ** Reading a property of what [request] returned *)

(** The [TypeError] of [undefined.property]. *)
Definition undefined_read (property : string) : JsError :=
  Error ("Cannot read properties of undefined (reading '" ++ property ++ "')").

Definition read {T A} (property : string) (v : option A) : Async T A :=
  match v with
  | Some a => ret a
  | None => throw (undefined_read property)
  end.

Definition len (l : list json) : Z := Z.of_nat (List.length l).

(** ** Connection *)

Definition getMyself (credentials : TenantCredentials)
  : Async JiraMyself (option JiraMyself) :=
  request credentials.

Record ConnectionStatus : Type := {
  connected : bool;
  status_message : string
}.

Definition testConnection (credentials : TenantCredentials)
  : Async JiraMyself ConnectionStatus :=
  try_catch
    (r <- getMyself credentials ;;
     myself <- read "displayName" r ;;
     ret {| connected := true;
            status_message :=
              "Connected as " ++ displayName myself ++ " ("
              ++ (if Js.truthy (emailAddress myself)
                  then interpolate (emailAddress myself)
                  else accountId myself) ++ ")" |})
    (fun error =>
       {| connected := false;
          status_message :=
            if instanceofError error then error_message error
            else "Connection failed" |}).

(** ** Issue lists: the vendor's search result is returned as it is *)

Definition searchIssues (credentials : TenantCredentials)
  : Async Search.JiraSearchResult (option Search.JiraSearchResult) :=
  request credentials.

Definition getBoardIssues (credentials : TenantCredentials)
  : Async Search.JiraSearchResult (option Search.JiraSearchResult) :=
  request credentials.

Definition getBacklogIssues (credentials : TenantCredentials)
  : Async Search.JiraSearchResult (option Search.JiraSearchResult) :=
  request credentials.

Definition getSprintIssues (credentials : TenantCredentials)
  : Async Search.JiraSearchResult (option Search.JiraSearchResult) :=
  request credentials.

Definition getEpicIssues (credentials : TenantCredentials)
  : Async Search.JiraSearchResult (option Search.JiraSearchResult) :=
  request credentials.

(** ** User search: the vendor returns a bare array *)

Definition findUsers (credentials : TenantCredentials)
  : Async (list json) (option (list json)) :=
  request credentials.

Definition findAssignableUsers (credentials : TenantCredentials)
  : Async (list json) (option (list json)) :=
  request credentials.

(** ** Paginated methods: each reshapes the vendor's page *)

Definition getChangelog (credentials : TenantCredentials)
  : Async Page Paginated.PaginatedResponse :=
  r <- request credentials ;;
  response <- read "values" r ;;
  ret {| Paginated.items := entries response;
         Paginated.count := len (entries response);
         Paginated.total := Some (total response);
         Paginated.startAt := startAt response;
         Paginated.maxResults := maxResults response;
         Paginated.hasMore :=
           startAt response + len (entries response) <? total response |}.

Definition getComments (credentials : TenantCredentials)
  : Async Page Paginated.PaginatedResponse :=
  r <- request credentials ;;
  response <- read "comments" r ;;
  ret {| Paginated.items := entries response;
         Paginated.count := len (entries response);
         Paginated.total := Some (total response);
         Paginated.startAt := startAt response;
         Paginated.maxResults := maxResults response;
         Paginated.hasMore :=
           startAt response + len (entries response) <? total response |}.

Definition getWorklogs (credentials : TenantCredentials)
  : Async Page Paginated.PaginatedResponse :=
  r <- request credentials ;;
  response <- read "worklogs" r ;;
  ret {| Paginated.items := entries response;
         Paginated.count := len (entries response);
         Paginated.total := Some (total response);
         Paginated.startAt := startAt response;
         Paginated.maxResults := maxResults response;
         Paginated.hasMore :=
           startAt response + len (entries response) <? total response |}.

Definition listProjects (credentials : TenantCredentials)
  : Async Page Paginated.PaginatedResponse :=
  r <- request credentials ;;
  response <- read "values" r ;;
  ret {| Paginated.items := entries response;
         Paginated.count := len (entries response);
         Paginated.total := Some (total response);
         Paginated.startAt := startAt response;
         Paginated.maxResults := maxResults response;
         Paginated.hasMore :=
           startAt response + len (entries response) <? total response |}.

Definition getProjectVersions (credentials : TenantCredentials)
  : Async Page Paginated.PaginatedResponse :=
  r <- request credentials ;;
  response <- read "values" r ;;
  ret {| Paginated.items := entries response;
         Paginated.count := len (entries response);
         Paginated.total := Some (total response);
         Paginated.startAt := startAt response;
         Paginated.maxResults := maxResults response;
         Paginated.hasMore :=
           startAt response + len (entries response) <? total response |}.

Definition getGroups (credentials : TenantCredentials)
  : Async Page Paginated.PaginatedResponse :=
  r <- request credentials ;;
  response <- read "groups" r ;;
  ret {| Paginated.items := entries response;
         Paginated.count := len (entries response);
         Paginated.total := Some (total response);
         Paginated.startAt := startAt response;
         Paginated.maxResults := maxResults response;
         Paginated.hasMore :=
           startAt response + len (entries response) <? total response |}.

Definition getGroupMembers (credentials : TenantCredentials)
  : Async Page Paginated.PaginatedResponse :=
  r <- request credentials ;;
  response <- read "values" r ;;
  ret {| Paginated.items := entries response;
         Paginated.count := len (entries response);
         Paginated.total := Some (total response);
         Paginated.startAt := startAt response;
         Paginated.maxResults := maxResults response;
         Paginated.hasMore :=
           startAt response + len (entries response) <? total response |}.

Definition getDashboards (credentials : TenantCredentials)
  : Async Page Paginated.PaginatedResponse :=
  r <- request credentials ;;
  response <- read "dashboards" r ;;
  ret {| Paginated.items := entries response;
         Paginated.count := len (entries response);
         Paginated.total := Some (total response);
         Paginated.startAt := startAt response;
         Paginated.maxResults := maxResults response;
         Paginated.hasMore :=
           startAt response + len (entries response) <? total response |}.

Definition getBoards (credentials : TenantCredentials)
  : Async Page Paginated.PaginatedResponse :=
  r <- request credentials ;;
  response <- read "values" r ;;
  ret {| Paginated.items := entries response;
         Paginated.count := len (entries response);
         Paginated.total := Some (total response);
         Paginated.startAt := startAt response;
         Paginated.maxResults := maxResults response;
         Paginated.hasMore :=
           startAt response + len (entries response) <? total response |}.

Definition getSprints (credentials : TenantCredentials)
  : Async Page Paginated.PaginatedResponse :=
  r <- request credentials ;;
  response <- read "values" r ;;
  ret {| Paginated.items := entries response;
         Paginated.count := len (entries response);
         Paginated.total := Some (total response);
         Paginated.startAt := startAt response;
         Paginated.maxResults := maxResults response;
         Paginated.hasMore :=
           startAt response + len (entries response) <? total response |}.

Definition getEpics (credentials : TenantCredentials)
  : Async Page Paginated.PaginatedResponse :=
  r <- request credentials ;;
  response <- read "values" r ;;
  ret {| Paginated.items := entries response;
         Paginated.count := len (entries response);
         Paginated.total := Some (total response);
         Paginated.startAt := startAt response;
         Paginated.maxResults := maxResults response;
         Paginated.hasMore :=
           startAt response + len (entries response) <? total response |}.

Definition getLabels (credentials : TenantCredentials)
  : Async Page Paginated.PaginatedResponse :=
  r <- request credentials ;;
  response <- read "values" r ;;
  ret {| Paginated.items := entries response;
         Paginated.count := len (entries response);
         Paginated.total := Some (total response);
         Paginated.startAt := startAt response;
         Paginated.maxResults := maxResults response;
         Paginated.hasMore :=
           startAt response + len (entries response) <? total response |}.

End Client.

(* ================================================================== *)
(** * src/utils/formatters.ts                                          *)
(* ================================================================== *)

(** Rendering and error-class facts that the handlers use but that are
    not part of the modelled code: [JSON.stringify(value, null, 2)] of
    the runtime, the Markdown renderer [formatAsMarkdown] (which may
    throw on items of an unexpected shape), and, from [utils/errors.js],
    [formatErrorForLogging], which of [AuthenticationError] and
    [RateLimitError] extend [JiraApiError], and the [retryable] flag. *)
Class Platform : Type := {
  JSON_stringify : json -> string;
  formatAsMarkdown : json -> string -> Completion Errors.JsError string;
  formatErrorForLogging : Errors.JsError -> json;
  extendsJiraApiError : Errors.JsError -> bool;
  retryable : Errors.JsError -> bool
}.

Module Formatters.
Import Errors.

(** [ToolResponse]: every content item has [type: 'text'], so an item
    is its [text]. *)
Record ToolResponse : Type := {
  content : list string;
  isError : option bool
}.

Inductive ResponseFormat : Type := format_json | format_markdown.

Definition formatResponse `{Platform} (data : json)
           (format : ResponseFormat) (entityType : string)
  : Completion JsError ToolResponse :=
  match format with
  | format_markdown =>
      match formatAsMarkdown data entityType with
      | Throw e => Throw e
      | Return text => Return {| content := [text]; isError := None |}
      end
  | format_json =>
      Return {| content := [JSON_stringify data]; isError := None |}
  end.

(** [error instanceof JiraApiError]. *)
Definition instanceofJiraApiError `{Platform} (error : JsError) : bool :=
  match error with
  | JiraApiError _ _ => true
  | AuthenticationError _ | RateLimitError _ _ => extendsJiraApiError error
  | Error _ | NonError _ => false
  end.

(** The [message] that [formatErrorResponse] builds. *)
Definition errorText `{Platform} (error : JsError) : string :=
  if instanceofJiraApiError error then
    ("Error: " ++ error_message error)
    ++ (if retryable error then " (retryable)" else EmptyString)
  else if instanceofError error then "Error: " ++ error_message error
  else "Error: " ++ error_message error.

Definition formatErrorResponse `{Platform} (error : JsError) : ToolResponse :=
  let errorInfo := formatErrorForLogging error in
  {| content :=
       [JSON_stringify
          (JObj [("error", JStr (errorText error)); ("details", errorInfo)])];
     isError := Some true |}.

End Formatters.

(* ================================================================== *)
(** * src/tools/*.ts and the two tools of src/index.ts                 *)
(* ================================================================== *)

Module Tools.
Import Errors Env Vendor Client Formatters.

(** The arguments of a list tool after the schema's defaults have been
    applied.  The filters ([jql], [query], ids, ...) only go into the
    request and are not part of the model. *)
Record ListArgs : Type := {
  startAt : Z;
  maxResults : Z;
  format : ResponseFormat
}.

(** How a handler's [catch (error)] clause answers: with
    [formatErrorResponse(error)], or with a prefixed message as the two
    tools of index.ts do. *)
Inductive CatchClause : Type :=
| FormatError : CatchClause
| Prefixed (prefix : string) : CatchClause.

Definition catch_response `{Platform} (clause : CatchClause)
           (error : JsError) : ToolResponse :=
  match clause with
  | FormatError => formatErrorResponse error
  | Prefixed prefix =>
      {| content :=
           [prefix ++ (if instanceofError error then error_message error
                       else "Unknown error")];
         isError := Some true |}
  end.

(** [async (args) => { try { body } catch (error) { return ... } }]. *)
Definition tool_handler `{Platform} {T} (clause : CatchClause)
           (body : Async T ToolResponse) : Async T ToolResponse :=
  try_catch body (catch_response clause).

(** ** Issue lists: the envelope is built in the handler *)

Definition jira_search_issues_envelope (result : Search.JiraSearchResult)
  : Paginated.PaginatedResponse :=
  {| Paginated.items := Search.issues result;
     Paginated.count := len (Search.issues result);
     Paginated.total := Some (Search.total result);
     Paginated.startAt := Search.startAt result;
     Paginated.maxResults := Search.maxResults result;
     Paginated.hasMore :=
       Search.startAt result + len (Search.issues result)
       <? Search.total result |}.

Definition jira_search_issues `{Platform} (credentials : TenantCredentials)
           (args : ListArgs) : Async Search.JiraSearchResult ToolResponse :=
  tool_handler FormatError
    (r <- searchIssues credentials ;;
     result <- read "issues" r ;;
     let response := jira_search_issues_envelope result in
     lift (formatResponse (Paginated.to_json response) (format args) "issues")).

Definition jira_get_board_issues_envelope (result : Search.JiraSearchResult)
  : Paginated.PaginatedResponse :=
  {| Paginated.items := Search.issues result;
     Paginated.count := len (Search.issues result);
     Paginated.total := Some (Search.total result);
     Paginated.startAt := Search.startAt result;
     Paginated.maxResults := Search.maxResults result;
     Paginated.hasMore :=
       Search.startAt result + len (Search.issues result)
       <? Search.total result |}.

Definition jira_get_board_issues `{Platform} (credentials : TenantCredentials)
           (args : ListArgs) : Async Search.JiraSearchResult ToolResponse :=
  tool_handler FormatError
    (r <- getBoardIssues credentials ;;
     result <- read "issues" r ;;
     let response := jira_get_board_issues_envelope result in
     lift (formatResponse (Paginated.to_json response) (format args) "issues")).

Definition jira_get_backlog_issues_envelope (result : Search.JiraSearchResult)
  : Paginated.PaginatedResponse :=
  {| Paginated.items := Search.issues result;
     Paginated.count := len (Search.issues result);
     Paginated.total := Some (Search.total result);
     Paginated.startAt := Search.startAt result;
     Paginated.maxResults := Search.maxResults result;
     Paginated.hasMore :=
       Search.startAt result + len (Search.issues result)
       <? Search.total result |}.

Definition jira_get_backlog_issues `{Platform} (credentials : TenantCredentials)
           (args : ListArgs) : Async Search.JiraSearchResult ToolResponse :=
  tool_handler FormatError
    (r <- getBacklogIssues credentials ;;
     result <- read "issues" r ;;
     let response := jira_get_backlog_issues_envelope result in
     lift (formatResponse (Paginated.to_json response) (format args) "issues")).

Definition jira_get_sprint_issues_envelope (result : Search.JiraSearchResult)
  : Paginated.PaginatedResponse :=
  {| Paginated.items := Search.issues result;
     Paginated.count := len (Search.issues result);
     Paginated.total := Some (Search.total result);
     Paginated.startAt := Search.startAt result;
     Paginated.maxResults := Search.maxResults result;
     Paginated.hasMore :=
       Search.startAt result + len (Search.issues result)
       <? Search.total result |}.

Definition jira_get_sprint_issues `{Platform} (credentials : TenantCredentials)
           (args : ListArgs) : Async Search.JiraSearchResult ToolResponse :=
  tool_handler FormatError
    (r <- getSprintIssues credentials ;;
     result <- read "issues" r ;;
     let response := jira_get_sprint_issues_envelope result in
     lift (formatResponse (Paginated.to_json response) (format args) "issues")).

Definition jira_get_epic_issues_envelope (result : Search.JiraSearchResult)
  : Paginated.PaginatedResponse :=
  {| Paginated.items := Search.issues result;
     Paginated.count := len (Search.issues result);
     Paginated.total := Some (Search.total result);
     Paginated.startAt := Search.startAt result;
     Paginated.maxResults := Search.maxResults result;
     Paginated.hasMore :=
       Search.startAt result + len (Search.issues result)
       <? Search.total result |}.

Definition jira_get_epic_issues `{Platform} (credentials : TenantCredentials)
           (args : ListArgs) : Async Search.JiraSearchResult ToolResponse :=
  tool_handler FormatError
    (r <- getEpicIssues credentials ;;
     result <- read "issues" r ;;
     let response := jira_get_epic_issues_envelope result in
     lift (formatResponse (Paginated.to_json response) (format args) "issues")).

(** ** User search: no total is known, so the envelope has none *)

Definition jira_search_users_envelope (args : ListArgs) (users : list json)
  : Paginated.PaginatedResponse :=
  {| Paginated.items := users;
     Paginated.count := len users;
     Paginated.total := None;
     Paginated.startAt := startAt args;
     Paginated.maxResults := maxResults args;
     Paginated.hasMore := len users =? maxResults args |}.

Definition jira_search_users `{Platform} (credentials : TenantCredentials)
           (args : ListArgs) : Async (list json) ToolResponse :=
  tool_handler FormatError
    (r <- findUsers credentials ;;
     users <- read "length" r ;;
     let response := jira_search_users_envelope args users in
     lift (formatResponse (Paginated.to_json response) (format args) "users")).

Definition jira_find_assignable_users_envelope (args : ListArgs) (users : list json)
  : Paginated.PaginatedResponse :=
  {| Paginated.items := users;
     Paginated.count := len users;
     Paginated.total := None;
     Paginated.startAt := startAt args;
     Paginated.maxResults := maxResults args;
     Paginated.hasMore := len users =? maxResults args |}.

Definition jira_find_assignable_users `{Platform} (credentials : TenantCredentials)
           (args : ListArgs) : Async (list json) ToolResponse :=
  tool_handler FormatError
    (r <- findAssignableUsers credentials ;;
     users <- read "length" r ;;
     let response := jira_find_assignable_users_envelope args users in
     lift (formatResponse (Paginated.to_json response) (format args) "users")).

(** ** Lists whose envelope comes from the client *)

Definition jira_get_changelog `{Platform} (credentials : TenantCredentials)
           (args : ListArgs) : Async Page ToolResponse :=
  tool_handler FormatError
    (result <- getChangelog credentials ;;
     lift (formatResponse (Paginated.to_json result) (format args) "changelog")).

Definition jira_get_comments `{Platform} (credentials : TenantCredentials)
           (args : ListArgs) : Async Page ToolResponse :=
  tool_handler FormatError
    (result <- getComments credentials ;;
     lift (formatResponse (Paginated.to_json result) (format args) "comments")).

Definition jira_get_worklogs `{Platform} (credentials : TenantCredentials)
           (args : ListArgs) : Async Page ToolResponse :=
  tool_handler FormatError
    (result <- getWorklogs credentials ;;
     lift (formatResponse (Paginated.to_json result) (format args) "worklogs")).

Definition jira_list_projects `{Platform} (credentials : TenantCredentials)
           (args : ListArgs) : Async Page ToolResponse :=
  tool_handler FormatError
    (result <- listProjects credentials ;;
     lift (formatResponse (Paginated.to_json result) (format args) "projects")).

Definition jira_get_project_versions `{Platform} (credentials : TenantCredentials)
           (args : ListArgs) : Async Page ToolResponse :=
  tool_handler FormatError
    (result <- getProjectVersions credentials ;;
     lift (formatResponse (Paginated.to_json result) (format args) "versions")).

Definition jira_list_groups `{Platform} (credentials : TenantCredentials)
           (args : ListArgs) : Async Page ToolResponse :=
  tool_handler FormatError
    (result <- getGroups credentials ;;
     lift (formatResponse (Paginated.to_json result) (format args) "groups")).

Definition jira_get_group_members `{Platform} (credentials : TenantCredentials)
           (args : ListArgs) : Async Page ToolResponse :=
  tool_handler FormatError
    (result <- getGroupMembers credentials ;;
     lift (formatResponse (Paginated.to_json result) (format args) "users")).

Definition jira_list_dashboards `{Platform} (credentials : TenantCredentials)
           (args : ListArgs) : Async Page ToolResponse :=
  tool_handler FormatError
    (result <- getDashboards credentials ;;
     lift (formatResponse (Paginated.to_json result) (format args) "dashboards")).

Definition jira_list_boards `{Platform} (credentials : TenantCredentials)
           (args : ListArgs) : Async Page ToolResponse :=
  tool_handler FormatError
    (result <- getBoards credentials ;;
     lift (formatResponse (Paginated.to_json result) (format args) "boards")).

Definition jira_list_sprints `{Platform} (credentials : TenantCredentials)
           (args : ListArgs) : Async Page ToolResponse :=
  tool_handler FormatError
    (result <- getSprints credentials ;;
     lift (formatResponse (Paginated.to_json result) (format args) "sprints")).

Definition jira_list_epics `{Platform} (credentials : TenantCredentials)
           (args : ListArgs) : Async Page ToolResponse :=
  tool_handler FormatError
    (result <- getEpics credentials ;;
     lift (formatResponse (Paginated.to_json result) (format args) "epics")).

Definition jira_get_labels `{Platform} (credentials : TenantCredentials)
  : Async Page ToolResponse :=
  tool_handler FormatError
    (result <- getLabels credentials ;;
     ret {| content := [JSON_stringify (Paginated.to_json result)];
            isError := None |}).

(** ** The two tools registered in index.ts *)

Definition connection_json (result : ConnectionStatus) : json :=
  JObj [("connected", JBool (connected result));
        ("message", JStr (status_message result))].

Definition jira_test_connection `{Platform} (credentials : TenantCredentials)
  : Async JiraMyself ToolResponse :=
  tool_handler (Prefixed "Connection failed: ")
    (result <- testConnection credentials ;;
     ret {| content := [JSON_stringify (connection_json result)];
            isError := None |}).

Definition myself_json (myself : option JiraMyself) : json :=
  match myself with
  | None => JNull
  | Some m =>
      JObj ([("accountId", JStr (accountId m))]
            ++ match emailAddress m with
               | Some e => [("emailAddress", JStr e)]
               | None => []
               end
            ++ [("displayName", JStr (displayName m))])
  end.

(** [JSON.stringify(undefined)] is [undefined], not a string: after a
    204 the item has no text, which is written here as the text
    [undefined]. *)
Definition stringify_myself `{Platform} (myself : option JiraMyself)
  : string :=
  match myself with
  | None => "undefined"
  | Some _ => JSON_stringify (myself_json myself)
  end.

Definition jira_get_myself `{Platform} (credentials : TenantCredentials)
  : Async JiraMyself ToolResponse :=
  tool_handler (Prefixed "Failed to get user: ")
    (myself <- getMyself credentials ;;
     ret {| content := [stringify_myself myself]; isError := None |}).

End Tools.

(* ================================================================== *)
(** * src/index.ts                                                     *)
(* ================================================================== *)

Module Worker.
Import Errors Env.

Definition SERVER_NAME : string := "primrose-mcp-jira".
Definition SERVER_VERSION : string := "1.0.0".

(** The double-quote character, as a string. *)
Definition dquote : string := String (ascii_of_N 34) EmptyString.

(** The tool names, by the group under which the default response
    advertises them. *)
Definition issues_tools : list string :=
  ["jira_search_issues"; "jira_get_issue"; "jira_create_issue";
   "jira_update_issue"; "jira_delete_issue"; "jira_assign_issue";
   "jira_get_transitions"; "jira_transition_issue";
   "jira_get_changelog"].

Definition comments_tools : list string :=
  ["jira_get_comments"; "jira_add_comment"; "jira_update_comment";
   "jira_delete_comment"; "jira_get_worklogs"; "jira_add_worklog";
   "jira_update_worklog"; "jira_delete_worklog"].

Definition projects_tools : list string :=
  ["jira_list_projects"; "jira_get_project"; "jira_create_project";
   "jira_update_project"; "jira_delete_project";
   "jira_get_project_components"; "jira_create_component";
   "jira_delete_component"; "jira_get_project_versions";
   "jira_create_version"; "jira_release_version";
   "jira_delete_version"; "jira_get_project_roles"].

Definition agile_tools : list string :=
  ["jira_list_boards"; "jira_get_board"; "jira_get_board_issues";
   "jira_get_backlog_issues"; "jira_list_sprints";
   "jira_get_sprint"; "jira_get_sprint_issues";
   "jira_create_sprint"; "jira_update_sprint"; "jira_delete_sprint";
   "jira_move_issues_to_sprint"; "jira_move_issues_to_backlog";
   "jira_list_epics"; "jira_get_epic"; "jira_get_epic_issues";
   "jira_move_issues_to_epic"; "jira_remove_issues_from_epic"].

Definition users_tools : list string :=
  ["jira_get_user"; "jira_search_users";
   "jira_find_assignable_users"; "jira_list_groups";
   "jira_get_group_members"; "jira_get_watchers";
   "jira_add_watcher"; "jira_remove_watcher"; "jira_get_votes";
   "jira_add_vote"; "jira_remove_vote"].

Definition metadata_tools : list string :=
  ["jira_get_issue_types"; "jira_get_project_issue_types";
   "jira_get_priorities"; "jira_get_statuses";
   "jira_get_project_statuses"; "jira_get_resolutions";
   "jira_get_fields"; "jira_get_issue_link_types";
   "jira_create_issue_link"; "jira_delete_issue_link";
   "jira_get_labels"; "jira_get_server_info";
   "jira_delete_attachment"].

Definition filters_tools : list string :=
  ["jira_get_my_filters"; "jira_get_favourite_filters";
   "jira_get_filter"; "jira_create_filter"; "jira_update_filter";
   "jira_delete_filter"; "jira_list_dashboards";
   "jira_get_dashboard"].

Definition connection_tools : list string :=
  ["jira_test_connection"; "jira_get_myself"].

(** The tools that [createStatelessServer] registers, in order, each
    with the [catch] clause of its handler: the seven [register*Tools]
    groups answer with [formatErrorResponse], the two tools registered
    in index.ts with a prefixed message. *)
Definition registered_tools : list (string * Tools.CatchClause) :=
  map (fun name => (name, Tools.FormatError))
      (issues_tools ++ comments_tools ++ projects_tools ++ agile_tools
       ++ users_tools ++ metadata_tools ++ filters_tools)
  ++ [("jira_test_connection", Tools.Prefixed "Connection failed: ");
      ("jira_get_myself", Tools.Prefixed "Failed to get user: ")].

(** A [Response] body: [JSON.stringify] of a value, or a plain text. *)
Inductive Body : Type :=
| JsonBody (value : json)
| TextBody (text : string).

Record Response : Type := {
  status : Z;
  contentType : option string;
  body : Body
}.

(** What [fetch] does with a request: answer it itself, or create the
    stateless server for the tenant and hand the request to its MCP
    handler. *)
Inductive Outcome : Type :=
| Respond (response : Response)
| Serve (credentials : TenantCredentials).

Definition required_headers : json :=
  JArr [JStr "X-Jira-Domain";
        JStr "X-Jira-Email + X-Jira-API-Token (or X-Jira-Access-Token)"].

Definition unauthorized (error : JsError) : Response :=
  {| status := 401;
     contentType := Some "application/json";
     body :=
       JsonBody
         (JObj [("error", JStr "Unauthorized");
                ("message",
                 JStr (if instanceofError error then error_message error
                       else "Invalid credentials"));
                ("required_headers", required_headers)]) |}.

Definition names (l : list string) : json := JArr (map JStr l).

Definition server_info : json :=
  JObj
    [("name", JStr SERVER_NAME);
     ("version", JStr SERVER_VERSION);
     ("description", JStr "Multi-tenant Jira MCP Server");
     ("endpoints",
      JObj [("mcp", JStr "/mcp (POST) - Streamable HTTP MCP endpoint");
            ("health", JStr "/health - Health check")]);
     ("authentication",
      JObj
        [("description", JStr "Pass tenant credentials via request headers");
         ("required_headers",
          JObj [("X-Jira-Domain",
                 JStr ("Jira Cloud domain (e.g., " ++ dquote ++ "mycompany" ++ dquote
                       ++ " for mycompany.atlassian.net)"));
                ("X-Jira-Email", JStr "User email for Basic Auth");
                ("X-Jira-API-Token", JStr "API token for Basic Auth")]);
         ("alternative",
          JObj [("X-Jira-Access-Token",
                 JStr "OAuth 2.0 access token (instead of email + API token)")])]);
     ("tools",
      JObj [("issues", names issues_tools);
            ("comments", names comments_tools);
            ("projects", names projects_tools);
            ("agile", names agile_tools);
            ("users", names users_tools);
            ("metadata", names metadata_tools);
            ("filters", names filters_tools);
            ("connection", names connection_tools)])].

Definition fetch (request : Request) : Outcome :=
  if String.eqb (pathname request) "/health" then
    Respond {| status := 200;
               contentType := Some "application/json";
               body := JsonBody (JObj [("status", JStr "ok");
                                       ("server", JStr SERVER_NAME)]) |}
  else if String.eqb (pathname request) "/mcp"
          && String.eqb (method request) "POST" then
    let credentials := parseTenantCredentials request in
    match validateCredentials credentials with
    | Throw error => Respond (unauthorized error)
    | Return _ => Serve credentials
    end
  else if String.eqb (pathname request) "/sse" then
    Respond {| status := 501;
               contentType := None;
               body := TextBody "SSE endpoint requires Durable Objects. Enable in wrangler.jsonc." |}
  else
    Respond {| status := 200;
               contentType := Some "application/json";
               body := JsonBody server_info |}.

End Worker.

(* ================================================================== *)
(** * A server answering tool calls one after another                  *)
(* ================================================================== *)

(** The calls of one session run in sequence over the same network.  A
    handler that let an exception escape would end the sequence: [bind]
    propagates a throw. *)
Fixpoint serve {T} (calls : list (Async T Formatters.ToolResponse))
  : Async T (list Formatters.ToolResponse) :=
  match calls with
  | [] => ret []
  | call :: rest =>
      r <- call ;;
      rs <- serve rest ;;
      ret (r :: rs)
  end.

(* ================================================================== *)
(** * A sample platform, sample tenants and sample vendors             *)
(* ================================================================== *)

Module Sample.
Import Errors Env Vendor.

(** A compact JSON rendering of integers, strings without escapes,
    arrays and objects. *)
Fixpoint render (j : json) : string :=
  match j with
  | JNull => "null"
  | JBool true => "true"
  | JBool false => "false"
  | JNum z => Js.string_of_Z z
  | JStr s => Worker.dquote ++ s ++ Worker.dquote
  | JArr l => "[" ++ Js.join "," (map render l) ++ "]"
  | JObj fields =>
      "{" ++ Js.join ","
               (map (fun kv =>
                       match kv with
                       | (k, v) =>
                           Worker.dquote ++ k ++ Worker.dquote ++ ":"
                           ++ render v
                       end) fields) ++ "}"
  end.

(** One possible platform: both subclasses extend [JiraApiError] and
    only a rate-limit error is retryable. *)
Definition platform : Platform :=
  {| JSON_stringify := render;
     formatAsMarkdown := fun data _ => Return (render data);
     formatErrorForLogging :=
       fun e => JObj [("message", JStr (error_message e))];
     extendsJiraApiError := fun _ => true;
     retryable :=
       fun e => match e with RateLimitError _ _ => true | _ => false end |}.

Definition oauth : TenantCredentials :=
  {| domain := "acme"; email := None; apiToken := None;
     accessToken := Some "tok" |}.

Definition basic : TenantCredentials :=
  {| domain := "acme"; email := Some "a"; apiToken := Some "b";
     accessToken := None |}.

Definition nothing : TenantCredentials :=
  {| domain := "acme"; email := Some "a"; apiToken := None;
     accessToken := None |}.

(** A response with the given status and no usable body. *)
Definition bare {T} (code : Z) : HttpResponse T :=
  {| status := code;
     retryAfterHeader := None;
     errorJson := None;
     json_body := Throw (Error "Unexpected end of JSON input") |}.

(** A network whose every reply is [response]. *)
Definition always {T} (response : HttpResponse T) : Network T :=
  {| fetched := 0; replies := fun _ => Return response |}.

Definition issue (key : string) : json := JObj [("key", JStr key)].

Definition fifty_issues : list json := repeat (issue "PROJ-1") 50.

Definition user (id : string) : json := JObj [("accountId", JStr id)].

End Sample.

(* ================================================================== *)
(** * Predicates used in the statements                                *)
(* ================================================================== *)

Import Errors Env Vendor Client Formatters.

(** What it means for an accessor to read one numeric knob: the parse of
    a string binding when that parse is a number, the fallback when the
    binding is absent, not a string, or parses to NaN. *)
Definition reads_knob (get : EnvBindings -> Z) (key : EnvKey) (fallback : Z)
  : Prop :=
  forall env : EnvBindings,
    (forall value parsed,
        env key = EnvString value -> Js.parseInt10 value = Js.Num parsed ->
        get env = parsed)
    /\ (env key = EnvUndefined -> get env = fallback)
    /\ (env key = EnvOther -> get env = fallback)
    /\ (forall value,
           env key = EnvString value -> Js.parseInt10 value = Js.NaN ->
           get env = fallback).

(** The value of a sequence of decimal digits, most significant first,
    continuing from [acc]. *)
Fixpoint horner (d : Decimal.uint) (acc : Z) : Z :=
  match d with
  | Decimal.Nil => acc
  | Decimal.D0 l => horner l (10 * acc + 0)
  | Decimal.D1 l => horner l (10 * acc + 1)
  | Decimal.D2 l => horner l (10 * acc + 2)
  | Decimal.D3 l => horner l (10 * acc + 3)
  | Decimal.D4 l => horner l (10 * acc + 4)
  | Decimal.D5 l => horner l (10 * acc + 5)
  | Decimal.D6 l => horner l (10 * acc + 6)
  | Decimal.D7 l => horner l (10 * acc + 7)
  | Decimal.D8 l => horner l (10 * acc + 8)
  | Decimal.D9 l => horner l (10 * acc + 9)
  end.

(** A credential or header value is provided when it is a non-empty
    string: [undefined], [null] and the empty string all count as not
    provided (JavaScript truthiness). *)
Definition provided (v : option string) : Prop :=
  exists s, v = Some s /\ s <> EmptyString.

(** Two header sets that agree on every name, except that a header may
    be empty in one and missing in the other. *)
Definition same_but_empty (h1 h2 : Headers) : Prop :=
  forall name,
    Js.or_undefined (headers_get h1 name)
    = Js.or_undefined (headers_get h2 name).

Definition bearer (token : string) : AuthHeaders :=
  {| Authorization := "Bearer " ++ token;
     ContentType := "application/json";
     Accept := "application/json" |}.

Definition basic_auth (user token : string) : AuthHeaders :=
  {| Authorization := "Basic " ++ Js.btoa (user ++ ":" ++ token);
     ContentType := "application/json";
     Accept := "application/json" |}.




(** The document with exactly one paragraph that holds exactly one text
    node with the given text. *)
Definition one_paragraph (text : ADFInput) : ADFDocument :=
  Document "doc" 1
    [Node "paragraph" (Some [Node "text" None (Some text) None None])
       None None None].

(** The pagination rule: [hasMore] is true exactly when the envelope has
    a total and [startAt] plus the number of items is below it. *)
Definition hasMore_rule (p : Paginated.PaginatedResponse) : Prop :=
  Paginated.hasMore p = true
  <-> exists t, Paginated.total p = Some t
                /\ Paginated.startAt p + len (Paginated.items p) < t.

(** What a paginated client method returns is the reshaped vendor page. *)
Definition reshaped (page : Page) : Paginated.PaginatedResponse :=
  {| Paginated.items := entries page;
     Paginated.count := len (entries page);
     Paginated.total := Some (total page);
     Paginated.startAt := startAt page;
     Paginated.maxResults := maxResults page;
     Paginated.hasMore := startAt page + len (entries page) <? total page |}.

(** The twelve client methods that return a [PaginatedResponse]. *)
Definition paginated_methods
  : list (TenantCredentials -> Async Page Paginated.PaginatedResponse) :=
  [getChangelog; getComments; getWorklogs; listProjects; getProjectVersions;
   getGroups; getGroupMembers; getDashboards; getBoards; getSprints;
   getEpics; getLabels].

(** The envelopes built by the five issue-list tools. *)
Definition issue_list_envelopes
  : list (Search.JiraSearchResult -> Paginated.PaginatedResponse) :=
  [Tools.jira_search_issues_envelope; Tools.jira_get_board_issues_envelope;
   Tools.jira_get_backlog_issues_envelope;
   Tools.jira_get_sprint_issues_envelope;
   Tools.jira_get_epic_issues_envelope].

(** The envelopes built by the two user-search tools. *)
Definition user_list_envelopes
  : list (Tools.ListArgs -> list json -> Paginated.PaginatedResponse) :=
  [Tools.jira_search_users_envelope; Tools.jira_find_assignable_users_envelope].

(** The envelope of the issue-search example. *)
Definition example_envelope (found : list json) : Paginated.PaginatedResponse :=
  {| Paginated.items := found;
     Paginated.count := 50;
     Paginated.total := Some 120;
     Paginated.startAt := 0;
     Paginated.maxResults := 50;
     Paginated.hasMore := true |}.

(** The issue-search example as the specification words it: the request
    asks for 50 results and the vendor's body gives [startAt], [total]
    and 50 issues. *)
Definition search_example_as_stated : Prop :=
  forall (args : Tools.ListArgs) (result : Search.JiraSearchResult),
    Tools.maxResults args = 50 ->
    Search.startAt result = 0 ->
    Search.total result = 120 ->
    List.length (Search.issues result) = 50%nat ->
    Tools.jira_search_issues_envelope result
    = example_envelope (Search.issues result).

(** A failure response that a person can read: flagged [isError], and
    its text carries the error's message, after ["Error: "] inside the
    [error] field for [formatErrorResponse], after the prefix for the
    two tools of index.ts. *)
Definition readable_failure `{Platform} (clause : Tools.CatchClause)
           (e : JsError) (r : ToolResponse) : Prop :=
  isError r = Some true
  /\ match clause with
     | Tools.FormatError =>
         exists suffix,
           content r
           = [JSON_stringify
                (JObj [("error",
                        JStr ("Error: " ++ error_message e ++ suffix));
                       ("details", formatErrorForLogging e)])]
     | Tools.Prefixed prefix =>
         exists text,
           content r = [prefix ++ text]
           /\ (instanceofError e = true -> text = error_message e)
     end.

(** The error boundary as stated for every tool, read at
    jira_test_connection: whenever the client's call to the vendor
    throws, the tool's response is flagged. *)
Definition test_connection_flags_failures : Prop :=
  forall (P : Platform) (credentials : TenantCredentials)
         (net : Network JiraMyself) (e : JsError) (r : ToolResponse),
    fst (getMyself credentials net) = Throw e ->
    fst (Tools.jira_test_connection credentials net) = Return r ->
    isError r = Some true.

(* ================================================================== *)
(** * Inputs of the witnesses and counterexamples                      *)
(* ================================================================== *)

Definition sample_env : EnvBindings :=
  fun key =>
    match key with
    | CHARACTER_LIMIT => EnvString "1234"
    | DEFAULT_PAGE_SIZE => EnvString "many"
    | MAX_PAGE_SIZE => EnvUndefined
    | _ => EnvOther
    end.

Definition all_empty_request : Request :=
  {| pathname := "/mcp"; method := "POST";
     headers := [("X-Jira-Domain", EmptyString);
                 ("X-Jira-Email", EmptyString);
                 ("X-Jira-API-Token", EmptyString);
                 ("X-Jira-Access-Token", EmptyString)] |}.

Definition no_header_request : Request :=
  {| pathname := "/mcp"; method := "POST"; headers := [] |}.

Definition oauth_only_request : Request :=
  {| pathname := "/mcp"; method := "POST";
     headers := [("x-jira-access-token", "tok")] |}.

Definition email_only_request : Request :=
  {| pathname := "/mcp"; method := "POST";
     headers := [("X-Jira-Domain", "acme"); ("X-Jira-Email", "a@b.c")] |}.

Definition rate_limited (retryAfter : option string) : HttpResponse json :=
  {| status := 429;
     retryAfterHeader := retryAfter;
     errorJson := None;
     json_body := Throw (Error "Unexpected end of JSON input") |}.

Definition rejected (code : Z) (parsed : option ErrorJson)
  : HttpResponse json :=
  {| status := code;
     retryAfterHeader := None;
     errorJson := parsed;
     json_body := Throw (Error "Unexpected end of JSON input") |}.

Definition accepted {T} (code : Z) (payload : T) : HttpResponse T :=
  {| status := code;
     retryAfterHeader := None;
     errorJson := None;
     json_body := Return payload |}.



Definition envelope_with_message : ErrorJson :=
  {| errorMessages := None; errors := None; message := Some "Not found" |}.


Definition sample_document : ADFDocument :=
  Document "doc" 1
    [Node "heading" (Some [Node "text" None (Some (Plain "Title")) None None])
       None (Some (JObj [("level", JNum 2)])) None;
     Node "paragraph" None None None None].

(** A vendor that answers every call with 401. *)
Definition unauthorized_vendor {T} : Network T :=
  Sample.always (Sample.bare 401).

Definition two_users : list json := [Sample.user "u1"; Sample.user "u2"].

Definition page_of_two : Tools.ListArgs :=
  {| Tools.startAt := 0; Tools.maxResults := 2;
     Tools.format := format_json |}.

Definition page_of_fifty : Tools.ListArgs :=
  {| Tools.startAt := 0; Tools.maxResults := 50;
     Tools.format := format_json |}.

Definition changelog_page : Page :=
  {| startAt := 10; maxResults := 2; total := 13;
     entries := [JStr "c11"; JStr "c12"] |}.

(** A vendor page of the example whose own [maxResults] is 100. *)
Definition page_size_100 : Search.JiraSearchResult :=
  {| Search.startAt := 0; Search.maxResults := 100; Search.total := 120;
     Search.issues := Sample.fifty_issues |}.

Definition page_size_50 : Search.JiraSearchResult :=
  {| Search.startAt := 0; Search.maxResults := 50; Search.total := 120;
     Search.issues := Sample.fifty_issues |}.

(* ================================================================== *)
(** * Inputs of the further properties                                 *)
(* ================================================================== *)

Definition basic_request : Request :=
  {| pathname := "/mcp"; method := "POST";
     headers := [("X-Jira-Domain", "acme"); ("X-Jira-Email", "a");
                 ("X-Jira-API-Token", "b")] |}.

Definition oauth_request : Request :=
  {| pathname := "/mcp"; method := "POST";
     headers := [("X-Jira-Domain", "acme"); ("X-Jira-Email", "a");
                 ("X-Jira-API-Token", "b"); ("X-Jira-Access-Token", "tok")] |}.

(** A string without a colon (an e-mail address, say). *)
Definition colon_free (s : string) : Prop :=
  ~ In ":"%char (list_ascii_of_string s).

Definition myself_reply (myself : JiraMyself) : HttpResponse JiraMyself :=
  {| status := 200;
     retryAfterHeader := None;
     errorJson := None;
     json_body := Return myself |}.

Definition alice : JiraMyself :=
  {| accountId := "5b10"; emailAddress := Some "alice@example.com";
     displayName := "Alice" |}.

Definition other_tenant : TenantCredentials :=
  {| domain := "acme"; email := Some "c"; apiToken := Some "d";
     accessToken := None |}.

(* ================================================================== *)
(** * String methods used by the formatters and the handlers           *)
(* ================================================================== *)

Module Text.

(** The first [k] code units and what follows them. *)
Fixpoint take (k : nat) (s : string) : string :=
  match k, s with
  | S k', String c rest => String c (take k' rest)
  | _, _ => EmptyString
  end.

Fixpoint drop (k : nat) (s : string) : string :=
  match k, s with
  | S k', String _ rest => drop k' rest
  | _, _ => s
  end.

(** How [String.prototype.slice] reads an index: a negative one counts
    from the end, and the result stays within the string. *)
Definition clamp (len i : Z) : Z :=
  if i <? 0 then Z.max (len + i) 0 else Z.min i len.

(** [s.slice(start, end)]. *)
Definition slice (s : string) (start finish : Z) : string :=
  let len := Z.of_nat (String.length s) in
  let from := clamp len start in
  let to := clamp len finish in
  take (Z.to_nat (to - from)) (drop (Z.to_nat from) s).

(** [s.slice(start)]. *)
Definition slice_from (s : string) (start : Z) : string :=
  slice s start (Z.of_nat (String.length s)).

(** [s.split(sep)] for a separator of one code unit. *)
Fixpoint split (sep : ascii) (s : string) : list string :=
  match s with
  | EmptyString => [EmptyString]
  | String c rest =>
      if Ascii.eqb c sep then EmptyString :: split sep rest
      else match split sep rest with
           | first :: others => String c first :: others
           | [] => [String c EmptyString]
           end
  end.

(** [s.trimEnd()] and [s.trim()]; the white space is that of
    [Js.isWhiteSpace]. *)
Fixpoint trimEnd (s : string) : string :=
  match s with
  | EmptyString => EmptyString
  | String c rest =>
      match trimEnd rest with
      | EmptyString =>
          if Js.isWhiteSpace c then EmptyString else String c EmptyString
      | kept => String c kept
      end
  end.

Definition trim (s : string) : string := trimEnd (Js.trimStart s).

(** [value.split(',').map((v) => v.trim())], the expression by which
    the handlers read a comma-separated argument (issue keys, labels,
    components, versions, fields, expand). *)
Definition comma_list (value : string) : list string :=
  map trim (split ","%char value).

(** [c.toUpperCase()] of one code unit, as a string: the letters a-z
    and the accented lower-case letters of the upper half; the sharp s
    becomes two letters.  The upper-case forms of the micro sign (181)
    and of y with diaeresis (255) lie above 255, outside byte strings:
    these two are left as they are. *)
Definition upper_char (c : ascii) : string :=
  let n := N_of_ascii c in
  if (N.leb 97 n && N.leb n 122)%bool then String (ascii_of_N (n - 32)) EmptyString
  else if N.eqb n 223 then "SS"
  else if (N.leb 224 n && N.leb n 254 && negb (N.eqb n 247))%bool
       then String (ascii_of_N (n - 32)) EmptyString
  else String c EmptyString.

(** [s.charAt(0).toUpperCase()]. *)
Definition upper_first (s : string) : string :=
  match s with
  | EmptyString => EmptyString
  | String c _ => upper_char c
  end.

End Text.

(* ================================================================== *)
(** * src/utils/formatters.ts: the helpers of the Markdown renderer    *)
(* ================================================================== *)

Module Markdown.
Import Errors Formatters.

Definition newline : string := String (ascii_of_N 10) EmptyString.

(** [capitalize]. *)
Definition capitalize (str : string) : string :=
  Text.upper_first str ++ Text.slice_from str 1.

(** [truncate]. *)
Definition truncate (str : string) (maxLength : Z) : string :=
  if Z.of_nat (String.length str) <=? maxLength then str
  else Text.slice str 0 (maxLength - 3) ++ "...".

(** The table renderers that [formatPaginatedAsMarkdown] chooses from,
    as functions of the items; a renderer throws when an item lacks a
    field that it dereferences. *)
Record Tables : Type := {
  formatIssuesTable : list json -> Completion JsError string;
  formatProjectsTable : list json -> Completion JsError string;
  formatUsersTable : list json -> Completion JsError string;
  formatBoardsTable : list json -> Completion JsError string;
  formatSprintsTable : list json -> Completion JsError string;
  formatCommentsTable : list json -> Completion JsError string;
  formatWorklogsTable : list json -> Completion JsError string;
  formatFiltersTable : list json -> Completion JsError string;
  formatDashboardsTable : list json -> Completion JsError string;
  formatGenericTable : list json -> Completion JsError string
}.

(** The [switch (entityType)] of [formatPaginatedAsMarkdown]. *)
Definition table_for (tables : Tables) (entityType : string)
  : list json -> Completion JsError string :=
  if String.eqb entityType "issues" then formatIssuesTable tables
  else if String.eqb entityType "projects" then formatProjectsTable tables
  else if String.eqb entityType "users" then formatUsersTable tables
  else if String.eqb entityType "boards" then formatBoardsTable tables
  else if String.eqb entityType "sprints" then formatSprintsTable tables
  else if String.eqb entityType "comments" then formatCommentsTable tables
  else if String.eqb entityType "worklogs" then formatWorklogsTable tables
  else if String.eqb entityType "filters" then formatFiltersTable tables
  else if String.eqb entityType "dashboards" then formatDashboardsTable tables
  else formatGenericTable tables.

(** The lines that precede the table. *)
Definition heading_lines (data : Paginated.PaginatedResponse)
           (entityType : string) : list string :=
  ["## " ++ capitalize entityType; EmptyString]
  ++ [match Paginated.total data with
      | Some total =>
          "**Total:** " ++ Js.string_of_Z total ++ " | **Showing:** "
          ++ Js.string_of_Z (Paginated.count data)
      | None => "**Showing:** " ++ Js.string_of_Z (Paginated.count data)
      end]
  ++ (if Paginated.hasMore data
      then ["**More available:** Yes (startAt: "
            ++ Js.string_of_Z (Paginated.startAt data
                               + Paginated.maxResults data) ++ ")"]
      else [])
  ++ [EmptyString].

(** [formatPaginatedAsMarkdown]. *)
Definition formatPaginatedAsMarkdown (tables : Tables)
           (data : Paginated.PaginatedResponse) (entityType : string)
  : Completion JsError string :=
  let lines := heading_lines data entityType in
  if Z.of_nat (List.length (Paginated.items data)) =? 0 then
    Return (Js.join newline (lines ++ ["_No items found._"]))
  else
    match table_for tables entityType (Paginated.items data) with
    | Throw e => Throw e
    | Return table => Return (Js.join newline (lines ++ [table]))
    end.

End Markdown.

(** The code unit [c] does not occur in [s]. *)
Definition lacks (c : ascii) (s : string) : Prop :=
  ~ In c (list_ascii_of_string s).

(** How often the code unit [c] occurs in [s]. *)
Fixpoint occurrences (c : ascii) (s : string) : nat :=
  match s with
  | EmptyString => 0
  | String d rest =>
      (if Ascii.eqb d c then 1 else 0) + occurrences c rest
  end.

Definition comma : string := ",".

(* ================================================================== *)
(** * src/client.ts: the statuses of a project                         *)
(* ================================================================== *)

Module Statuses.
Import Errors Env Vendor Client.

(** [JiraStatus] (types/entities.ts). *)
Record JiraStatus : Type := {
  id : string;
  name : string;
  description : option string;
  statusCategory : json
}.

(** One element of the vendor's answer: an issue type with its
    statuses. *)
Record IssueTypeStatuses : Type := {
  issueTypeName : string;
  statuses : list JiraStatus
}.

(** A [Map<string, JiraStatus>]: the entries in insertion order, one per
    key. *)
Definition StatusMap : Type := list (string * JiraStatus).

(** [map.set(key, value)]: an existing key keeps its place and gets the
    new value, a new key goes to the end. *)
Fixpoint map_set (m : StatusMap) (key : string) (value : JiraStatus)
  : StatusMap :=
  match m with
  | [] => [(key, value)]
  | (k, v) :: rest =>
      if String.eqb k key then (k, value) :: rest
      else (k, v) :: map_set rest key value
  end.

(** The two nested [for ... of] loops. *)
Definition statusMap_of (response : list IssueTypeStatuses) : StatusMap :=
  fold_left
    (fun m issueType =>
       fold_left (fun m' status => map_set m' (id status) status)
                 (statuses issueType) m)
    response [].

(** [Array.from(statusMap.values())]. *)
Definition map_values (m : StatusMap) : list JiraStatus := map snd m.

(** The [TypeError] of iterating [undefined]. *)
Definition not_iterable : JsError := Error "undefined is not iterable".

Definition getStatusesForProject (credentials : TenantCredentials)
  : Async (list IssueTypeStatuses) (list JiraStatus) :=
  r <- request credentials ;;
  response <- match r with
              | Some l => ret l
              | None => throw not_iterable
              end ;;
  ret (map_values (statusMap_of response)).

End Statuses.

(** All statuses of the vendor's answer, in the order listed. *)
Definition listed (response : list Statuses.IssueTypeStatuses)
  : list Statuses.JiraStatus :=
  List.concat (map Statuses.statuses response).

Definition status_named (id name : string) : Statuses.JiraStatus :=
  {| Statuses.id := id; Statuses.name := name;
     Statuses.description := None; Statuses.statusCategory := JNull |}.

Definition project_statuses : list Statuses.IssueTypeStatuses :=
  [{| Statuses.issueTypeName := "Bug";
      Statuses.statuses := [status_named "1" "Open"; status_named "3" "Done"] |};
   {| Statuses.issueTypeName := "Task";
      Statuses.statuses :=
        [status_named "1" "To Do"; status_named "2" "Doing"] |}].

(* ================================================================== *)
(** * src/client.ts, src/tools/agile.ts: moving issues                 *)
(* ================================================================== *)

Module IssueMoves.
Import Errors Env Vendor Client Formatters.

(** [moveIssuesToSprint], [moveIssuesToBacklog], [moveIssuesToEpic] and
    [removeIssuesFromEpic] await one request and return nothing; the
    sprint and the epic only go into the URL, the keys into the body. *)
Definition moveIssuesToSprint (credentials : TenantCredentials)
           (issueKeys : list string) : Async json unit :=
  _ <- request credentials ;; ret tt.

Definition moveIssuesToBacklog (credentials : TenantCredentials)
           (issueKeys : list string) : Async json unit :=
  _ <- request credentials ;; ret tt.

Definition moveIssuesToEpic (credentials : TenantCredentials)
           (issueKeys : list string) : Async json unit :=
  _ <- request credentials ;; ret tt.

Definition removeIssuesFromEpic (credentials : TenantCredentials)
           (issueKeys : list string) : Async json unit :=
  _ <- request credentials ;; ret tt.

(** [{ success: true, message }] as the text of a response. *)
Definition success `{Platform} (message : string) : ToolResponse :=
  {| content :=
       [JSON_stringify
          (JObj [("success", JBool true); ("message", JStr message)])];
     isError := None |}.

Definition count_of (keys : list string) : string :=
  Js.string_of_Z (Z.of_nat (List.length keys)).

Definition jira_move_issues_to_sprint `{Platform}
           (credentials : TenantCredentials) (issueKeys : string)
  : Async json ToolResponse :=
  Tools.tool_handler Tools.FormatError
    (let keys := Text.comma_list issueKeys in
     _ <- moveIssuesToSprint credentials keys ;;
     ret (success ("Moved " ++ count_of keys ++ " issues to sprint"))).

Definition jira_move_issues_to_backlog `{Platform}
           (credentials : TenantCredentials) (issueKeys : string)
  : Async json ToolResponse :=
  Tools.tool_handler Tools.FormatError
    (let keys := Text.comma_list issueKeys in
     _ <- moveIssuesToBacklog credentials keys ;;
     ret (success ("Moved " ++ count_of keys ++ " issues to backlog"))).

Definition jira_move_issues_to_epic `{Platform}
           (credentials : TenantCredentials) (issueKeys : string)
  : Async json ToolResponse :=
  Tools.tool_handler Tools.FormatError
    (let keys := Text.comma_list issueKeys in
     _ <- moveIssuesToEpic credentials keys ;;
     ret (success ("Moved " ++ count_of keys ++ " issues to epic"))).

Definition jira_remove_issues_from_epic `{Platform}
           (credentials : TenantCredentials) (issueKeys : string)
  : Async json ToolResponse :=
  Tools.tool_handler Tools.FormatError
    (let keys := Text.comma_list issueKeys in
     _ <- removeIssuesFromEpic credentials keys ;;
     ret (success ("Removed " ++ count_of keys ++ " issues from epic"))).

End IssueMoves.

(** The four handlers that move issues, each with the words around the
    count in its message. *)
Definition move_handlers `{Platform}
  : list (string * string
          * (TenantCredentials -> string -> Async json ToolResponse)) :=
  [("Moved ", " issues to sprint", IssueMoves.jira_move_issues_to_sprint);
   ("Moved ", " issues to backlog", IssueMoves.jira_move_issues_to_backlog);
   ("Moved ", " issues to epic", IssueMoves.jira_move_issues_to_epic);
   ("Removed ", " issues from epic", IssueMoves.jira_remove_issues_from_epic)].

Definition no_content : HttpResponse json := Sample.bare 204.

Definition knob_env (text : string) : EnvBindings :=
  fun key =>
    match key with
    | MAX_PAGE_SIZE => EnvString text
    | _ => EnvUndefined
    end.

(* ================================================================== *)
(** * src/client.ts, issue tools: the fields of a created or updated   *)
(** * issue                                                            *)
(* ================================================================== *)

Module Issues.
Import Client.

(** The values that [createIssue] and [updateIssue] store in [fields]:
    a string, [{ name }], [{ key }], [{ accountId }], [null], an array
    of strings, an array of [{ name }] objects, a document, or a value
    copied from [customFields]. *)
Inductive FieldValue : Type :=
| Text (s : string)
| Named (name : string)
| Keyed (key : string)
| Account (accountId : string)
| Null
| Strings (l : list string)
| NamedList (names : list string)
| Doc (d : ADFDocument)
| Custom (value : json).

(** The own properties of the [fields] object. *)
Definition Fields : Type := list (string * FieldValue).

(** [fields[key] = value]. *)
Fixpoint obj_set (o : Fields) (key : string) (value : FieldValue) : Fields :=
  match o with
  | [] => [(key, value)]
  | (k, v) :: rest =>
      if String.eqb k key then (k, value) :: rest
      else (k, v) :: obj_set rest key value
  end.

(** [fields[key]] for an own property, [None] when there is none. *)
Fixpoint obj_get (o : Fields) (key : string) : option FieldValue :=
  match o with
  | [] => None
  | (k, v) :: rest => if String.eqb k key then Some v else obj_get rest key
  end.

(** [if (value) fields[key] = f(value)] for a [string | undefined]. *)
Definition set_truthy (o : Fields) (value : option string) (key : string)
           (f : string -> FieldValue) : Fields :=
  match value with
  | Some (String c s) => obj_set o key (f (String c s))
  | _ => o
  end.

(** [if (value !== undefined) fields[key] = f(value)]; also
    [if (value) ...] for an array, which is truthy even when empty. *)
Definition set_defined {A} (o : Fields) (value : option A) (key : string)
           (f : A -> FieldValue) : Fields :=
  match value with
  | Some x => obj_set o key (f x)
  | None => o
  end.

(** [typeof d === 'string' ? this.toADF(d) : d]. *)
Definition document_of (d : ADFInput) : ADFDocument :=
  match d with
  | Plain s => toADF (Plain s)
  | Object doc => doc
  end.

(** [if (d) ...] for a [string | ADFDocument | undefined]. *)
Definition set_description_truthy (o : Fields) (d : option ADFInput)
  : Fields :=
  match d with
  | Some (Plain EmptyString) | None => o
  | Some x => obj_set o "description" (Doc (document_of x))
  end.

(** [Object.assign(fields, customFields)], as far as own properties go:
    assigning to [__proto__] runs the inherited setter and adds no
    property. *)
Definition assign (target : Fields) (source : list (string * json))
  : Fields :=
  fold_left
    (fun o entry =>
       if String.eqb (fst entry) "__proto__" then o
       else obj_set o (fst entry) (Custom (snd entry)))
    source target.

(** [if (customFields) Object.assign(fields, customFields)]. *)
Definition assign_custom (o : Fields)
           (customFields : option (list (string * json))) : Fields :=
  match customFields with
  | Some source => assign o source
  | None => o
  end.

End Issues.

Module CreateIssue.
Import Client Issues.

Record CreateIssueParams : Type := {
  projectKey : string;
  issueType : string;
  summary : string;
  description : option ADFInput;
  priority : option string;
  assigneeId : option string;
  reporterId : option string;
  labels : option (list string);
  components : option (list string);
  fixVersions : option (list string);
  dueDate : option string;
  parentKey : option string;
  customFields : option (list (string * json))
}.

(** The [fields] that [createIssue] posts as [{ fields }]. *)
Definition createIssue_fields (params : CreateIssueParams) : Fields :=
  let fields :=
    [("project", Keyed (projectKey params));
     ("issuetype", Named (issueType params));
     ("summary", Text (summary params))] in
  let fields := set_description_truthy fields (description params) in
  let fields := set_truthy fields (priority params) "priority" Named in
  let fields := set_truthy fields (assigneeId params) "assignee" Account in
  let fields := set_truthy fields (reporterId params) "reporter" Account in
  let fields := set_defined fields (labels params) "labels" Strings in
  let fields :=
    set_defined fields (components params) "components" NamedList in
  let fields :=
    set_defined fields (fixVersions params) "fixVersions" NamedList in
  let fields := set_truthy fields (dueDate params) "duedate" Text in
  let fields := set_truthy fields (parentKey params) "parent" Keyed in
  assign_custom fields (customFields params).

(** The arguments of the tool [jira_create_issue]. *)
Record Args : Type := {
  arg_projectKey : string;
  arg_issueType : string;
  arg_summary : string;
  arg_description : option string;
  arg_priority : option string;
  arg_assigneeId : option string;
  arg_labels : option string;
  arg_components : option string;
  arg_fixVersions : option string;
  arg_dueDate : option string;
  arg_parentKey : option string
}.

(** The parameters that the handler of [jira_create_issue] passes to
    [createIssue]. *)
Definition jira_create_issue_params (a : Args) : CreateIssueParams :=
  {| projectKey := arg_projectKey a;
     issueType := arg_issueType a;
     summary := arg_summary a;
     description := option_map Plain (arg_description a);
     priority := arg_priority a;
     assigneeId := arg_assigneeId a;
     reporterId := None;
     labels := option_map Text.comma_list (arg_labels a);
     components := option_map Text.comma_list (arg_components a);
     fixVersions := option_map Text.comma_list (arg_fixVersions a);
     dueDate := arg_dueDate a;
     parentKey := arg_parentKey a;
     customFields := None |}.

End CreateIssue.

Module UpdateIssue.
Import Client Issues.

Record UpdateIssueParams : Type := {
  summary : option string;
  description : option ADFInput;
  priority : option string;
  assigneeId : option string;
  labels : option (list string);
  components : option (list string);
  fixVersions : option (list string);
  dueDate : option string;
  customFields : option (list (string * json))
}.

(** [assigneeId ? { accountId: assigneeId } : null]. *)
Definition assignee_of (assigneeId : string) : FieldValue :=
  match assigneeId with
  | EmptyString => Null
  | _ => Account assigneeId
  end.

(** The [fields] that [updateIssue] puts as [{ fields }]. *)
Definition updateIssue_fields (params : UpdateIssueParams) : Fields :=
  let fields := [] in
  let fields := set_defined fields (summary params) "summary" Text in
  let fields :=
    set_defined fields (description params) "description"
      (fun d => Doc (document_of d)) in
  let fields := set_defined fields (priority params) "priority" Named in
  let fields :=
    set_defined fields (assigneeId params) "assignee" assignee_of in
  let fields := set_defined fields (labels params) "labels" Strings in
  let fields :=
    set_defined fields (components params) "components" NamedList in
  let fields :=
    set_defined fields (fixVersions params) "fixVersions" NamedList in
  let fields := set_defined fields (dueDate params) "duedate" Text in
  assign_custom fields (customFields params).

(** The arguments of the tool [jira_update_issue], without the issue
    key, which goes into the URL. *)
Record Args : Type := {
  arg_summary : option string;
  arg_description : option string;
  arg_priority : option string;
  arg_assigneeId : option string;
  arg_labels : option string;
  arg_components : option string;
  arg_fixVersions : option string;
  arg_dueDate : option string
}.

(** The parameters that the handler of [jira_update_issue] passes to
    [updateIssue]. *)
Definition jira_update_issue_params (a : Args) : UpdateIssueParams :=
  {| summary := arg_summary a;
     description := option_map Plain (arg_description a);
     priority := arg_priority a;
     assigneeId := arg_assigneeId a;
     labels := option_map Text.comma_list (arg_labels a);
     components := option_map Text.comma_list (arg_components a);
     fixVersions := option_map Text.comma_list (arg_fixVersions a);
     dueDate := arg_dueDate a;
     customFields := None |}.

End UpdateIssue.

(** The arguments of [jira_create_issue] with every empty optional text
    taken as missing. *)
Definition without_empty_text (a : CreateIssue.Args) : CreateIssue.Args :=
  {| CreateIssue.arg_projectKey := CreateIssue.arg_projectKey a;
     CreateIssue.arg_issueType := CreateIssue.arg_issueType a;
     CreateIssue.arg_summary := CreateIssue.arg_summary a;
     CreateIssue.arg_description :=
       Js.or_undefined (CreateIssue.arg_description a);
     CreateIssue.arg_priority := Js.or_undefined (CreateIssue.arg_priority a);
     CreateIssue.arg_assigneeId :=
       Js.or_undefined (CreateIssue.arg_assigneeId a);
     CreateIssue.arg_labels := CreateIssue.arg_labels a;
     CreateIssue.arg_components := CreateIssue.arg_components a;
     CreateIssue.arg_fixVersions := CreateIssue.arg_fixVersions a;
     CreateIssue.arg_dueDate := Js.or_undefined (CreateIssue.arg_dueDate a);
     CreateIssue.arg_parentKey :=
       Js.or_undefined (CreateIssue.arg_parentKey a) |}.

Definition given {A} (v : option A) : bool :=
  match v with Some _ => true | None => false end.

(** The field that each argument of [jira_update_issue] goes to, and
    whether the argument was given. *)
Definition update_arguments (a : UpdateIssue.Args) : list (string * bool) :=
  [("summary", given (UpdateIssue.arg_summary a));
   ("description", given (UpdateIssue.arg_description a));
   ("priority", given (UpdateIssue.arg_priority a));
   ("assignee", given (UpdateIssue.arg_assigneeId a));
   ("labels", given (UpdateIssue.arg_labels a));
   ("components", given (UpdateIssue.arg_components a));
   ("fixVersions", given (UpdateIssue.arg_fixVersions a));
   ("duedate", given (UpdateIssue.arg_dueDate a))].

Definition create_params (custom : option (list (string * json)))
  : CreateIssue.CreateIssueParams :=
  {| CreateIssue.projectKey := "OPS";
     CreateIssue.issueType := "Task";
     CreateIssue.summary := "Rotate the keys";
     CreateIssue.description := None;
     CreateIssue.priority := Some "High";
     CreateIssue.assigneeId := None;
     CreateIssue.reporterId := None;
     CreateIssue.labels := None;
     CreateIssue.components := None;
     CreateIssue.fixVersions := None;
     CreateIssue.dueDate := None;
     CreateIssue.parentKey := None;
     CreateIssue.customFields := custom |}.

Definition custom_summary : list (string * json) :=
  [("customfield_10001", JNum 5); ("summary", JStr "Replaced")].

Definition unassign : UpdateIssue.Args :=
  {| UpdateIssue.arg_summary := None;
     UpdateIssue.arg_description := None;
     UpdateIssue.arg_priority := None;
     UpdateIssue.arg_assigneeId := Some EmptyString;
     UpdateIssue.arg_labels := Some EmptyString;
     UpdateIssue.arg_components := None;
     UpdateIssue.arg_fixVersions := None;
     UpdateIssue.arg_dueDate := None |}.

Definition plain_table (rows : list json) : Completion JsError string :=
  Return (Js.join Markdown.newline (map Sample.render rows)).

Definition plain_tables : Markdown.Tables :=
  {| Markdown.formatIssuesTable := plain_table;
     Markdown.formatProjectsTable := plain_table;
     Markdown.formatUsersTable := plain_table;
     Markdown.formatBoardsTable := plain_table;
     Markdown.formatSprintsTable := plain_table;
     Markdown.formatCommentsTable := plain_table;
     Markdown.formatWorklogsTable := plain_table;
     Markdown.formatFiltersTable := plain_table;
     Markdown.formatDashboardsTable := plain_table;
     Markdown.formatGenericTable := plain_table |}.

Definition third_page_of_two : Tools.ListArgs :=
  {| Tools.startAt := 4; Tools.maxResults := 2;
     Tools.format := format_markdown |}.

Definition third_page_markdown : string :=
  match
    Markdown.formatPaginatedAsMarkdown plain_tables
      (Tools.jira_search_users_envelope third_page_of_two two_users) "users"
  with
  | Return out => out
  | Throw _ => EmptyString
  end.

(** The comma-separated arguments of [jira_create_issue] and of
    [jira_update_issue]: the field each one goes to, its value, and the
    shape in which its entries are sent. *)
Definition create_list_arguments (a : CreateIssue.Args)
  : list (string * option string * (list string -> Issues.FieldValue)) :=
  [("labels", CreateIssue.arg_labels a, Issues.Strings);
   ("components", CreateIssue.arg_components a, Issues.NamedList);
   ("fixVersions", CreateIssue.arg_fixVersions a, Issues.NamedList)].

Definition update_list_arguments (a : UpdateIssue.Args)
  : list (string * option string * (list string -> Issues.FieldValue)) :=
  [("labels", UpdateIssue.arg_labels a, Issues.Strings);
   ("components", UpdateIssue.arg_components a, Issues.NamedList);
   ("fixVersions", UpdateIssue.arg_fixVersions a, Issues.NamedList)].

(* ================================================================== *)
(** * src/client.ts: the remaining methods that the tools call         *)
(* ================================================================== *)

Module Operations.
Import Errors Env Vendor Client.

(** Every method below makes its one call of [request] after building a
    URL and, for some, a body; neither is an argument of [request] in
    this model, and building them throws nothing. *)

(** ** Methods that return what [request] returned

    The parsed body is only handed on, to [JSON.stringify] or to
    [formatResponse], so it is kept as a [json] value. *)

Definition getIssue (credentials : TenantCredentials)
  : Async json (option json) :=
  request credentials.

Definition addComment (credentials : TenantCredentials)
  : Async json (option json) :=
  request credentials.

Definition updateComment (credentials : TenantCredentials)
  : Async json (option json) :=
  request credentials.

Definition addWorklog (credentials : TenantCredentials)
  : Async json (option json) :=
  request credentials.

Definition updateWorklog (credentials : TenantCredentials)
  : Async json (option json) :=
  request credentials.

Definition getProject (credentials : TenantCredentials)
  : Async json (option json) :=
  request credentials.

Definition createProject (credentials : TenantCredentials)
  : Async json (option json) :=
  request credentials.

Definition updateProject (credentials : TenantCredentials)
  : Async json (option json) :=
  request credentials.

Definition getProjectRoles (credentials : TenantCredentials)
  : Async json (option json) :=
  request credentials.

Definition getProjectComponents (credentials : TenantCredentials)
  : Async json (option json) :=
  request credentials.

Definition createComponent (credentials : TenantCredentials)
  : Async json (option json) :=
  request credentials.

Definition createVersion (credentials : TenantCredentials)
  : Async json (option json) :=
  request credentials.

Definition getIssueTypes (credentials : TenantCredentials)
  : Async json (option json) :=
  request credentials.

Definition getIssueTypesForProject (credentials : TenantCredentials)
  : Async json (option json) :=
  request credentials.

Definition getPriorities (credentials : TenantCredentials)
  : Async json (option json) :=
  request credentials.

Definition getStatuses (credentials : TenantCredentials)
  : Async json (option json) :=
  request credentials.

Definition getResolutions (credentials : TenantCredentials)
  : Async json (option json) :=
  request credentials.

Definition getFields (credentials : TenantCredentials)
  : Async json (option json) :=
  request credentials.

Definition getUser (credentials : TenantCredentials)
  : Async json (option json) :=
  request credentials.

Definition getMyFilters (credentials : TenantCredentials)
  : Async json (option json) :=
  request credentials.

Definition getFavouriteFilters (credentials : TenantCredentials)
  : Async json (option json) :=
  request credentials.

Definition getFilter (credentials : TenantCredentials)
  : Async json (option json) :=
  request credentials.

Definition createFilter (credentials : TenantCredentials)
  : Async json (option json) :=
  request credentials.

Definition updateFilter (credentials : TenantCredentials)
  : Async json (option json) :=
  request credentials.

Definition getDashboard (credentials : TenantCredentials)
  : Async json (option json) :=
  request credentials.

Definition getBoard (credentials : TenantCredentials)
  : Async json (option json) :=
  request credentials.

Definition getSprint (credentials : TenantCredentials)
  : Async json (option json) :=
  request credentials.

Definition createSprint (credentials : TenantCredentials)
  : Async json (option json) :=
  request credentials.

Definition updateSprint (credentials : TenantCredentials)
  : Async json (option json) :=
  request credentials.

Definition getEpic (credentials : TenantCredentials)
  : Async json (option json) :=
  request credentials.

Definition getServerInfo (credentials : TenantCredentials)
  : Async json (option json) :=
  request credentials.

(** ** Methods that return nothing: [await this.request(...)] *)

Definition deleteIssue (credentials : TenantCredentials) : Async json unit :=
  _ <- request credentials ;; ret tt.

Definition transitionIssue (credentials : TenantCredentials) : Async json unit :=
  _ <- request credentials ;; ret tt.

Definition createIssueLink (credentials : TenantCredentials) : Async json unit :=
  _ <- request credentials ;; ret tt.

Definition deleteIssueLink (credentials : TenantCredentials) : Async json unit :=
  _ <- request credentials ;; ret tt.

Definition deleteComment (credentials : TenantCredentials) : Async json unit :=
  _ <- request credentials ;; ret tt.

Definition deleteWorklog (credentials : TenantCredentials) : Async json unit :=
  _ <- request credentials ;; ret tt.

Definition deleteAttachment (credentials : TenantCredentials) : Async json unit :=
  _ <- request credentials ;; ret tt.

Definition addWatcher (credentials : TenantCredentials) : Async json unit :=
  _ <- request credentials ;; ret tt.

Definition removeWatcher (credentials : TenantCredentials) : Async json unit :=
  _ <- request credentials ;; ret tt.

Definition addVote (credentials : TenantCredentials) : Async json unit :=
  _ <- request credentials ;; ret tt.

Definition removeVote (credentials : TenantCredentials) : Async json unit :=
  _ <- request credentials ;; ret tt.

Definition deleteProject (credentials : TenantCredentials) : Async json unit :=
  _ <- request credentials ;; ret tt.

Definition deleteComponent (credentials : TenantCredentials) : Async json unit :=
  _ <- request credentials ;; ret tt.

Definition deleteVersion (credentials : TenantCredentials) : Async json unit :=
  _ <- request credentials ;; ret tt.

Definition releaseVersion (credentials : TenantCredentials) : Async json unit :=
  _ <- request credentials ;; ret tt.

Definition deleteFilter (credentials : TenantCredentials) : Async json unit :=
  _ <- request credentials ;; ret tt.

Definition deleteSprint (credentials : TenantCredentials) : Async json unit :=
  _ <- request credentials ;; ret tt.

(** [assignIssue(issueIdOrKey, accountId)]; the account, or [null],
    goes into the body. *)
Definition assignIssue (credentials : TenantCredentials)
           (accountId : option string) : Async json unit :=
  _ <- request credentials ;; ret tt.

(** [updateIssue(issueIdOrKey, params)]; the body is
    [{ fields }] with the fields of [UpdateIssue.updateIssue_fields]. *)
Definition updateIssue (credentials : TenantCredentials)
           (params : UpdateIssue.UpdateIssueParams) : Async json unit :=
  _ <- request credentials ;; ret tt.

(** ** Methods that read the body *)

(** The body of a created issue: [{ id, key, self }]. *)
Module Created.
Record Body : Type := {
  id : string;
  key : string;
  self : string
}.
End Created.

(** [createIssue(params)]; the body of the request is [{ fields }] with
    the fields of [CreateIssue.createIssue_fields]. *)
Definition createIssue (credentials : TenantCredentials)
           (params : CreateIssue.CreateIssueParams)
  : Async Created.Body (option Created.Body) :=
  request credentials.

Module Transitions.
Record Body : Type := {
  transitions : list json
}.
End Transitions.

Definition getTransitions (credentials : TenantCredentials)
  : Async Transitions.Body (list json) :=
  r <- request credentials ;;
  response <- read "transitions" r ;;
  ret (Transitions.transitions response).

Module LinkTypes.
Record Body : Type := {
  issueLinkTypes : list json
}.
End LinkTypes.

Definition getIssueLinkTypes (credentials : TenantCredentials)
  : Async LinkTypes.Body (list json) :=
  r <- request credentials ;;
  response <- read "issueLinkTypes" r ;;
  ret (LinkTypes.issueLinkTypes response).

Module Watchers.
Record Body : Type := {
  self : string;
  isWatching : bool;
  watchCount : Z;
  watchers : list json
}.
(** What [getWatchers] returns: [{ watchCount, watchers }]. *)
Record Result : Type := {
  result_watchCount : Z;
  result_watchers : list json
}.
End Watchers.

Definition getWatchers (credentials : TenantCredentials)
  : Async Watchers.Body Watchers.Result :=
  r <- request credentials ;;
  response <- read "watchCount" r ;;
  ret {| Watchers.result_watchCount := Watchers.watchCount response;
         Watchers.result_watchers := Watchers.watchers response |}.

Module Votes.
Record Body : Type := {
  self : string;
  votes : Z;
  hasVoted : bool;
  voters : list json
}.
(** What [getVotes] returns: [{ votes, hasVoted, voters }]. *)
Record Result : Type := {
  result_votes : Z;
  result_hasVoted : bool;
  result_voters : list json
}.
End Votes.

Definition getVotes (credentials : TenantCredentials)
  : Async Votes.Body Votes.Result :=
  r <- request credentials ;;
  response <- read "votes" r ;;
  ret {| Votes.result_votes := Votes.votes response;
         Votes.result_hasVoted := Votes.hasVoted response;
         Votes.result_voters := Votes.voters response |}.

End Operations.

(* ================================================================== *)
(** * The remaining tool handlers                                      *)
(* ================================================================== *)

Module Handlers.
Import Errors Env Vendor Client Formatters Operations.

(** A response with one text item and no [isError]. *)
Definition text_result (text : string) : ToolResponse :=
  {| content := [text]; isError := None |}.

(** [JSON.stringify(value, null, 2)] of what a client method returned.
    For [undefined] (after a 204) the result is [undefined], not a
    string; as in [Tools.stringify_myself] it is written as the text
    [undefined]. *)
Definition stringify `{Platform} (value : option json) : string :=
  match value with
  | None => "undefined"
  | Some j => JSON_stringify j
  end.

(** [formatResponse(data, format, entityType)] for data that can be
    [undefined]: [JSON.stringify(undefined, null, 2)] is [undefined] and
    [formatAsMarkdown] falls through to [String(data)]. *)
Definition formatResponse_or_undefined `{Platform} (data : option json)
           (format : ResponseFormat) (entityType : string)
  : Completion JsError ToolResponse :=
  match data with
  | Some j => formatResponse j format entityType
  | None => Return (text_result "undefined")
  end.

(** [{ success: true, message, [key]: value }] as a response;
    [JSON.stringify] leaves out a property whose value is
    [undefined]. *)
Definition success_with `{Platform} (message key : string)
           (value : option json) : ToolResponse :=
  text_result
    (JSON_stringify
       (JObj ([("success", JBool true); ("message", JStr message)]
              ++ match value with
                 | Some j => [(key, j)]
                 | None => []
                 end))).

(** ** Tools that print what the client returned *)

Definition jira_get_board `{Platform} (credentials : TenantCredentials)
  : Async json ToolResponse :=
  Tools.tool_handler Tools.FormatError
    (board <- getBoard credentials ;;
     ret (text_result (stringify board))).

Definition jira_get_sprint `{Platform} (credentials : TenantCredentials)
  : Async json ToolResponse :=
  Tools.tool_handler Tools.FormatError
    (sprint <- getSprint credentials ;;
     ret (text_result (stringify sprint))).

Definition jira_get_epic `{Platform} (credentials : TenantCredentials)
  : Async json ToolResponse :=
  Tools.tool_handler Tools.FormatError
    (epic <- getEpic credentials ;;
     ret (text_result (stringify epic))).

Definition jira_get_user `{Platform} (credentials : TenantCredentials)
  : Async json ToolResponse :=
  Tools.tool_handler Tools.FormatError
    (user <- getUser credentials ;;
     ret (text_result (stringify user))).

Definition jira_get_issue_types `{Platform} (credentials : TenantCredentials)
  : Async json ToolResponse :=
  Tools.tool_handler Tools.FormatError
    (types <- getIssueTypes credentials ;;
     ret (text_result (stringify types))).

Definition jira_get_project_issue_types `{Platform} (credentials : TenantCredentials)
  : Async json ToolResponse :=
  Tools.tool_handler Tools.FormatError
    (types <- getIssueTypesForProject credentials ;;
     ret (text_result (stringify types))).

Definition jira_get_priorities `{Platform} (credentials : TenantCredentials)
  : Async json ToolResponse :=
  Tools.tool_handler Tools.FormatError
    (priorities <- getPriorities credentials ;;
     ret (text_result (stringify priorities))).

Definition jira_get_statuses `{Platform} (credentials : TenantCredentials)
  : Async json ToolResponse :=
  Tools.tool_handler Tools.FormatError
    (statuses <- getStatuses credentials ;;
     ret (text_result (stringify statuses))).

Definition jira_get_resolutions `{Platform} (credentials : TenantCredentials)
  : Async json ToolResponse :=
  Tools.tool_handler Tools.FormatError
    (resolutions <- getResolutions credentials ;;
     ret (text_result (stringify resolutions))).

Definition jira_get_fields `{Platform} (credentials : TenantCredentials)
  : Async json ToolResponse :=
  Tools.tool_handler Tools.FormatError
    (fields <- getFields credentials ;;
     ret (text_result (stringify fields))).

Definition jira_get_server_info `{Platform} (credentials : TenantCredentials)
  : Async json ToolResponse :=
  Tools.tool_handler Tools.FormatError
    (info <- getServerInfo credentials ;;
     ret (text_result (stringify info))).

Definition jira_get_project_components `{Platform} (credentials : TenantCredentials)
  : Async json ToolResponse :=
  Tools.tool_handler Tools.FormatError
    (components <- getProjectComponents credentials ;;
     ret (text_result (stringify components))).

Definition jira_get_project_roles `{Platform} (credentials : TenantCredentials)
  : Async json ToolResponse :=
  Tools.tool_handler Tools.FormatError
    (roles <- getProjectRoles credentials ;;
     ret (text_result (stringify roles))).

Definition jira_get_my_filters `{Platform} (credentials : TenantCredentials)
  : Async json ToolResponse :=
  Tools.tool_handler Tools.FormatError
    (filters <- getMyFilters credentials ;;
     ret (text_result (stringify filters))).

Definition jira_get_favourite_filters `{Platform} (credentials : TenantCredentials)
  : Async json ToolResponse :=
  Tools.tool_handler Tools.FormatError
    (filters <- getFavouriteFilters credentials ;;
     ret (text_result (stringify filters))).

Definition jira_get_filter `{Platform} (credentials : TenantCredentials)
  : Async json ToolResponse :=
  Tools.tool_handler Tools.FormatError
    (filter <- getFilter credentials ;;
     ret (text_result (stringify filter))).

Definition jira_get_dashboard `{Platform} (credentials : TenantCredentials)
  : Async json ToolResponse :=
  Tools.tool_handler Tools.FormatError
    (dashboard <- getDashboard credentials ;;
     ret (text_result (stringify dashboard))).

Definition jira_get_transitions `{Platform} (credentials : TenantCredentials)
  : Async Transitions.Body ToolResponse :=
  Tools.tool_handler Tools.FormatError
    (transitions <- getTransitions credentials ;;
     ret (text_result (JSON_stringify (JArr transitions)))).

Definition jira_get_issue_link_types `{Platform}
           (credentials : TenantCredentials)
  : Async LinkTypes.Body ToolResponse :=
  Tools.tool_handler Tools.FormatError
    (linkTypes <- getIssueLinkTypes credentials ;;
     ret (text_result (JSON_stringify (JArr linkTypes)))).

Definition watchers_json (result : Watchers.Result) : json :=
  JObj [("watchCount", JNum (Watchers.result_watchCount result));
        ("watchers", JArr (Watchers.result_watchers result))].

Definition jira_get_watchers `{Platform} (credentials : TenantCredentials)
  : Async Watchers.Body ToolResponse :=
  Tools.tool_handler Tools.FormatError
    (result <- getWatchers credentials ;;
     ret (text_result (JSON_stringify (watchers_json result)))).

Definition votes_json (result : Votes.Result) : json :=
  JObj [("votes", JNum (Votes.result_votes result));
        ("hasVoted", JBool (Votes.result_hasVoted result));
        ("voters", JArr (Votes.result_voters result))].

Definition jira_get_votes `{Platform} (credentials : TenantCredentials)
  : Async Votes.Body ToolResponse :=
  Tools.tool_handler Tools.FormatError
    (result <- getVotes credentials ;;
     ret (text_result (JSON_stringify (votes_json result)))).

(** A [JiraStatus] as JSON, with the properties in the order of the
    interface. *)
Definition status_json (status : Statuses.JiraStatus) : json :=
  JObj ([("id", JStr (Statuses.id status));
         ("name", JStr (Statuses.name status))]
        ++ match Statuses.description status with
           | Some text => [("description", JStr text)]
           | None => []
           end
        ++ [("statusCategory", Statuses.statusCategory status)]).

Definition jira_get_project_statuses `{Platform}
           (credentials : TenantCredentials)
  : Async (list Statuses.IssueTypeStatuses) ToolResponse :=
  Tools.tool_handler Tools.FormatError
    (statuses <- Statuses.getStatusesForProject credentials ;;
     ret (text_result (JSON_stringify (JArr (map status_json statuses))))).

(** ** Tools that format one object *)

Definition jira_get_issue `{Platform} (credentials : TenantCredentials)
           (format : ResponseFormat) : Async json ToolResponse :=
  Tools.tool_handler Tools.FormatError
    (issue <- getIssue credentials ;;
     lift (formatResponse_or_undefined issue format "issue")).

Definition jira_get_project `{Platform} (credentials : TenantCredentials)
           (format : ResponseFormat) : Async json ToolResponse :=
  Tools.tool_handler Tools.FormatError
    (project <- getProject credentials ;;
     lift (formatResponse_or_undefined project format "project")).

(** ** Tools that report success together with what the client returned *)

Definition jira_add_comment `{Platform} (credentials : TenantCredentials)
  : Async json ToolResponse :=
  Tools.tool_handler Tools.FormatError
    (comment <- addComment credentials ;;
     ret (success_with "Comment added" "comment" comment)).

Definition jira_update_comment `{Platform} (credentials : TenantCredentials)
  : Async json ToolResponse :=
  Tools.tool_handler Tools.FormatError
    (comment <- updateComment credentials ;;
     ret (success_with "Comment updated" "comment" comment)).

Definition jira_add_worklog `{Platform} (credentials : TenantCredentials)
  : Async json ToolResponse :=
  Tools.tool_handler Tools.FormatError
    (worklog <- addWorklog credentials ;;
     ret (success_with "Worklog added" "worklog" worklog)).

Definition jira_update_worklog `{Platform} (credentials : TenantCredentials)
  : Async json ToolResponse :=
  Tools.tool_handler Tools.FormatError
    (worklog <- updateWorklog credentials ;;
     ret (success_with "Worklog updated" "worklog" worklog)).

Definition jira_create_project `{Platform} (credentials : TenantCredentials)
  : Async json ToolResponse :=
  Tools.tool_handler Tools.FormatError
    (project <- createProject credentials ;;
     ret (success_with "Project created" "project" project)).

Definition jira_update_project `{Platform} (credentials : TenantCredentials)
  : Async json ToolResponse :=
  Tools.tool_handler Tools.FormatError
    (project <- updateProject credentials ;;
     ret (success_with "Project updated" "project" project)).

Definition jira_create_component `{Platform} (credentials : TenantCredentials)
  : Async json ToolResponse :=
  Tools.tool_handler Tools.FormatError
    (component <- createComponent credentials ;;
     ret (success_with "Component created" "component" component)).

Definition jira_create_version `{Platform} (credentials : TenantCredentials)
  : Async json ToolResponse :=
  Tools.tool_handler Tools.FormatError
    (version <- createVersion credentials ;;
     ret (success_with "Version created" "version" version)).

Definition jira_create_filter `{Platform} (credentials : TenantCredentials)
  : Async json ToolResponse :=
  Tools.tool_handler Tools.FormatError
    (filter <- createFilter credentials ;;
     ret (success_with "Filter created" "filter" filter)).

Definition jira_update_filter `{Platform} (credentials : TenantCredentials)
  : Async json ToolResponse :=
  Tools.tool_handler Tools.FormatError
    (filter <- updateFilter credentials ;;
     ret (success_with "Filter updated" "filter" filter)).

Definition jira_create_sprint `{Platform} (credentials : TenantCredentials)
  : Async json ToolResponse :=
  Tools.tool_handler Tools.FormatError
    (sprint <- createSprint credentials ;;
     ret (success_with "Sprint created" "sprint" sprint)).

Definition jira_update_sprint `{Platform} (credentials : TenantCredentials)
  : Async json ToolResponse :=
  Tools.tool_handler Tools.FormatError
    (sprint <- updateSprint credentials ;;
     ret (success_with "Sprint updated" "sprint" sprint)).

(** ** Tools that report success with a fixed message *)

Definition jira_delete_comment `{Platform} (credentials : TenantCredentials)
  : Async json ToolResponse :=
  Tools.tool_handler Tools.FormatError
    (_ <- deleteComment credentials ;;
     ret (IssueMoves.success "Comment deleted")).

Definition jira_delete_worklog `{Platform} (credentials : TenantCredentials)
  : Async json ToolResponse :=
  Tools.tool_handler Tools.FormatError
    (_ <- deleteWorklog credentials ;;
     ret (IssueMoves.success "Worklog deleted")).

Definition jira_create_issue_link `{Platform} (credentials : TenantCredentials)
  : Async json ToolResponse :=
  Tools.tool_handler Tools.FormatError
    (_ <- createIssueLink credentials ;;
     ret (IssueMoves.success "Issue link created")).

Definition jira_delete_issue_link `{Platform} (credentials : TenantCredentials)
  : Async json ToolResponse :=
  Tools.tool_handler Tools.FormatError
    (_ <- deleteIssueLink credentials ;;
     ret (IssueMoves.success "Issue link deleted")).

Definition jira_delete_attachment `{Platform} (credentials : TenantCredentials)
  : Async json ToolResponse :=
  Tools.tool_handler Tools.FormatError
    (_ <- deleteAttachment credentials ;;
     ret (IssueMoves.success "Attachment deleted")).

Definition jira_add_watcher `{Platform} (credentials : TenantCredentials)
  : Async json ToolResponse :=
  Tools.tool_handler Tools.FormatError
    (_ <- addWatcher credentials ;;
     ret (IssueMoves.success "Watcher added")).

Definition jira_remove_watcher `{Platform} (credentials : TenantCredentials)
  : Async json ToolResponse :=
  Tools.tool_handler Tools.FormatError
    (_ <- removeWatcher credentials ;;
     ret (IssueMoves.success "Watcher removed")).

Definition jira_add_vote `{Platform} (credentials : TenantCredentials)
  : Async json ToolResponse :=
  Tools.tool_handler Tools.FormatError
    (_ <- addVote credentials ;;
     ret (IssueMoves.success "Vote added")).

Definition jira_remove_vote `{Platform} (credentials : TenantCredentials)
  : Async json ToolResponse :=
  Tools.tool_handler Tools.FormatError
    (_ <- removeVote credentials ;;
     ret (IssueMoves.success "Vote removed")).

Definition jira_delete_project `{Platform} (credentials : TenantCredentials)
  : Async json ToolResponse :=
  Tools.tool_handler Tools.FormatError
    (_ <- deleteProject credentials ;;
     ret (IssueMoves.success "Project deleted")).

Definition jira_delete_component `{Platform} (credentials : TenantCredentials)
  : Async json ToolResponse :=
  Tools.tool_handler Tools.FormatError
    (_ <- deleteComponent credentials ;;
     ret (IssueMoves.success "Component deleted")).

Definition jira_release_version `{Platform} (credentials : TenantCredentials)
  : Async json ToolResponse :=
  Tools.tool_handler Tools.FormatError
    (_ <- releaseVersion credentials ;;
     ret (IssueMoves.success "Version released")).

Definition jira_delete_version `{Platform} (credentials : TenantCredentials)
  : Async json ToolResponse :=
  Tools.tool_handler Tools.FormatError
    (_ <- deleteVersion credentials ;;
     ret (IssueMoves.success "Version deleted")).

Definition jira_delete_filter `{Platform} (credentials : TenantCredentials)
  : Async json ToolResponse :=
  Tools.tool_handler Tools.FormatError
    (_ <- deleteFilter credentials ;;
     ret (IssueMoves.success "Filter deleted")).

Definition jira_delete_sprint `{Platform} (credentials : TenantCredentials)
  : Async json ToolResponse :=
  Tools.tool_handler Tools.FormatError
    (_ <- deleteSprint credentials ;;
     ret (IssueMoves.success "Sprint deleted")).

(** ** Issue tools whose message names the issue *)

Definition created_json (result : Created.Body) : json :=
  JObj [("id", JStr (Created.id result));
        ("key", JStr (Created.key result));
        ("self", JStr (Created.self result))].

(** The message reads [result.key], which throws when the vendor
    answered 204 and [result] is [undefined]. *)
Definition jira_create_issue `{Platform} (credentials : TenantCredentials)
           (a : CreateIssue.Args) : Async Created.Body ToolResponse :=
  Tools.tool_handler Tools.FormatError
    (r <- createIssue credentials (CreateIssue.jira_create_issue_params a) ;;
     result <- read "key" r ;;
     ret (text_result
            (JSON_stringify
               (JObj [("success", JBool true);
                      ("message",
                       JStr ("Issue " ++ Created.key result ++ " created"));
                      ("issue", created_json result)])))).

Definition jira_update_issue `{Platform} (credentials : TenantCredentials)
           (issueIdOrKey : string) (a : UpdateIssue.Args)
  : Async json ToolResponse :=
  Tools.tool_handler Tools.FormatError
    (_ <- updateIssue credentials (UpdateIssue.jira_update_issue_params a) ;;
     ret (IssueMoves.success ("Issue " ++ issueIdOrKey ++ " updated"))).

Definition jira_delete_issue `{Platform} (credentials : TenantCredentials)
           (issueIdOrKey : string) : Async json ToolResponse :=
  Tools.tool_handler Tools.FormatError
    (_ <- deleteIssue credentials ;;
     ret (IssueMoves.success ("Issue " ++ issueIdOrKey ++ " deleted"))).

(** [accountId || null] goes to the client; the message tests
    [accountId] in the same way. *)
Definition jira_assign_issue `{Platform} (credentials : TenantCredentials)
           (issueIdOrKey accountId : string) : Async json ToolResponse :=
  Tools.tool_handler Tools.FormatError
    (_ <- assignIssue credentials (Js.or_undefined (Some accountId)) ;;
     let message :=
       if Js.truthy (Some accountId)
       then "Issue " ++ issueIdOrKey ++ " assigned to " ++ accountId
       else "Issue " ++ issueIdOrKey ++ " unassigned" in
     ret (IssueMoves.success message)).

Definition jira_transition_issue `{Platform}
           (credentials : TenantCredentials) (issueIdOrKey : string)
  : Async json ToolResponse :=
  Tools.tool_handler Tools.FormatError
    (_ <- transitionIssue credentials ;;
     ret (IssueMoves.success ("Issue " ++ issueIdOrKey ++ " transitioned"))).

End Handlers.

(* ================================================================== *)
(** * src/index.ts: the handlers that [createStatelessServer] registers *)
(* ================================================================== *)

Module Registry.
Import Errors Env Vendor Client Formatters.

(** A registered tool: its name, the [catch] clause of its handler, the
    type of the body that its client method parses, the arguments that
    the handler's response depends on, and the handler. *)
Record Tool : Type := {
  name : string;
  clause : Tools.CatchClause;
  Payload : Type;
  Arguments : Type;
  handler : TenantCredentials -> Arguments -> Async Payload ToolResponse
}.

Definition no_arguments {T} (h : TenantCredentials -> Async T ToolResponse)
  : TenantCredentials -> unit -> Async T ToolResponse :=
  fun credentials _ => h credentials.

(** The tools of the group [issues], in the order of registration. *)
Definition issues_handlers `{Platform} : list Tool :=
 [{| name := "jira_search_issues";
     clause := Tools.FormatError;
     Payload := Search.JiraSearchResult;
     Arguments := Tools.ListArgs;
     handler := Tools.jira_search_issues |};
  {| name := "jira_get_issue";
     clause := Tools.FormatError;
     Payload := json;
     Arguments := ResponseFormat;
     handler := Handlers.jira_get_issue |};
  {| name := "jira_create_issue";
     clause := Tools.FormatError;
     Payload := Operations.Created.Body;
     Arguments := CreateIssue.Args;
     handler := Handlers.jira_create_issue |};
  {| name := "jira_update_issue";
     clause := Tools.FormatError;
     Payload := json;
     Arguments := string * UpdateIssue.Args;
     handler := fun credentials a => Handlers.jira_update_issue credentials (fst a) (snd a) |};
  {| name := "jira_delete_issue";
     clause := Tools.FormatError;
     Payload := json;
     Arguments := string;
     handler := Handlers.jira_delete_issue |};
  {| name := "jira_assign_issue";
     clause := Tools.FormatError;
     Payload := json;
     Arguments := string * string;
     handler := fun credentials a => Handlers.jira_assign_issue credentials (fst a) (snd a) |};
  {| name := "jira_get_transitions";
     clause := Tools.FormatError;
     Payload := Operations.Transitions.Body;
     Arguments := unit;
     handler := no_arguments Handlers.jira_get_transitions |};
  {| name := "jira_transition_issue";
     clause := Tools.FormatError;
     Payload := json;
     Arguments := string;
     handler := Handlers.jira_transition_issue |};
  {| name := "jira_get_changelog";
     clause := Tools.FormatError;
     Payload := Page;
     Arguments := Tools.ListArgs;
     handler := Tools.jira_get_changelog |}].

(** The tools of the group [comments], in the order of registration. *)
Definition comments_handlers `{Platform} : list Tool :=
 [{| name := "jira_get_comments";
     clause := Tools.FormatError;
     Payload := Page;
     Arguments := Tools.ListArgs;
     handler := Tools.jira_get_comments |};
  {| name := "jira_add_comment";
     clause := Tools.FormatError;
     Payload := json;
     Arguments := unit;
     handler := no_arguments Handlers.jira_add_comment |};
  {| name := "jira_update_comment";
     clause := Tools.FormatError;
     Payload := json;
     Arguments := unit;
     handler := no_arguments Handlers.jira_update_comment |};
  {| name := "jira_delete_comment";
     clause := Tools.FormatError;
     Payload := json;
     Arguments := unit;
     handler := no_arguments Handlers.jira_delete_comment |};
  {| name := "jira_get_worklogs";
     clause := Tools.FormatError;
     Payload := Page;
     Arguments := Tools.ListArgs;
     handler := Tools.jira_get_worklogs |};
  {| name := "jira_add_worklog";
     clause := Tools.FormatError;
     Payload := json;
     Arguments := unit;
     handler := no_arguments Handlers.jira_add_worklog |};
  {| name := "jira_update_worklog";
     clause := Tools.FormatError;
     Payload := json;
     Arguments := unit;
     handler := no_arguments Handlers.jira_update_worklog |};
  {| name := "jira_delete_worklog";
     clause := Tools.FormatError;
     Payload := json;
     Arguments := unit;
     handler := no_arguments Handlers.jira_delete_worklog |}].

(** The tools of the group [projects], in the order of registration. *)
Definition projects_handlers `{Platform} : list Tool :=
 [{| name := "jira_list_projects";
     clause := Tools.FormatError;
     Payload := Page;
     Arguments := Tools.ListArgs;
     handler := Tools.jira_list_projects |};
  {| name := "jira_get_project";
     clause := Tools.FormatError;
     Payload := json;
     Arguments := ResponseFormat;
     handler := Handlers.jira_get_project |};
  {| name := "jira_create_project";
     clause := Tools.FormatError;
     Payload := json;
     Arguments := unit;
     handler := no_arguments Handlers.jira_create_project |};
  {| name := "jira_update_project";
     clause := Tools.FormatError;
     Payload := json;
     Arguments := unit;
     handler := no_arguments Handlers.jira_update_project |};
  {| name := "jira_delete_project";
     clause := Tools.FormatError;
     Payload := json;
     Arguments := unit;
     handler := no_arguments Handlers.jira_delete_project |};
  {| name := "jira_get_project_components";
     clause := Tools.FormatError;
     Payload := json;
     Arguments := unit;
     handler := no_arguments Handlers.jira_get_project_components |};
  {| name := "jira_create_component";
     clause := Tools.FormatError;
     Payload := json;
     Arguments := unit;
     handler := no_arguments Handlers.jira_create_component |};
  {| name := "jira_delete_component";
     clause := Tools.FormatError;
     Payload := json;
     Arguments := unit;
     handler := no_arguments Handlers.jira_delete_component |};
  {| name := "jira_get_project_versions";
     clause := Tools.FormatError;
     Payload := Page;
     Arguments := Tools.ListArgs;
     handler := Tools.jira_get_project_versions |};
  {| name := "jira_create_version";
     clause := Tools.FormatError;
     Payload := json;
     Arguments := unit;
     handler := no_arguments Handlers.jira_create_version |};
  {| name := "jira_release_version";
     clause := Tools.FormatError;
     Payload := json;
     Arguments := unit;
     handler := no_arguments Handlers.jira_release_version |};
  {| name := "jira_delete_version";
     clause := Tools.FormatError;
     Payload := json;
     Arguments := unit;
     handler := no_arguments Handlers.jira_delete_version |};
  {| name := "jira_get_project_roles";
     clause := Tools.FormatError;
     Payload := json;
     Arguments := unit;
     handler := no_arguments Handlers.jira_get_project_roles |}].

(** The tools of the group [agile], in the order of registration. *)
Definition agile_handlers `{Platform} : list Tool :=
 [{| name := "jira_list_boards";
     clause := Tools.FormatError;
     Payload := Page;
     Arguments := Tools.ListArgs;
     handler := Tools.jira_list_boards |};
  {| name := "jira_get_board";
     clause := Tools.FormatError;
     Payload := json;
     Arguments := unit;
     handler := no_arguments Handlers.jira_get_board |};
  {| name := "jira_get_board_issues";
     clause := Tools.FormatError;
     Payload := Search.JiraSearchResult;
     Arguments := Tools.ListArgs;
     handler := Tools.jira_get_board_issues |};
  {| name := "jira_get_backlog_issues";
     clause := Tools.FormatError;
     Payload := Search.JiraSearchResult;
     Arguments := Tools.ListArgs;
     handler := Tools.jira_get_backlog_issues |};
  {| name := "jira_list_sprints";
     clause := Tools.FormatError;
     Payload := Page;
     Arguments := Tools.ListArgs;
     handler := Tools.jira_list_sprints |};
  {| name := "jira_get_sprint";
     clause := Tools.FormatError;
     Payload := json;
     Arguments := unit;
     handler := no_arguments Handlers.jira_get_sprint |};
  {| name := "jira_get_sprint_issues";
     clause := Tools.FormatError;
     Payload := Search.JiraSearchResult;
     Arguments := Tools.ListArgs;
     handler := Tools.jira_get_sprint_issues |};
  {| name := "jira_create_sprint";
     clause := Tools.FormatError;
     Payload := json;
     Arguments := unit;
     handler := no_arguments Handlers.jira_create_sprint |};
  {| name := "jira_update_sprint";
     clause := Tools.FormatError;
     Payload := json;
     Arguments := unit;
     handler := no_arguments Handlers.jira_update_sprint |};
  {| name := "jira_delete_sprint";
     clause := Tools.FormatError;
     Payload := json;
     Arguments := unit;
     handler := no_arguments Handlers.jira_delete_sprint |};
  {| name := "jira_move_issues_to_sprint";
     clause := Tools.FormatError;
     Payload := json;
     Arguments := string;
     handler := IssueMoves.jira_move_issues_to_sprint |};
  {| name := "jira_move_issues_to_backlog";
     clause := Tools.FormatError;
     Payload := json;
     Arguments := string;
     handler := IssueMoves.jira_move_issues_to_backlog |};
  {| name := "jira_list_epics";
     clause := Tools.FormatError;
     Payload := Page;
     Arguments := Tools.ListArgs;
     handler := Tools.jira_list_epics |};
  {| name := "jira_get_epic";
     clause := Tools.FormatError;
     Payload := json;
     Arguments := unit;
     handler := no_arguments Handlers.jira_get_epic |};
  {| name := "jira_get_epic_issues";
     clause := Tools.FormatError;
     Payload := Search.JiraSearchResult;
     Arguments := Tools.ListArgs;
     handler := Tools.jira_get_epic_issues |};
  {| name := "jira_move_issues_to_epic";
     clause := Tools.FormatError;
     Payload := json;
     Arguments := string;
     handler := IssueMoves.jira_move_issues_to_epic |};
  {| name := "jira_remove_issues_from_epic";
     clause := Tools.FormatError;
     Payload := json;
     Arguments := string;
     handler := IssueMoves.jira_remove_issues_from_epic |}].

(** The tools of the group [users], in the order of registration. *)
Definition users_handlers `{Platform} : list Tool :=
 [{| name := "jira_get_user";
     clause := Tools.FormatError;
     Payload := json;
     Arguments := unit;
     handler := no_arguments Handlers.jira_get_user |};
  {| name := "jira_search_users";
     clause := Tools.FormatError;
     Payload := list json;
     Arguments := Tools.ListArgs;
     handler := Tools.jira_search_users |};
  {| name := "jira_find_assignable_users";
     clause := Tools.FormatError;
     Payload := list json;
     Arguments := Tools.ListArgs;
     handler := Tools.jira_find_assignable_users |};
  {| name := "jira_list_groups";
     clause := Tools.FormatError;
     Payload := Page;
     Arguments := Tools.ListArgs;
     handler := Tools.jira_list_groups |};
  {| name := "jira_get_group_members";
     clause := Tools.FormatError;
     Payload := Page;
     Arguments := Tools.ListArgs;
     handler := Tools.jira_get_group_members |};
  {| name := "jira_get_watchers";
     clause := Tools.FormatError;
     Payload := Operations.Watchers.Body;
     Arguments := unit;
     handler := no_arguments Handlers.jira_get_watchers |};
  {| name := "jira_add_watcher";
     clause := Tools.FormatError;
     Payload := json;
     Arguments := unit;
     handler := no_arguments Handlers.jira_add_watcher |};
  {| name := "jira_remove_watcher";
     clause := Tools.FormatError;
     Payload := json;
     Arguments := unit;
     handler := no_arguments Handlers.jira_remove_watcher |};
  {| name := "jira_get_votes";
     clause := Tools.FormatError;
     Payload := Operations.Votes.Body;
     Arguments := unit;
     handler := no_arguments Handlers.jira_get_votes |};
  {| name := "jira_add_vote";
     clause := Tools.FormatError;
     Payload := json;
     Arguments := unit;
     handler := no_arguments Handlers.jira_add_vote |};
  {| name := "jira_remove_vote";
     clause := Tools.FormatError;
     Payload := json;
     Arguments := unit;
     handler := no_arguments Handlers.jira_remove_vote |}].

(** The tools of the group [metadata], in the order of registration. *)
Definition metadata_handlers `{Platform} : list Tool :=
 [{| name := "jira_get_issue_types";
     clause := Tools.FormatError;
     Payload := json;
     Arguments := unit;
     handler := no_arguments Handlers.jira_get_issue_types |};
  {| name := "jira_get_project_issue_types";
     clause := Tools.FormatError;
     Payload := json;
     Arguments := unit;
     handler := no_arguments Handlers.jira_get_project_issue_types |};
  {| name := "jira_get_priorities";
     clause := Tools.FormatError;
     Payload := json;
     Arguments := unit;
     handler := no_arguments Handlers.jira_get_priorities |};
  {| name := "jira_get_statuses";
     clause := Tools.FormatError;
     Payload := json;
     Arguments := unit;
     handler := no_arguments Handlers.jira_get_statuses |};
  {| name := "jira_get_project_statuses";
     clause := Tools.FormatError;
     Payload := list Statuses.IssueTypeStatuses;
     Arguments := unit;
     handler := no_arguments Handlers.jira_get_project_statuses |};
  {| name := "jira_get_resolutions";
     clause := Tools.FormatError;
     Payload := json;
     Arguments := unit;
     handler := no_arguments Handlers.jira_get_resolutions |};
  {| name := "jira_get_fields";
     clause := Tools.FormatError;
     Payload := json;
     Arguments := unit;
     handler := no_arguments Handlers.jira_get_fields |};
  {| name := "jira_get_issue_link_types";
     clause := Tools.FormatError;
     Payload := Operations.LinkTypes.Body;
     Arguments := unit;
     handler := no_arguments Handlers.jira_get_issue_link_types |};
  {| name := "jira_create_issue_link";
     clause := Tools.FormatError;
     Payload := json;
     Arguments := unit;
     handler := no_arguments Handlers.jira_create_issue_link |};
  {| name := "jira_delete_issue_link";
     clause := Tools.FormatError;
     Payload := json;
     Arguments := unit;
     handler := no_arguments Handlers.jira_delete_issue_link |};
  {| name := "jira_get_labels";
     clause := Tools.FormatError;
     Payload := Page;
     Arguments := unit;
     handler := no_arguments Tools.jira_get_labels |};
  {| name := "jira_get_server_info";
     clause := Tools.FormatError;
     Payload := json;
     Arguments := unit;
     handler := no_arguments Handlers.jira_get_server_info |};
  {| name := "jira_delete_attachment";
     clause := Tools.FormatError;
     Payload := json;
     Arguments := unit;
     handler := no_arguments Handlers.jira_delete_attachment |}].

(** The tools of the group [filters], in the order of registration. *)
Definition filters_handlers `{Platform} : list Tool :=
 [{| name := "jira_get_my_filters";
     clause := Tools.FormatError;
     Payload := json;
     Arguments := unit;
     handler := no_arguments Handlers.jira_get_my_filters |};
  {| name := "jira_get_favourite_filters";
     clause := Tools.FormatError;
     Payload := json;
     Arguments := unit;
     handler := no_arguments Handlers.jira_get_favourite_filters |};
  {| name := "jira_get_filter";
     clause := Tools.FormatError;
     Payload := json;
     Arguments := unit;
     handler := no_arguments Handlers.jira_get_filter |};
  {| name := "jira_create_filter";
     clause := Tools.FormatError;
     Payload := json;
     Arguments := unit;
     handler := no_arguments Handlers.jira_create_filter |};
  {| name := "jira_update_filter";
     clause := Tools.FormatError;
     Payload := json;
     Arguments := unit;
     handler := no_arguments Handlers.jira_update_filter |};
  {| name := "jira_delete_filter";
     clause := Tools.FormatError;
     Payload := json;
     Arguments := unit;
     handler := no_arguments Handlers.jira_delete_filter |};
  {| name := "jira_list_dashboards";
     clause := Tools.FormatError;
     Payload := Page;
     Arguments := Tools.ListArgs;
     handler := Tools.jira_list_dashboards |};
  {| name := "jira_get_dashboard";
     clause := Tools.FormatError;
     Payload := json;
     Arguments := unit;
     handler := no_arguments Handlers.jira_get_dashboard |}].

(** The two tools that index.ts registers itself. *)
Definition connection_handlers `{Platform} : list Tool :=
 [{| name := "jira_test_connection";
     clause := Tools.Prefixed "Connection failed: ";
     Payload := JiraMyself;
     Arguments := unit;
     handler := no_arguments Tools.jira_test_connection |};
  {| name := "jira_get_myself";
     clause := Tools.Prefixed "Failed to get user: ";
     Payload := JiraMyself;
     Arguments := unit;
     handler := no_arguments Tools.jira_get_myself |}].

(** What [createStatelessServer] registers, in order. *)
Definition tools `{Platform} : list Tool :=
  issues_handlers ++ comments_handlers ++ projects_handlers
  ++ agile_handlers ++ users_handlers ++ metadata_handlers
  ++ filters_handlers ++ connection_handlers.

End Registry.

(** The handlers and the client methods, for unfolding in proofs. *)
Create HintDb handlers.
Create HintDb methods.

#[local] Hint Unfold
  Tools.jira_search_issues Tools.jira_get_board_issues
  Tools.jira_get_backlog_issues Tools.jira_get_sprint_issues
  Tools.jira_get_epic_issues Tools.jira_search_users
  Tools.jira_find_assignable_users Tools.jira_get_changelog
  Tools.jira_get_comments Tools.jira_get_worklogs Tools.jira_list_projects
  Tools.jira_get_project_versions Tools.jira_list_groups
  Tools.jira_get_group_members Tools.jira_list_dashboards
  Tools.jira_list_boards Tools.jira_list_sprints Tools.jira_list_epics
  Tools.jira_get_labels Tools.jira_test_connection Tools.jira_get_myself
  IssueMoves.jira_move_issues_to_sprint
  IssueMoves.jira_move_issues_to_backlog IssueMoves.jira_move_issues_to_epic
  IssueMoves.jira_remove_issues_from_epic
  Handlers.jira_get_board Handlers.jira_get_sprint Handlers.jira_get_epic
  Handlers.jira_get_user Handlers.jira_get_issue_types
  Handlers.jira_get_project_issue_types Handlers.jira_get_priorities
  Handlers.jira_get_statuses Handlers.jira_get_resolutions
  Handlers.jira_get_fields Handlers.jira_get_server_info
  Handlers.jira_get_project_components Handlers.jira_get_project_roles
  Handlers.jira_get_my_filters Handlers.jira_get_favourite_filters
  Handlers.jira_get_filter Handlers.jira_get_dashboard
  Handlers.jira_get_transitions Handlers.jira_get_issue_link_types
  Handlers.jira_get_watchers Handlers.jira_get_votes
  Handlers.jira_get_project_statuses Handlers.jira_get_issue
  Handlers.jira_get_project Handlers.jira_add_comment
  Handlers.jira_update_comment Handlers.jira_add_worklog
  Handlers.jira_update_worklog Handlers.jira_create_project
  Handlers.jira_update_project Handlers.jira_create_component
  Handlers.jira_create_version Handlers.jira_create_filter
  Handlers.jira_update_filter Handlers.jira_create_sprint
  Handlers.jira_update_sprint Handlers.jira_delete_comment
  Handlers.jira_delete_worklog Handlers.jira_create_issue_link
  Handlers.jira_delete_issue_link Handlers.jira_delete_attachment
  Handlers.jira_add_watcher Handlers.jira_remove_watcher
  Handlers.jira_add_vote Handlers.jira_remove_vote
  Handlers.jira_delete_project Handlers.jira_delete_component
  Handlers.jira_release_version Handlers.jira_delete_version
  Handlers.jira_delete_filter Handlers.jira_delete_sprint
  Handlers.jira_create_issue Handlers.jira_update_issue
  Handlers.jira_delete_issue Handlers.jira_assign_issue
  Handlers.jira_transition_issue
  Registry.no_arguments : handlers.

#[local] Hint Unfold
  Client.getMyself Client.searchIssues Client.getBoardIssues
  Client.getBacklogIssues Client.getSprintIssues Client.getEpicIssues
  Client.findUsers Client.findAssignableUsers Client.getChangelog
  Client.getComments Client.getWorklogs Client.listProjects
  Client.getProjectVersions Client.getGroups Client.getGroupMembers
  Client.getDashboards Client.getBoards Client.getSprints Client.getEpics
  Client.getLabels
  IssueMoves.moveIssuesToSprint IssueMoves.moveIssuesToBacklog
  IssueMoves.moveIssuesToEpic IssueMoves.removeIssuesFromEpic
  Operations.getIssue Operations.addComment Operations.updateComment
  Operations.addWorklog Operations.updateWorklog Operations.getProject
  Operations.createProject Operations.updateProject
  Operations.getProjectRoles Operations.getProjectComponents
  Operations.createComponent Operations.createVersion
  Operations.getIssueTypes Operations.getIssueTypesForProject
  Operations.getPriorities Operations.getStatuses Operations.getResolutions
  Operations.getFields Operations.getUser Operations.getMyFilters
  Operations.getFavouriteFilters Operations.getFilter
  Operations.createFilter Operations.updateFilter Operations.getDashboard
  Operations.getBoard Operations.getSprint Operations.createSprint
  Operations.updateSprint Operations.getEpic Operations.getServerInfo
  Operations.deleteIssue Operations.transitionIssue
  Operations.createIssueLink Operations.deleteIssueLink
  Operations.deleteComment Operations.deleteWorklog
  Operations.deleteAttachment Operations.addWatcher Operations.removeWatcher
  Operations.addVote Operations.removeVote Operations.deleteProject
  Operations.deleteComponent Operations.deleteVersion
  Operations.releaseVersion Operations.deleteFilter Operations.deleteSprint
  Operations.assignIssue Operations.updateIssue Operations.createIssue
  Operations.getTransitions Operations.getIssueLinkTypes
  Operations.getWatchers Operations.getVotes
  Statuses.getStatusesForProject : methods.

(** A call of a registered tool: the handler of one of the registered
    tools, applied to a tenant's credentials and to arguments. *)
Inductive registered_call `{Platform}
  : forall T : Type, Async T ToolResponse -> Prop :=
| call_of (tool : Registry.Tool) (credentials : TenantCredentials)
          (a : Registry.Arguments tool) :
    In tool Registry.tools ->
    registered_call (Registry.Payload tool)
                    (Registry.handler tool credentials a).

(* ================================================================== *)
(** * Properties                                                       *)
(* ================================================================== *)

(** ** Runtime pieces *)

Example btoa_Man : Js.btoa "Man" = "TWFu".
Proof. reflexivity. Qed.

Example btoa_Ma : Js.btoa "Ma" = "TWE=".
Proof. reflexivity. Qed.

Example btoa_M : Js.btoa "M" = "TQ==".
Proof. reflexivity. Qed.

Example parseInt_plain : Js.parseInt10 "50000" = Js.Num 50000.
Proof. reflexivity. Qed.

Example parseInt_prefix : Js.parseInt10 "  -12abc" = Js.Num (-12).
Proof. reflexivity. Qed.

Example parseInt_letters : Js.parseInt10 "abc" = Js.NaN.
Proof. reflexivity. Qed.

Example parseInt_empty : Js.parseInt10 EmptyString = Js.NaN.
Proof. reflexivity. Qed.

Example string_of_Z_404 : Js.string_of_Z 404 = "404".
Proof. reflexivity. Qed.

(** Beyond [2 ^ 53] the parse is rounded as a double is: to the even
    neighbour when half-way, otherwise to the nearest. *)
Example parseInt_rounds_to_even :
  Js.parseInt10 "9007199254740993" = Js.Num 9007199254740992
  /\ Js.parseInt10 "9007199254740995" = Js.Num 9007199254740996
  /\ Js.parseInt10 "-9007199254740993" = Js.Num (-9007199254740992).
Proof. repeat split. Qed.

Example parseInt_rounds_to_nearest :
  Js.parseInt10 "18014398509481985" = Js.Num 18014398509481984
  /\ Js.parseInt10 "18014398509481987" = Js.Num 18014398509481988
  /\ Js.parseInt10 "1000000000000000000000000"
     = Js.Num 999999999999999983222784.
Proof. repeat split. Qed.

(** [parseInt10] reads the decimal rendering of an integer as the
    double nearest to it, so exactly up to [2 ^ 53] in magnitude. *)

Lemma toDouble_safe (z : Z) : Z.abs z <= 2 ^ 53 -> Js.toDouble z = z.
Proof.
  intros Hz. unfold Js.toDouble.
  destruct (Z.ltb_spec (Z.abs z) (2 ^ 53)) as [Hlt|Hge]; [reflexivity|].
  change (2 ^ 53) with 9007199254740992 in *.
  assert (Hcases : z = 9007199254740992 \/ z = -9007199254740992) by lia.
  destruct Hcases as [-> | ->]; reflexivity.
Qed.

Lemma digits_horner (d : Decimal.uint) (acc : Z) :
  Js.digitsPrefix (NilEmpty.string_of_uint d) (Some acc)
  = Some (horner d acc).
Proof.
  revert acc. induction d; intros acc; cbn; try apply IHd. reflexivity.
Qed.

Lemma digits_horner_start (d : Decimal.uint) :
  d <> Decimal.Nil ->
  Js.digitsPrefix (NilEmpty.string_of_uint d) None = Some (horner d 0).
Proof.
  intros Hd. destruct d; [contradiction | ..]; cbn; apply digits_horner.
Qed.

Lemma of_uint_acc_horner (d : Decimal.uint) (p : positive) :
  Z.pos (Pos.of_uint_acc d p) = horner d (Z.pos p).
Proof.
  revert p. induction d; intros p; cbn [Pos.of_uint_acc horner];
    try (rewrite IHd; f_equal; lia). reflexivity.
Qed.

Lemma of_uint_horner (d : Decimal.uint) :
  Z.of_N (Pos.of_uint d) = horner d 0.
Proof.
  induction d; cbn [Pos.of_uint horner Z.of_N];
    try (rewrite of_uint_acc_horner; reflexivity);
    [reflexivity | exact IHd].
Qed.

Lemma horner_to_uint (p : positive) : horner (Pos.to_uint p) 0 = Z.pos p.
Proof.
  rewrite <- of_uint_horner, Unsigned.of_to. reflexivity.
Qed.

(** Beyond [2 ^ 53], [toDouble] gives a value with 53 significant bits
    that is at most half a spacing away. *)
Lemma toDouble_nearest (z : Z) :
  2 ^ 53 <= Z.abs z ->
  let ulp := 2 ^ (Z.log2 (Z.abs z) - 52) in
  (exists m, Z.abs (Js.toDouble z) = m * ulp /\ 2 ^ 52 <= m <= 2 ^ 53)
  /\ 2 * Z.abs (Js.toDouble z - z) <= ulp.
Proof.
  intros Hz ulp. unfold Js.toDouble.
  destruct (Z.ltb_spec (Z.abs z) (2 ^ 53)) as [Hlt|_]; [lia|].
  fold ulp.
  set (a := Z.abs z) in *.
  assert (Ha : 0 < a) by (change (2 ^ 53) with 9007199254740992 in Hz; lia).
  assert (Hk : 53 <= Z.log2 a).
  { apply Z.log2_le_pow2; [exact Ha | exact Hz]. }
  assert (Hulp : 0 < ulp) by (apply Z.pow_pos_nonneg; lia).
  destruct (Z.log2_spec a Ha) as [Hlo Hhi].
  assert (Hpow : 2 ^ Z.log2 a = 2 ^ 52 * ulp).
  { unfold ulp. rewrite <- Z.pow_add_r by lia. f_equal. lia. }
  assert (Hpow' : 2 ^ Z.succ (Z.log2 a) = 2 ^ 53 * ulp).
  { unfold ulp. rewrite <- Z.pow_add_r by lia. f_equal. lia. }
  pose proof (Z.div_mod a ulp ltac:(lia)) as Hdm.
  pose proof (Z.mod_pos_bound a ulp Hulp) as Hr.
  set (q := a / ulp) in *. set (r := a mod ulp) in *.
  assert (Hq : 2 ^ 52 <= q < 2 ^ 53).
  { change (2 ^ 52) with 4503599627370496 in *.
    change (2 ^ 53) with 9007199254740992 in *. nia. }
  set (up := (ulp <? 2 * r) || ((2 * r =? ulp) && Z.odd q)).
  assert (Hup : (up = true -> ulp <= 2 * r) /\ (up = false -> 2 * r <= ulp)).
  { unfold up.
    destruct (Z.ltb_spec ulp (2 * r));
      destruct (Z.eqb_spec (2 * r) ulp);
      cbn [orb andb]; split; intros Hb; try discriminate Hb; lia. }
  assert (Hz' : z = Z.sgn z * a) by (clear; subst a; now destruct z).
  assert (Hs : Z.sgn z = 1 \/ Z.sgn z = -1).
  { clear - Ha. subst a.
    destruct z; cbn in *; [lia | now left | now right]. }
  split.
  - exists (if up then q + 1 else q). split.
    + destruct up; destruct Hs as [-> | ->]; nia.
    + destruct up; lia.
  - destruct up; destruct Hup as [Hu Hd]; destruct Hs as [Hs | Hs];
      rewrite Hs in *; nia.
Qed.

Lemma parseInt10_digits (d : Decimal.uint) :
  d <> Decimal.Nil ->
  Js.parseInt10 (NilEmpty.string_of_uint d)
  = Js.Num (Js.toDouble (horner d 0))
  /\ Js.parseInt10 (String "-" (NilEmpty.string_of_uint d))
     = Js.Num (Js.toDouble (- horner d 0)).
Proof.
  intros Hd. split.
  - pose proof (digits_horner_start d Hd) as H.
    destruct d; [contradiction | ..];
      unfold Js.parseInt10; cbn [NilEmpty.string_of_uint Js.trimStart] in *;
      cbn [Js.isWhiteSpace N_of_ascii N_of_digits N.eqb Pos.eqb orb
           N.add N.mul Pos.add Pos.mul Pos.succ];
      rewrite H; do 2 f_equal; lia.
  - unfold Js.parseInt10. cbn [Js.trimStart].
    cbn [Js.isWhiteSpace N_of_ascii N_of_digits N.eqb Pos.eqb orb
         N.add N.mul Pos.add Pos.mul Pos.succ].
    rewrite (digits_horner_start d Hd). do 2 f_equal; lia.
Qed.

Theorem parseInt10_string_of_Z (z : Z) :
  Js.parseInt10 (Js.string_of_Z z) = Js.Num (Js.toDouble z).
Proof.
  unfold Js.string_of_Z. destruct z as [|p|p]; [reflexivity | |].
  - cbn [Z.to_int NilZero.string_of_int NilZero.string_of_uint].
    pose proof (Unsigned.to_uint_nonnil p) as Hn.
    destruct (parseInt10_digits (Pos.to_uint p) Hn) as [H _].
    rewrite horner_to_uint in H.
    destruct (Pos.to_uint p); [contradiction | ..]; exact H.
  - cbn [Z.to_int NilZero.string_of_int NilZero.string_of_uint].
    pose proof (Unsigned.to_uint_nonnil p) as Hn.
    destruct (parseInt10_digits (Pos.to_uint p) Hn) as [_ H].
    rewrite horner_to_uint in H.
    destruct (Pos.to_uint p); [contradiction | ..]; exact H.
Qed.

(** [btoa] is lossless: [atob] reads back every string. *)

Lemma list_triples_ind {A} (P : list A -> Prop) :
  P [] -> (forall a, P [a]) -> (forall a b, P [a; b]) ->
  (forall a b c l, P l -> P (a :: b :: c :: l)) ->
  forall l, P l.
Proof.
  intros H0 H1 H2 H3.
  assert (H : forall l, P l /\ (forall a, P (a :: l))
                        /\ (forall a b, P (a :: b :: l))).
  { induction l as [|x l [IH0 [IH1 IH2]]].
    - repeat split; auto.
    - repeat split; auto. }
  intros l. apply H.
Qed.

Lemma b64_index_char (i : N) :
  (i < 64)%N -> Js.b64_index (Js.b64_char i) = Some i.
Proof.
  intros Hi.
  assert (Hall : forallb
                   (fun j => match Js.b64_index (Js.b64_char j) with
                             | Some k => N.eqb k j
                             | None => false
                             end)
                   (map N.of_nat (seq 0 64)) = true) by (vm_compute; reflexivity).
  rewrite forallb_forall in Hall.
  specialize (Hall i).
  assert (Hin : In i (map N.of_nat (seq 0 64))).
  { apply in_map_iff. exists (N.to_nat i). split.
    - apply N2Nat.id.
    - apply in_seq. lia. }
  specialize (Hall Hin).
  destruct (Js.b64_index (Js.b64_char i)) as [k|]; [|discriminate].
  apply N.eqb_eq in Hall. now subst.
Qed.

Ltac sextets :=
  repeat match goal with
         | |- context [Js.b64_index (Js.b64_char ?i)] =>
             rewrite (b64_index_char i)
               by (zify; Z.to_euclidean_division_equations; lia)
         end.

Lemma atob_btoa_groups (l : list N) :
  Forall (fun b => (b < 256)%N) l ->
  Js.atob_groups (Js.b64_groups l) = Some l.
Proof.
  induction l as [| a | a b | a b c l IH] using list_triples_ind;
    intros Hl.
  - reflexivity.
  - inversion_clear Hl as [|? ? Ha _].
    cbn [Js.b64_groups Js.atob_groups]. sextets.
    cbn. do 2 f_equal.
    zify; Z.to_euclidean_division_equations; lia.
  - inversion_clear Hl as [|? ? Ha Hl']. inversion_clear Hl' as [|? ? Hb _].
    cbn [Js.b64_groups Js.atob_groups]. sextets.
    cbn. f_equal. f_equal; [|f_equal];
      zify; Z.to_euclidean_division_equations; lia.
  - inversion_clear Hl as [|? ? Ha Hl1]. inversion_clear Hl1 as [|? ? Hb Hl2].
    inversion_clear Hl2 as [|? ? Hc Hl3].
    cbn [Js.b64_groups Js.atob_groups]. sextets.
    rewrite (IH Hl3). f_equal. f_equal; [|f_equal; [|f_equal]];
      zify; Z.to_euclidean_division_equations; lia.
Qed.

Theorem atob_btoa (s : string) : Js.atob (Js.btoa s) = Some s.
Proof.
  unfold Js.atob, Js.btoa. rewrite atob_btoa_groups.
  - f_equal. rewrite map_map.
    rewrite (map_ext _ (fun c => c)) by apply ascii_N_embedding.
    rewrite map_id. apply string_of_list_ascii_of_string.
  - apply Forall_forall. intros b Hb. apply in_map_iff in Hb.
    destruct Hb as [c [<- _]]. apply N_ascii_bounded.
Qed.

Corollary btoa_injective (s1 s2 : string) :
  Js.btoa s1 = Js.btoa s2 -> s1 = s2.
Proof.
  intros H. apply (f_equal Js.atob) in H. rewrite !atob_btoa in H.
  now injection H.
Qed.

Lemma truthy_spec (v : option string) :
  Js.truthy v = true <-> exists s, v = Some s /\ s <> EmptyString.
Proof.
  split.
  - destruct v as [[|c s]|]; simpl; try discriminate.
    intros _. exists (String c s). split; [reflexivity | discriminate].
  - intros [s [-> Hs]]. destruct s; [contradiction | reflexivity].
Qed.

Lemma truthy_some (s : string) :
  s <> EmptyString -> Js.truthy (Some s) = true.
Proof. destruct s; [contradiction | reflexivity]. Qed.

Lemma or_undefined_none (v : option string) :
  Js.or_undefined v = None <-> Js.truthy v = false.
Proof.
  unfold Js.or_undefined. destruct (Js.truthy v) eqn:E.
  - split; [|discriminate]. intros ->. discriminate E.
  - split; reflexivity.
Qed.

Lemma truthy_or_undefined (v : option string) :
  Js.truthy (Js.or_undefined v) = Js.truthy v.
Proof. destruct v as [[|c s]|]; reflexivity. Qed.

Lemma or_empty_or_undefined (v : option string) :
  Js.or_empty v = Js.or_empty (Js.or_undefined v).
Proof. destruct v as [[|c s]|]; reflexivity. Qed.

Lemma truthy_or_empty (v : option string) :
  Js.truthy (Some (Js.or_empty v)) = Js.truthy v.
Proof. destruct v as [[|c s]|]; reflexivity. Qed.

(** ** Configuration accessors (src/types/env.ts) *)

Lemma getEnvNumber_reads (key : EnvKey) (fallback : Z) :
  reads_knob (fun env => getEnvNumber env key fallback) key fallback.
Proof.
  intros env. unfold getEnvNumber.
  repeat split.
  - intros value parsed Hk Hp. now rewrite Hk, Hp.
  - intros Hk. now rewrite Hk.
  - intros Hk. now rewrite Hk.
  - intros value Hk Hp. now rewrite Hk, Hp.
Qed.

(** C9.  Each configuration accessor returns the base-10 integer parse of
    its environment variable when that variable is a string that parses
    to a number, and otherwise (absent, not a string, or parsing to NaN)
    its fallback: 50000 for the character limit, 20 for the default page
    size, 100 for the maximum page size. *)
Theorem config_accessors_read_env_or_fallback :
  reads_knob getCharacterLimit CHARACTER_LIMIT 50000
  /\ reads_knob getDefaultPageSize DEFAULT_PAGE_SIZE 20
  /\ reads_knob getMaxPageSize MAX_PAGE_SIZE 100.
Proof.
  repeat split; apply getEnvNumber_reads.
Qed.

Lemma config_accessors_witness :
  getCharacterLimit sample_env = 1234
  /\ getDefaultPageSize sample_env = 20
  /\ getMaxPageSize sample_env = 100.
Proof.
  destruct config_accessors_read_env_or_fallback as [Hc [Hd Hm]].
  split; [|split].
  - apply (proj1 (Hc sample_env) "1234" 1234); reflexivity.
  - apply (proj2 (proj2 (proj2 (Hd sample_env))) "many"); reflexivity.
  - apply (proj1 (proj2 (Hm sample_env))); reflexivity.
Defined.

(** ** Credential parsing and validation (src/types/env.ts) *)

Lemma provided_truthy (v : option string) :
  provided v <-> Js.truthy v = true.
Proof. symmetry. apply truthy_spec. Qed.

Lemma not_provided_truthy (v : option string) :
  ~ provided v <-> Js.truthy v = false.
Proof.
  rewrite provided_truthy. destruct (Js.truthy v); split; intros H;
    try reflexivity; try discriminate; try (exfalso; now apply H).
Qed.

Lemma parse_depends_on_provided_values (r1 r2 : Request) :
  same_but_empty (headers r1) (headers r2) ->
  parseTenantCredentials r1 = parseTenantCredentials r2.
Proof.
  intros H. unfold parseTenantCredentials.
  rewrite (or_empty_or_undefined (headers_get (headers r1) _)).
  rewrite (or_empty_or_undefined (headers_get (headers r2) _)).
  now rewrite !H.
Qed.

(** The credentials that [parseTenantCredentials] builds never hold an
    empty string in an optional field. *)
Lemma parsed_fields_are_provided_or_absent (request : Request) :
  let c := parseTenantCredentials request in
  email c <> Some EmptyString
  /\ apiToken c <> Some EmptyString
  /\ accessToken c <> Some EmptyString.
Proof.
  simpl. unfold Js.or_undefined.
  repeat split;
    match goal with
    | |- (if Js.truthy ?v then _ else _) <> _ =>
        destruct v as [[|ch st]|]; simpl; discriminate
    end.
Qed.

(** C10.  [parseTenantCredentials] maps an empty X-Jira-Email,
    X-Jira-API-Token or X-Jira-Access-Token to the absent value and a
    missing X-Jira-Domain to the empty string; so headers that are
    present but empty are treated exactly as missing ones, and a request
    whose headers are all empty, or that gives no domain (only an OAuth
    token, say), or a domain but neither API token nor OAuth token (only
    an email, say), is rejected by [validateCredentials]. *)
Theorem empty_headers_count_as_missing :
  (forall request : Request,
      (headers_get (headers request) "X-Jira-Email" = Some EmptyString ->
       email (parseTenantCredentials request) = None)
      /\ (headers_get (headers request) "X-Jira-API-Token" = Some EmptyString ->
          apiToken (parseTenantCredentials request) = None)
      /\ (headers_get (headers request) "X-Jira-Access-Token" = Some EmptyString ->
          accessToken (parseTenantCredentials request) = None)
      /\ (headers_get (headers request) "X-Jira-Domain" = None ->
          domain (parseTenantCredentials request) = EmptyString))
  /\ (forall r1 r2 : Request,
         same_but_empty (headers r1) (headers r2) ->
         parseTenantCredentials r1 = parseTenantCredentials r2
         /\ validateCredentials (parseTenantCredentials r1)
            = validateCredentials (parseTenantCredentials r2))
  /\ (forall request : Request,
         headers_get (headers request) "X-Jira-Domain" = Some EmptyString ->
         headers_get (headers request) "X-Jira-Email" = Some EmptyString ->
         headers_get (headers request) "X-Jira-API-Token" = Some EmptyString ->
         headers_get (headers request) "X-Jira-Access-Token" = Some EmptyString ->
         validateCredentials (parseTenantCredentials request)
         = Throw (Error missing_domain_message))
  /\ (forall request : Request,
         ~ provided (headers_get (headers request) "X-Jira-Domain") ->
         validateCredentials (parseTenantCredentials request)
         = Throw (Error missing_domain_message))
  /\ (forall request : Request,
         provided (headers_get (headers request) "X-Jira-Domain") ->
         ~ provided (headers_get (headers request) "X-Jira-API-Token") ->
         ~ provided (headers_get (headers request) "X-Jira-Access-Token") ->
         validateCredentials (parseTenantCredentials request)
         = Throw (Error missing_credentials_message)).
Proof.
  split; [|split; [|split; [|split]]].
  - intros request. simpl. repeat split; intros ->; reflexivity.
  - intros r1 r2 H. split.
    + now apply parse_depends_on_provided_values.
    + now rewrite (parse_depends_on_provided_values r1 r2 H).
  - intros request Hd _ _ _.
    unfold validateCredentials, parseTenantCredentials.
    cbn [domain email apiToken accessToken].
    now rewrite Hd.
  - intros request Hd. apply not_provided_truthy in Hd.
    unfold validateCredentials, parseTenantCredentials.
    cbn [domain email apiToken accessToken].
    now rewrite truthy_or_empty, Hd.
  - intros request Hd Ht Ha.
    apply provided_truthy in Hd.
    apply not_provided_truthy in Ht. apply not_provided_truthy in Ha.
    unfold validateCredentials, parseTenantCredentials.
    cbn [domain email apiToken accessToken].
    rewrite truthy_or_empty, Hd, !truthy_or_undefined, Ht, Ha.
    now rewrite andb_false_r.
Qed.

Lemma all_empty_same_as_none :
  same_but_empty (headers all_empty_request) (headers no_header_request).
Proof.
  intros name. unfold headers_get.
  cbn [all_empty_request no_header_request headers filter map].
  unfold header_named. cbn [fst snd].
  generalize (Js.toLowerCase name). intros n.
  change (Js.toLowerCase "X-Jira-Domain") with "x-jira-domain".
  change (Js.toLowerCase "X-Jira-Email") with "x-jira-email".
  change (Js.toLowerCase "X-Jira-API-Token") with "x-jira-api-token".
  change (Js.toLowerCase "X-Jira-Access-Token") with "x-jira-access-token".
  destruct (String.eqb_spec "x-jira-domain" n) as [<-|Hd]; [reflexivity|].
  destruct (String.eqb_spec "x-jira-email" n) as [<-|He]; [reflexivity|].
  destruct (String.eqb_spec "x-jira-api-token" n) as [<-|Ht]; [reflexivity|].
  destruct (String.eqb_spec "x-jira-access-token" n) as [<-|Ha]; reflexivity.
Qed.

Lemma empty_headers_witness :
  parseTenantCredentials all_empty_request
  = parseTenantCredentials no_header_request
  /\ validateCredentials (parseTenantCredentials all_empty_request)
     = Throw (Error missing_domain_message)
  /\ validateCredentials (parseTenantCredentials oauth_only_request)
     = Throw (Error missing_domain_message)
  /\ validateCredentials (parseTenantCredentials email_only_request)
     = Throw (Error missing_credentials_message).
Proof.
  destruct empty_headers_count_as_missing as [_ [Hsame [Hall [Ho He]]]].
  split; [|split; [|split]].
  - apply (Hsame all_empty_request no_header_request).
    apply all_empty_same_as_none.
  - apply Hall; reflexivity.
  - apply Ho. intros [s [H _]]. discriminate H.
  - apply He.
    + exists "acme". split; [reflexivity | discriminate].
    + intros [s [H _]]. discriminate H.
    + intros [s [H _]]. discriminate H.
Defined.

(** ** The /mcp route (src/index.ts) *)

(** C7.  A POST to /mcp in which all four tenant headers are absent is
    answered with status 401 and a JSON body whose [required_headers]
    field names the required headers; no server is created for it and
    the request is not forwarded. *)
Theorem mcp_without_tenant_headers_is_unauthorized (request : Request) :
  pathname request = "/mcp" ->
  method request = "POST" ->
  headers_get (headers request) "X-Jira-Domain" = None ->
  headers_get (headers request) "X-Jira-Email" = None ->
  headers_get (headers request) "X-Jira-API-Token" = None ->
  headers_get (headers request) "X-Jira-Access-Token" = None ->
  Worker.fetch request
  = Worker.Respond
      {| Worker.status := 401;
         Worker.contentType := Some "application/json";
         Worker.body :=
           Worker.JsonBody
             (JObj [("error", JStr "Unauthorized");
                    ("message", JStr missing_domain_message);
                    ("required_headers",
                     JArr [JStr "X-Jira-Domain";
                           JStr "X-Jira-Email + X-Jira-API-Token (or X-Jira-Access-Token)"])]) |}
  /\ forall credentials, Worker.fetch request <> Worker.Serve credentials.
Proof.
  intros Hp Hm Hd He Ht Ha.
  assert (Hv : validateCredentials (parseTenantCredentials request)
               = Throw (Error missing_domain_message)).
  { unfold validateCredentials, parseTenantCredentials.
    cbn [domain email apiToken accessToken]. now rewrite Hd. }
  assert (Hf : Worker.fetch request
               = Worker.Respond (Worker.unauthorized (Error missing_domain_message))).
  { unfold Worker.fetch. rewrite Hp, Hm. cbn [String.eqb Ascii.eqb Bool.eqb andb].
    now rewrite Hv. }
  split.
  - rewrite Hf. reflexivity.
  - intros credentials. rewrite Hf. discriminate.
Qed.

Lemma mcp_without_tenant_headers_witness :
  Worker.fetch no_header_request
  = Worker.Respond (Worker.unauthorized (Error missing_domain_message)).
Proof.
  exact (proj1 (mcp_without_tenant_headers_is_unauthorized no_header_request
                  eq_refl eq_refl eq_refl eq_refl eq_refl eq_refl)).
Defined.

(** With a domain and an OAuth token in the headers (whatever the case
    of their names) the request is served with the parsed credentials. *)
Example mcp_with_credentials_is_served :
  Worker.fetch
    {| pathname := "/mcp"; method := "POST";
       headers := [("x-jira-domain", "acme"); ("X-JIRA-ACCESS-TOKEN", "tok")] |}
  = Worker.Serve Sample.oauth.
Proof. reflexivity. Qed.

(** A GET on /mcp is not the tool endpoint: it gets the server
    description, whatever its headers. *)
Example mcp_get_is_described :
  Worker.fetch {| pathname := "/mcp"; method := "GET"; headers := [] |}
  = Worker.Respond
      {| Worker.status := 200;
         Worker.contentType := Some "application/json";
         Worker.body := Worker.JsonBody Worker.server_info |}.
Proof. reflexivity. Qed.

(** ** Credential resolution (src/client.ts) *)

(** C2.  With an OAuth access token (whatever the email and API token
    are) the Authorization header is Bearer followed by the token; with
    no access token but both email and API token it is Basic followed by
    base64(email:apiToken); with neither, [getAuthHeaders] throws an
    [AuthenticationError].  A credential counts as given when it is a
    non-empty string, see [provided]. *)
Theorem getAuthHeaders_resolution (credentials : TenantCredentials) :
  (forall token,
      accessToken credentials = Some token -> token <> EmptyString ->
      getAuthHeaders credentials = Return (bearer token))
  /\ (forall user token,
         ~ provided (accessToken credentials) ->
         email credentials = Some user -> user <> EmptyString ->
         apiToken credentials = Some token -> token <> EmptyString ->
         getAuthHeaders credentials = Return (basic_auth user token))
  /\ (~ provided (accessToken credentials) ->
      ~ (provided (email credentials) /\ provided (apiToken credentials)) ->
      getAuthHeaders credentials
      = Throw (AuthenticationError no_credentials_message)).
Proof.
  unfold getAuthHeaders. split; [|split].
  - intros token Ha Hne. rewrite Ha, (truthy_some token Hne). reflexivity.
  - intros user token Hno He Hune Ht Htne.
    apply not_provided_truthy in Hno. rewrite Hno.
    rewrite He, Ht, (truthy_some user Hune), (truthy_some token Htne).
    reflexivity.
  - intros Hno Hnb. apply not_provided_truthy in Hno. rewrite Hno.
    destruct (Js.truthy (email credentials)) eqn:Ee;
      destruct (Js.truthy (apiToken credentials)) eqn:Et; try reflexivity.
    exfalso. apply Hnb. split; now apply provided_truthy.
Qed.

Lemma getAuthHeaders_witness :
  getAuthHeaders Sample.oauth = Return (bearer "tok")
  /\ getAuthHeaders Sample.basic = Return (basic_auth "a" "b")
  /\ getAuthHeaders Sample.nothing
     = Throw (AuthenticationError no_credentials_message).
Proof.
  split; [|split].
  - apply (proj1 (getAuthHeaders_resolution Sample.oauth) "tok");
      [reflexivity | discriminate].
  - apply (proj1 (proj2 (getAuthHeaders_resolution Sample.basic)) "a" "b");
      try reflexivity; try discriminate.
    intros [s [H _]]. discriminate H.
  - apply (proj2 (proj2 (getAuthHeaders_resolution Sample.nothing))).
    + intros [s [H _]]. discriminate H.
    + intros [_ [s [H _]]]. discriminate H.
Defined.

Example basic_header_value :
  Authorization (basic_auth "a" "b") = "Basic YTpi".
Proof. reflexivity. Qed.

(** OAuth wins when both kinds of credentials are given. *)
Example oauth_preferred :
  getAuthHeaders {| domain := "acme"; email := Some "a"; apiToken := Some "b";
                    accessToken := Some "tok" |}
  = Return (bearer "tok").
Proof. reflexivity. Qed.

(** An access token that is the empty string is not a credential: the
    Basic pair is used, or the call throws. *)
Example empty_access_token_is_ignored :
  getAuthHeaders {| domain := "acme"; email := Some "a"; apiToken := Some "b";
                    accessToken := Some EmptyString |}
  = Return (basic_auth "a" "b")
  /\ getAuthHeaders {| domain := "acme"; email := None; apiToken := None;
                       accessToken := Some EmptyString |}
     = Throw (AuthenticationError no_credentials_message).
Proof. split; reflexivity. Qed.

(** ** The request helper (src/client.ts) *)

Lemma request_after_fetch {T} (credentials : TenantCredentials)
      (net : Network T) (response : HttpResponse T) (auth : AuthHeaders) :
  getAuthHeaders credentials = Return auth ->
  replies net (fetched net) = Return response ->
  request credentials net
  = (handleResponse response,
     {| fetched := S (fetched net); replies := replies net |}).
Proof.
  intros Ha Hr. unfold request, bind, lift, fetch_call.
  rewrite Ha, Hr. destruct (handleResponse response); reflexivity.
Qed.

(** Without credentials nothing is fetched. *)
Lemma request_without_credentials {T} (credentials : TenantCredentials)
      (net : Network T) (e : JsError) :
  getAuthHeaders credentials = Throw e ->
  request credentials net = (Throw e, net).
Proof.
  intros Ha. unfold request, bind, lift. now rewrite Ha.
Qed.

(** A rejected [fetch] is rethrown as it is. *)
Lemma request_fetch_rejected {T} (credentials : TenantCredentials)
      (net : Network T) (auth : AuthHeaders) (e : JsError) :
  getAuthHeaders credentials = Return auth ->
  replies net (fetched net) = Throw e ->
  request credentials net
  = (Throw e, {| fetched := S (fetched net); replies := replies net |}).
Proof.
  intros Ha Hr. unfold request, bind, lift, fetch_call.
  now rewrite Ha, Hr.
Qed.

Lemma retryAfterValue_cases (header : option string) :
  (forall value, header = Some value -> value <> EmptyString ->
                 retryAfterValue header = Js.parseInt10 value)
  /\ (~ provided header -> retryAfterValue header = Js.Num 60).
Proof.
  unfold retryAfterValue. split.
  - intros value -> Hne. now rewrite (truthy_some value Hne).
  - intros Hn. apply not_provided_truthy in Hn. now rewrite Hn.
Qed.

(** C3.  [request] classifies the response by status: 429 throws a
    [RateLimitError] carrying the integer parse of the Retry-After
    header when the header has a value and 60 otherwise; 401 throws an
    [AuthenticationError]; 403 throws a [JiraApiError] with status 403;
    204 returns [undefined]; every other 2xx returns the parsed JSON
    body. *)
Theorem request_classifies_by_status {T} (credentials : TenantCredentials)
        (net : Network T) (response : HttpResponse T) (auth : AuthHeaders) :
  getAuthHeaders credentials = Return auth ->
  replies net (fetched net) = Return response ->
  (status response = 429 ->
   (forall value,
       retryAfterHeader response = Some value -> value <> EmptyString ->
       fst (request credentials net)
       = Throw (RateLimitError "Rate limit exceeded" (Js.parseInt10 value)))
   /\ (~ provided (retryAfterHeader response) ->
       fst (request credentials net)
       = Throw (RateLimitError "Rate limit exceeded" (Js.Num 60))))
  /\ (status response = 401 ->
      fst (request credentials net)
      = Throw (AuthenticationError
                 "Authentication failed. Check your credentials."))
  /\ (status response = 403 ->
      fst (request credentials net)
      = Throw (JiraApiError "Permission denied. Check your access rights." 403))
  /\ (status response = 204 -> fst (request credentials net) = Return None)
  /\ (200 <= status response <= 299 -> status response <> 204 ->
      forall payload,
        json_body response = Return payload ->
        fst (request credentials net) = Return (Some payload)).
Proof.
  intros Ha Hr. rewrite (request_after_fetch _ _ _ _ Ha Hr).
  cbn [fst]. unfold handleResponse.
  split; [|split; [|split; [|split]]].
  - intros Hs. rewrite Hs. cbn [Z.eqb Pos.eqb].
    destruct (retryAfterValue_cases (retryAfterHeader response)) as [Hv Hd].
    split.
    + intros value Hh Hne. now rewrite (Hv value Hh Hne).
    + intros Hn. now rewrite (Hd Hn).
  - intros Hs. rewrite Hs. reflexivity.
  - intros Hs. rewrite Hs. reflexivity.
  - intros Hs. unfold ok. rewrite Hs. reflexivity.
  - intros [Hlo Hhi] Hne payload Hb.
    destruct (Z.eqb_spec (status response) 429); [lia|].
    destruct (Z.eqb_spec (status response) 401); [lia|].
    destruct (Z.eqb_spec (status response) 403); [lia|].
    unfold ok.
    destruct (Z.leb_spec 200 (status response)); [|lia].
    destruct (Z.leb_spec (status response) 299); [|lia].
    cbn [andb negb].
    destruct (Z.eqb_spec (status response) 204); [contradiction|].
    now rewrite Hb.
Qed.

Lemma request_classifies_witness :
  fst (request Sample.oauth (Sample.always (rate_limited (Some "120"))))
  = Throw (RateLimitError "Rate limit exceeded" (Js.Num 120))
  /\ fst (request Sample.oauth (Sample.always (rate_limited None)))
     = Throw (RateLimitError "Rate limit exceeded" (Js.Num 60))
  /\ fst (request Sample.oauth (Sample.always (rejected 401 None)))
     = Throw (AuthenticationError
                "Authentication failed. Check your credentials.")
  /\ fst (request Sample.oauth (Sample.always (rejected 403 None)))
     = Throw (JiraApiError "Permission denied. Check your access rights." 403)
  /\ fst (request Sample.oauth (Sample.always (Sample.bare (T:=json) 204)))
     = Return None
  /\ fst (request Sample.oauth (Sample.always (accepted 200 (JStr "ok"))))
     = Return (Some (JStr "ok")).
Proof.
  split; [|split; [|split; [|split; [|split]]]].
  - apply (proj1 (proj1 (request_classifies_by_status Sample.oauth
                           (Sample.always (rate_limited (Some "120")))
                           (rate_limited (Some "120")) (bearer "tok")
                           eq_refl eq_refl) eq_refl) "120");
      [reflexivity | discriminate].
  - apply (proj2 (proj1 (request_classifies_by_status Sample.oauth
                           (Sample.always (rate_limited None))
                           (rate_limited None) (bearer "tok")
                           eq_refl eq_refl) eq_refl)).
    intros [s [H _]]. discriminate H.
  - apply (proj1 (proj2 (request_classifies_by_status Sample.oauth
                           (Sample.always (rejected 401 None))
                           (rejected 401 None) (bearer "tok")
                           eq_refl eq_refl)) eq_refl).
  - apply (proj1 (proj2 (proj2 (request_classifies_by_status Sample.oauth
                           (Sample.always (rejected 403 None))
                           (rejected 403 None) (bearer "tok")
                           eq_refl eq_refl))) eq_refl).
  - apply (proj1 (proj2 (proj2 (proj2 (request_classifies_by_status Sample.oauth
                           (Sample.always (Sample.bare 204))
                           (Sample.bare 204) (bearer "tok")
                           eq_refl eq_refl)))) eq_refl).
  - apply (proj2 (proj2 (proj2 (proj2 (request_classifies_by_status Sample.oauth
                           (Sample.always (accepted 200 (JStr "ok")))
                           (accepted 200 (JStr "ok")) (bearer "tok")
                           eq_refl eq_refl)))));
      [simpl; lia | discriminate | reflexivity].
Defined.

(** A Retry-After header that is present but empty gives the default;
    one that does not start with a number gives NaN. *)
Example retry_after_edge_values :
  retryAfterValue (Some EmptyString) = Js.Num 60
  /\ retryAfterValue (Some "Wed, 21 Oct 2015 07:28:00 GMT") = Js.NaN.
Proof. split; reflexivity. Qed.

(** A 2xx response whose body is not JSON makes [request] throw what
    [response.json()] rejected with. *)
Lemma request_unparseable_body {T} (credentials : TenantCredentials)
      (net : Network T) (response : HttpResponse T) (auth : AuthHeaders)
      (e : JsError) :
  getAuthHeaders credentials = Return auth ->
  replies net (fetched net) = Return response ->
  200 <= status response <= 299 -> status response <> 204 ->
  json_body response = Throw e ->
  fst (request credentials net) = Throw e.
Proof.
  intros Ha Hr [Hlo Hhi] Hne Hb.
  rewrite (request_after_fetch _ _ _ _ Ha Hr).
  cbn [fst]. unfold handleResponse, ok.
  destruct (Z.eqb_spec (status response) 429); [lia|].
  destruct (Z.eqb_spec (status response) 401); [lia|].
  destruct (Z.eqb_spec (status response) 403); [lia|].
  destruct (Z.leb_spec 200 (status response)); [|lia].
  destruct (Z.leb_spec (status response) 299); [|lia].
  cbn [andb negb].
  destruct (Z.eqb_spec (status response) 204); [contradiction|].
  now rewrite Hb.
Qed.




(** An [errors] map that is present but empty is still chosen over the
    [message] field, and gives the empty message. *)
Example empty_errors_map_gives_empty_message :
  errorMessage
    (rejected 400 (Some {| errorMessages := Some []; errors := Some [];
                           message := Some "Bad request" |}))
  = EmptyString.
Proof. reflexivity. Qed.

(** ** Text-to-document coercion (src/client.ts) *)

Lemma toADF_is_a_document (x : ADFInput) :
  document_type (toADF x) = "doc".
Proof.
  destruct x as [text | d]; [reflexivity|].
  unfold toADF. destruct (String.eqb_spec (document_type d) "doc") as [E|E];
    [exact E | reflexivity].
Qed.

Lemma toADF_passes_documents (d : ADFDocument) :
  document_type d = "doc" -> toADF (Object d) = d.
Proof.
  intros E. unfold toADF. rewrite E. reflexivity.
Qed.

(** C6.  [toADF] maps a plain string to a document with exactly one
    paragraph containing exactly one text node holding that string,
    returns an input that already is a document (an object whose type
    is 'doc') unchanged, and is therefore idempotent. *)
Theorem toADF_wraps_passes_and_is_idempotent :
  (forall text : string, toADF (Plain text) = one_paragraph (Plain text))
  /\ (forall d : ADFDocument,
         document_type d = "doc" -> toADF (Object d) = d)
  /\ (forall x : ADFInput, toADF (Object (toADF x)) = toADF x).
Proof.
  split; [|split].
  - reflexivity.
  - exact toADF_passes_documents.
  - intros x. apply toADF_passes_documents, toADF_is_a_document.
Qed.

Lemma toADF_witness :
  toADF (Plain "hello") = one_paragraph (Plain "hello")
  /\ toADF (Object sample_document) = sample_document
  /\ toADF (Object (toADF (Plain "hello"))) = toADF (Plain "hello").
Proof.
  destruct toADF_wraps_passes_and_is_idempotent as [Hw [Hp Hi]].
  split; [|split].
  - apply Hw.
  - apply Hp. reflexivity.
  - apply Hi.
Defined.

(** ** Pagination reshaping (src/client.ts, src/tools/*.ts) *)

Lemma ltb_rule (startAt total : Z) (found : list json) :
  (startAt + len found <? total) = true
  <-> exists t, Some total = Some t /\ startAt + len found < t.
Proof.
  rewrite Z.ltb_lt. split.
  - intros H. exists total. split; [reflexivity | assumption].
  - intros [t [E H]]. injection E as ->. assumption.
Qed.

Ltac invert_paged H :=
  unfold bind, read, ret, throw in H;
  match type of H with
  | context [request ?c ?n] =>
      destruct (request c n) as [[e | [page |]] net'];
      cbn [fst] in H; try discriminate H;
      injection H as <-; exists page; reflexivity
  end.

Lemma paginated_methods_reshape
      (m : TenantCredentials -> Async Page Paginated.PaginatedResponse) :
  In m paginated_methods ->
  forall credentials net p,
    fst (m credentials net) = Return p -> exists page, p = reshaped page.
Proof.
  intros Hin credentials net p H.
  repeat (destruct Hin as [<- | Hin];
          [match type of H with
           | fst (?f _ _) = _ => unfold f in H
           end; invert_paged H |]).
  contradiction.
Qed.

Lemma paginated_method_returns
      (m : TenantCredentials -> Async Page Paginated.PaginatedResponse) :
  In m paginated_methods ->
  forall credentials net response auth page,
    getAuthHeaders credentials = Return auth ->
    replies net (fetched net) = Return response ->
    handleResponse response = Return (Some page) ->
    fst (m credentials net) = Return (reshaped page).
Proof.
  intros Hin credentials net response auth page Ha Hr Hh.
  repeat (destruct Hin as [<- | Hin];
          [match goal with
           | |- fst (?f _ _) = _ => unfold f
           end;
           unfold bind; rewrite (request_after_fetch _ _ _ _ Ha Hr), Hh;
           reflexivity |]).
  contradiction.
Qed.

(** C1 (amended).  The twelve paginated client methods and the five
    issue-list tools set [hasMore] to true exactly when [startAt] plus
    the number of returned items is below [total].  The two user-search
    tools build an envelope without a total, in which [hasMore] is true
    exactly when the number of returned users equals the requested
    [maxResults]. *)
Theorem hasMore_by_endpoint :
  (forall m, In m paginated_methods ->
             forall credentials net p,
               fst (m credentials net) = Return p -> hasMore_rule p)
  /\ (forall build, In build issue_list_envelopes ->
                    forall result, hasMore_rule (build result))
  /\ (forall build, In build user_list_envelopes ->
                    forall args users,
                      Paginated.total (build args users) = None
                      /\ (Paginated.hasMore (build args users) = true
                          <-> len users = Tools.maxResults args)).
Proof.
  split; [|split].
  - intros m Hin credentials net p H.
    destruct (paginated_methods_reshape m Hin credentials net p H)
      as [page ->].
    unfold hasMore_rule, reshaped. cbn. apply ltb_rule.
  - intros build Hin result.
    repeat (destruct Hin as [<- | Hin];
            [unfold hasMore_rule; cbn; apply ltb_rule |]).
    contradiction.
  - intros build Hin args users.
    repeat (destruct Hin as [<- | Hin];
            [split; [reflexivity | cbn; apply Z.eqb_eq] |]).
    contradiction.
Qed.

Lemma hasMore_by_endpoint_witness :
  hasMore_rule (reshaped changelog_page)
  /\ hasMore_rule (Tools.jira_search_issues_envelope page_size_50)
  /\ (Paginated.hasMore (Tools.jira_search_users_envelope page_of_two two_users)
      = true <-> len two_users = 2).
Proof.
  destruct hasMore_by_endpoint as [Hm [Hi Hu]].
  split; [|split].
  - apply (Hm getChangelog (or_introl eq_refl) Sample.oauth
              (Sample.always (accepted 200 changelog_page))).
    reflexivity.
  - apply (Hi Tools.jira_search_issues_envelope (or_introl eq_refl)).
  - apply (Hu Tools.jira_search_users_envelope (or_introl eq_refl)
              page_of_two two_users).
Defined.

(** C1 as stated fails for jira_search_users: a full page of users is
    flagged [hasMore] although the envelope has no total to compare
    with. *)
Lemma search_users_breaks_hasMore_rule :
  ~ hasMore_rule (Tools.jira_search_users_envelope page_of_two two_users).
Proof.
  unfold hasMore_rule. cbn. intros [H _].
  destruct (H eq_refl) as [t [E _]]. discriminate E.
Qed.

(** ... and it is this envelope that the tool prints. *)
Lemma search_users_prints_its_envelope `{Platform} :
  fst (Tools.jira_search_users Sample.oauth page_of_two
         (Sample.always (accepted 200 two_users)))
  = Return
      {| content :=
           [JSON_stringify
              (Paginated.to_json
                 (Tools.jira_search_users_envelope page_of_two two_users))];
         isError := None |}.
Proof. reflexivity. Qed.

(** A tool that takes its envelope from the client prints that
    envelope. *)
Lemma changelog_prints_the_client_envelope `{Platform}
      (credentials : TenantCredentials) (args : Tools.ListArgs)
      (net : Network Page) (response : HttpResponse Page)
      (auth : AuthHeaders) (page : Page) :
  getAuthHeaders credentials = Return auth ->
  replies net (fetched net) = Return response ->
  handleResponse response = Return (Some page) ->
  Tools.format args = format_json ->
  fst (Tools.jira_get_changelog credentials args net)
  = Return {| content := [JSON_stringify (Paginated.to_json (reshaped page))];
              isError := None |}.
Proof.
  intros Ha Hr Hh Hf.
  unfold Tools.jira_get_changelog, Tools.tool_handler, try_catch,
    getChangelog, bind.
  rewrite (request_after_fetch _ _ _ _ Ha Hr), Hh.
  unfold read, ret, lift, formatResponse. rewrite Hf. reflexivity.
Qed.

(** ** The issue-search example *)

Lemma search_envelope_page_size (result : Search.JiraSearchResult) :
  Paginated.maxResults (Tools.jira_search_issues_envelope result)
  = Search.maxResults result.
Proof. reflexivity. Qed.

Lemma search_issues_prints_its_envelope `{Platform}
      (credentials : TenantCredentials) (args : Tools.ListArgs)
      (net : Network Search.JiraSearchResult)
      (response : HttpResponse Search.JiraSearchResult)
      (auth : AuthHeaders) (result : Search.JiraSearchResult) :
  getAuthHeaders credentials = Return auth ->
  replies net (fetched net) = Return response ->
  handleResponse response = Return (Some result) ->
  Tools.format args = format_json ->
  fst (Tools.jira_search_issues credentials args net)
  = Return
      {| content :=
           [JSON_stringify
              (Paginated.to_json (Tools.jira_search_issues_envelope result))];
         isError := None |}.
Proof.
  intros Ha Hr Hh Hf.
  unfold Tools.jira_search_issues, Tools.tool_handler, try_catch, bind,
    searchIssues.
  rewrite (request_after_fetch _ _ _ _ Ha Hr), Hh.
  unfold read, ret, lift, formatResponse. rewrite Hf. reflexivity.
Qed.

(** C4 (amended).  When jira_search_issues is called with maxResults=50
    and the vendor answers 200 with the body {startAt: 0, maxResults:
    50, total: 120, issues: [50 items]}, the tool prints exactly the
    envelope {items: those issues, count: 50, total: 120, startAt: 0,
    maxResults: 50, hasMore: true}; the envelope's [maxResults] is the
    one of the vendor's body, not the one of the request. *)
Theorem search_example_with_vendor_page_size `{Platform}
        (credentials : TenantCredentials) (args : Tools.ListArgs)
        (net : Network Search.JiraSearchResult)
        (response : HttpResponse Search.JiraSearchResult)
        (auth : AuthHeaders) (result : Search.JiraSearchResult) :
  getAuthHeaders credentials = Return auth ->
  replies net (fetched net) = Return response ->
  status response = 200 ->
  json_body response = Return result ->
  Tools.maxResults args = 50 ->
  Tools.format args = format_json ->
  Search.startAt result = 0 ->
  Search.maxResults result = 50 ->
  Search.total result = 120 ->
  List.length (Search.issues result) = 50%nat ->
  Tools.jira_search_issues_envelope result
  = example_envelope (Search.issues result)
  /\ fst (Tools.jira_search_issues credentials args net)
     = Return
         {| content :=
              [JSON_stringify
                 (Paginated.to_json (example_envelope (Search.issues result)))];
            isError := None |}.
Proof.
  intros Ha Hr Hst Hb _ Hf Hs Hm Ht Hl.
  assert (He : Tools.jira_search_issues_envelope result
               = example_envelope (Search.issues result)).
  { unfold Tools.jira_search_issues_envelope, example_envelope, len.
    rewrite Hs, Hm, Ht, Hl. reflexivity. }
  split; [exact He|].
  rewrite <- He.
  apply (search_issues_prints_its_envelope credentials args net
           response auth result Ha Hr); [|exact Hf].
  unfold handleResponse, ok. rewrite Hst, Hb. reflexivity.
Qed.

Lemma search_example_witness :
  Tools.jira_search_issues_envelope page_size_50
  = example_envelope Sample.fifty_issues
  /\ fst (@Tools.jira_search_issues Sample.platform Sample.oauth page_of_fifty
            (Sample.always (accepted 200 page_size_50)))
     = Return
         {| content :=
              [Sample.render
                 (Paginated.to_json (example_envelope Sample.fifty_issues))];
            isError := None |}.
Proof.
  apply (@search_example_with_vendor_page_size Sample.platform Sample.oauth
           page_of_fifty (Sample.always (accepted 200 page_size_50))
           (accepted 200 page_size_50) (bearer "tok") page_size_50);
    reflexivity.
Defined.

(** C4 as stated fails: the request's maxResults does not reach the
    envelope, so a vendor body whose own maxResults is not 50 gives
    another envelope. *)
Lemma search_example_counterexample : ~ search_example_as_stated.
Proof.
  intros H.
  specialize (H page_of_fifty page_size_100 eq_refl eq_refl eq_refl eq_refl).
  apply (f_equal Paginated.maxResults) in H. cbn in H. discriminate H.
Qed.

(** ** The error boundary of the tool handlers *)

Lemma append_assoc (a b c : string) : (a ++ b) ++ c = a ++ (b ++ c).
Proof.
  induction a as [|ch a IH]; [reflexivity|]. cbn. now rewrite IH.
Qed.

Lemma catch_response_is_readable `{Platform} (clause : Tools.CatchClause)
      (e : JsError) :
  readable_failure clause e (Tools.catch_response clause e).
Proof.
  destruct clause as [|prefix]; split; try reflexivity.
  - unfold Tools.catch_response, formatErrorResponse, errorText. cbn [content].
    destruct (instanceofJiraApiError e).
    + exists (if retryable e then " (retryable)" else EmptyString).
      now rewrite append_assoc.
    + exists EmptyString.
      assert (Hnil : forall x : string, x ++ EmptyString = x).
      { induction x as [|ch x IH]; [reflexivity|]. cbn. now rewrite IH. }
      rewrite Hnil. destruct (instanceofError e); reflexivity.
  - cbn. eexists. split; [reflexivity|]. now intros ->.
Qed.

Lemma tool_handler_catches `{Platform} {T} (clause : Tools.CatchClause)
      (body : Async T ToolResponse) (net net' : Network T) (e : JsError) :
  body net = (Throw e, net') ->
  Tools.tool_handler clause body net
  = (Return (Tools.catch_response clause e), net').
Proof.
  intros Hb. unfold Tools.tool_handler, try_catch. now rewrite Hb.
Qed.

Lemma tool_handler_returns `{Platform} {T} (clause : Tools.CatchClause)
      (body : Async T ToolResponse) (net : Network T) :
  exists r net', Tools.tool_handler clause body net = (Return r, net').
Proof.
  unfold Tools.tool_handler, try_catch.
  destruct (body net) as [[e | r] net']; eauto.
Qed.

(** A session of handlers answers every call. *)
Lemma serve_handlers `{Platform} {T}
      (calls : list (Tools.CatchClause * Async T ToolResponse))
      (net : Network T) :
  exists rs net',
    serve (map (fun c => Tools.tool_handler (fst c) (snd c)) calls) net
    = (Return rs, net')
    /\ List.length rs = List.length calls.
Proof.
  revert net. induction calls as [|[clause body] rest IH]; intros net.
  - exists [], net. split; reflexivity.
  - cbn [map serve fst snd]. unfold bind at 1.
    destruct (tool_handler_returns clause body net) as [r [net1 Hr]].
    rewrite Hr.
    destruct (IH net1) as [rs [net2 [Hs Hl]]].
    exists (r :: rs), net2. unfold bind, ret. rewrite Hs.
    split; [reflexivity | cbn; now rewrite Hl].
Qed.

(** [testConnection] never throws: it turns a failed call into a
    result. *)
Lemma testConnection_returns (credentials : TenantCredentials)
      (net : Network JiraMyself) :
  exists r net', testConnection credentials net = (Return r, net').
Proof.
  unfold testConnection, try_catch.
  match goal with
  | |- context [match ?b with _ => _ end] => destruct b as [[e | r] net']
  end; eauto.
Qed.

(** The registry lists the registered names with their catch clauses. *)
Lemma registry_lists_registered_tools `{Platform} :
  map (fun tool => (Registry.name tool, Registry.clause tool)) Registry.tools
  = Worker.registered_tools.
Proof. reflexivity. Qed.

(** [request] fetches at most once. *)
Lemma request_fetched_le {T} (credentials : TenantCredentials)
      (net : Network T) :
  (fetched (snd (request credentials net)) <= S (fetched net))%nat.
Proof.
  unfold request, bind, lift, fetch_call.
  destruct (getAuthHeaders credentials) as [e|auth]; cbn [fst snd].
  - lia.
  - destruct (replies net (fetched net)) as [e|response]; cbn [fst snd fetched].
    + lia.
    + destruct (handleResponse response); cbn [snd fetched]; lia.
Qed.

Ltac registry_cases Hin :=
  unfold Registry.tools, Registry.issues_handlers,
    Registry.comments_handlers, Registry.projects_handlers,
    Registry.agile_handlers, Registry.users_handlers,
    Registry.metadata_handlers, Registry.filters_handlers,
    Registry.connection_handlers in Hin;
  cbn [app In] in Hin;
  repeat (destruct Hin as [<- | Hin]); [.. | destruct Hin];
  cbn [Registry.name Registry.clause Registry.Payload Registry.Arguments
       Registry.handler].

(** Every registered handler is a [try] with its [catch]: it returns
    whatever its body does. *)
Lemma registered_handler_returns `{Platform} (tool : Registry.Tool) :
  In tool Registry.tools ->
  forall credentials (a : Registry.Arguments tool)
         (net : Network (Registry.Payload tool)),
  exists r net', Registry.handler tool credentials a net = (Return r, net').
Proof.
  intros Hin. registry_cases Hin; intros credentials a net;
    autounfold with handlers; apply tool_handler_returns.
Qed.

(** In every registered handler but that of jira_test_connection the
    client's [request] is the first thing that can throw, and nothing
    but the handler catches what it throws. *)
Lemma registered_handler_catches_request `{Platform} (tool : Registry.Tool) :
  In tool Registry.tools ->
  Registry.name tool <> "jira_test_connection" ->
  forall credentials (a : Registry.Arguments tool)
         (net : Network (Registry.Payload tool)) e,
    fst (request credentials net) = Throw e ->
    Registry.handler tool credentials a net
    = (Return (Tools.catch_response (Registry.clause tool) e),
       snd (request credentials net)).
Proof.
  intros Hin. registry_cases Hin; intros Hname;
    try (exfalso; apply Hname; reflexivity);
    intros credentials a net e He;
    autounfold with handlers; autounfold with methods;
    unfold Tools.tool_handler, try_catch, bind;
    destruct (request credentials net) as [[e' | r] net1];
    cbn [fst snd] in He |- *;
    first [discriminate He | (injection He as ->; reflexivity)].
Qed.

(** C8 (amended).  For every registered tool other than
    jira_test_connection, every error that the client's [request]
    throws (no credentials, a rejected fetch, rate limit,
    authentication, permission or generic API error, an unreadable
    body) is caught by the tool's handler and answered with a response
    flagged [isError] that carries the error's message; nothing is
    fetched again after the error.  No registered handler ever throws,
    in a sequence of calls of registered tools every call is answered,
    and after a failed call the following ones are served as they
    would be otherwise.  For jira_test_connection the client's
    [testConnection] catches the request's error and the tool answers
    with an unflagged [{connected: false, message}]. *)
Theorem tool_errors_become_failure_responses `{Platform} :
  map (fun tool => (Registry.name tool, Registry.clause tool)) Registry.tools
  = Worker.registered_tools
  /\ (forall tool,
         In tool Registry.tools ->
         Registry.name tool <> "jira_test_connection" ->
         forall credentials (a : Registry.Arguments tool)
                (net : Network (Registry.Payload tool)) e,
           fst (request credentials net) = Throw e ->
           exists r,
             Registry.handler tool credentials a net
             = (Return r, snd (request credentials net))
             /\ readable_failure (Registry.clause tool) e r
             /\ (fetched (snd (request credentials net))
                 <= S (fetched net))%nat)
  /\ (forall tool,
         In tool Registry.tools ->
         forall credentials (a : Registry.Arguments tool)
                (net : Network (Registry.Payload tool)),
         exists r net',
           Registry.handler tool credentials a net = (Return r, net'))
  /\ (forall T (calls : list (Async T ToolResponse)) (net : Network T),
         Forall (registered_call T) calls ->
         exists rs net',
           serve calls net = (Return rs, net')
           /\ List.length rs = List.length calls)
  /\ (forall tool,
         In tool Registry.tools ->
         Registry.name tool <> "jira_test_connection" ->
         forall credentials (a : Registry.Arguments tool)
                (rest : list (Async (Registry.Payload tool) ToolResponse))
                (net : Network (Registry.Payload tool)) e,
           fst (request credentials net) = Throw e ->
           exists r,
             readable_failure (Registry.clause tool) e r
             /\ serve (Registry.handler tool credentials a :: rest) net
                = (rs <- serve rest ;; ret (r :: rs))
                    (snd (request credentials net)))
  /\ (forall credentials (net : Network JiraMyself) e,
         fst (getMyself credentials net) = Throw e ->
         fst (Tools.jira_test_connection credentials net)
         = Return
             {| content :=
                  [JSON_stringify
                     (Tools.connection_json
                        {| connected := false;
                           status_message :=
                             if instanceofError e then error_message e
                             else "Connection failed" |})];
                isError := None |}).
Proof.
  split; [|split; [|split; [|split; [|split]]]].
  - apply registry_lists_registered_tools.
  - intros tool Hin Hname credentials a net e He.
    exists (Tools.catch_response (Registry.clause tool) e).
    split; [|split].
    + now apply registered_handler_catches_request.
    + apply catch_response_is_readable.
    + apply request_fetched_le.
  - intros tool Hin credentials a net.
    now apply registered_handler_returns.
  - intros T calls net Hcalls. revert net.
    induction Hcalls as [|call rest Hcall _ IH]; intros net.
    + exists [], net. split; reflexivity.
    + destruct Hcall as [tool credentials a Hin].
      destruct (registered_handler_returns tool Hin credentials a net)
        as [r [net1 Hr]].
      destruct (IH net1) as [rs [net2 [Hs Hl]]].
      exists (r :: rs), net2. cbn [serve]. unfold bind at 1. rewrite Hr.
      unfold bind, ret. rewrite Hs.
      split; [reflexivity | cbn; now rewrite Hl].
  - intros tool Hin Hname credentials a rest net e He.
    exists (Tools.catch_response (Registry.clause tool) e).
    split; [apply catch_response_is_readable|].
    cbn [serve]. unfold bind at 1.
    now rewrite (registered_handler_catches_request tool Hin Hname
                   credentials a net e He).
  - intros credentials net e He.
    unfold Tools.jira_test_connection, Tools.tool_handler, testConnection,
      try_catch, bind.
    destruct (getMyself credentials net) as [[e' | myself] net1];
      cbn [fst] in He; [|discriminate He].
    injection He as ->. reflexivity.
Qed.

Lemma changelog_failure_is_answered `{Platform}
      (credentials : TenantCredentials) (args : Tools.ListArgs)
      (net : Network Page) (response : HttpResponse Page)
      (auth : AuthHeaders) (e : JsError) :
  getAuthHeaders credentials = Return auth ->
  replies net (fetched net) = Return response ->
  handleResponse response = Throw e ->
  Tools.jira_get_changelog credentials args net
  = (Return (formatErrorResponse e),
     {| fetched := S (fetched net); replies := replies net |}).
Proof.
  intros Ha Hr Hh.
  unfold Tools.jira_get_changelog.
  apply (tool_handler_catches Tools.FormatError).
  unfold getChangelog, bind.
  now rewrite (request_after_fetch _ _ _ _ Ha Hr), Hh.
Qed.

Lemma tool_errors_witness :
  exists r,
    @Tools.jira_get_changelog Sample.platform Sample.oauth page_of_fifty
      unauthorized_vendor
    = (Return r, snd (request Sample.oauth (@unauthorized_vendor Page)))
    /\ @readable_failure Sample.platform Tools.FormatError
         (AuthenticationError "Authentication failed. Check your credentials.")
         r
    /\ (fetched (snd (request Sample.oauth (@unauthorized_vendor Page)))
        <= S (fetched (@unauthorized_vendor Page)))%nat.
Proof.
  apply (proj1 (proj2 (@tool_errors_become_failure_responses Sample.platform))
           {| Registry.name := "jira_get_changelog";
              Registry.clause := Tools.FormatError;
              Registry.Payload := Page;
              Registry.Arguments := Tools.ListArgs;
              Registry.handler :=
                @Tools.jira_get_changelog Sample.platform |}).
  - do 8 right. left. reflexivity.
  - discriminate.
  - reflexivity.
Defined.

(** C8 as stated fails for jira_test_connection: the vendor's 401 makes
    the client's call throw, and the tool answers with an unflagged
    [{connected: false, ...}]. *)
Lemma test_connection_counterexample : ~ test_connection_flags_failures.
Proof.
  intros H.
  specialize (H Sample.platform Sample.oauth unauthorized_vendor
                (AuthenticationError
                   "Authentication failed. Check your credentials.")
                {| content :=
                     [Sample.render
                        (Tools.connection_json
                           {| connected := false;
                              status_message :=
                                "Authentication failed. Check your credentials." |})];
                   isError := None |}
                eq_refl eq_refl).
  discriminate H.
Qed.

(* ================================================================== *)
(** * Further properties of the code                                   *)
(* ================================================================== *)

(** ** From the tenant headers to the Authorization header *)

Lemma truthy_provided_dec (v : option string) :
  (Js.truthy v = true /\ provided v) \/ (Js.truthy v = false /\ ~ provided v).
Proof.
  destruct (Js.truthy v) eqn:E.
  - left. split; [reflexivity | now apply provided_truthy].
  - right. split; [reflexivity | now apply not_provided_truthy].
Qed.

Lemma validateCredentials_accepts (credentials : TenantCredentials) :
  validateCredentials credentials = Return tt
  <-> domain credentials <> EmptyString
      /\ (provided (accessToken credentials)
          \/ (provided (email credentials)
              /\ provided (apiToken credentials))).
Proof.
  unfold validateCredentials.
  destruct (domain credentials) as [|ch d]; unfold Js.truthy at 1; cbn [negb].
  - split; [discriminate | intros [H _]; now contradiction H].
  - destruct (truthy_provided_dec (accessToken credentials)) as [[E1 Ha]|[E1 Ha]];
      destruct (truthy_provided_dec (email credentials)) as [[E2 He]|[E2 He]];
      destruct (truthy_provided_dec (apiToken credentials)) as [[E3 Ht]|[E3 Ht]];
      rewrite ?E1, ?E2, ?E3; cbn [andb negb];
      (split;
       [ intros H; first [discriminate H | (split; [discriminate | tauto])]
       | intros [_ H]; first [reflexivity | (exfalso; tauto)] ]).
Qed.

Lemma getAuthHeaders_returns (credentials : TenantCredentials) :
  (exists auth, getAuthHeaders credentials = Return auth)
  <-> (provided (accessToken credentials)
       \/ (provided (email credentials) /\ provided (apiToken credentials))).
Proof.
  unfold getAuthHeaders.
  destruct (truthy_provided_dec (accessToken credentials)) as [[E1 Ha]|[E1 Ha]];
    destruct (truthy_provided_dec (email credentials)) as [[E2 He]|[E2 He]];
    destruct (truthy_provided_dec (apiToken credentials)) as [[E3 Ht]|[E3 Ht]];
    rewrite ?E1, ?E2, ?E3; cbn [andb];
    (split;
     [ intros [auth H]; first [discriminate H | tauto]
     | intros H; first [(eexists; reflexivity) | (exfalso; tauto)] ]).
Qed.

(** X1.  [validateCredentials] accepts exactly the credentials that have
    a domain and for which [getAuthHeaders] returns headers: once the
    worker has validated a tenant, the client never throws its
    no-credentials error. *)
Theorem validated_credentials_authenticate (credentials : TenantCredentials) :
  validateCredentials credentials = Return tt
  <-> domain credentials <> EmptyString
      /\ exists auth, getAuthHeaders credentials = Return auth.
Proof.
  rewrite validateCredentials_accepts, getAuthHeaders_returns. reflexivity.
Qed.

Lemma fetch_serve_inv (request : Request) (credentials : TenantCredentials) :
  Worker.fetch request = Worker.Serve credentials ->
  credentials = parseTenantCredentials request
  /\ validateCredentials credentials = Return tt.
Proof.
  unfold Worker.fetch.
  destruct (String.eqb (pathname request) "/health"); [discriminate|].
  destruct (String.eqb (pathname request) "/mcp"
            && String.eqb (method request) "POST")%bool.
  - destruct (validateCredentials (parseTenantCredentials request))
      as [e|[]] eqn:Hv; [discriminate|].
    intros [= <-]. now split.
  - destruct (String.eqb (pathname request) "/sse"); discriminate.
Qed.

(** X2.  The worker hands a request to the tool server exactly when it
    is a POST to /mcp whose parsed credentials pass validation, and then
    with those parsed credentials; a 401 is only ever the answer to a
    POST to /mcp whose credentials fail validation. *)
Theorem fetch_serves_exactly_validated_posts (request : Request) :
  (forall credentials,
      Worker.fetch request = Worker.Serve credentials
      <-> pathname request = "/mcp" /\ method request = "POST"
          /\ credentials = parseTenantCredentials request
          /\ validateCredentials credentials = Return tt)
  /\ (forall response,
         Worker.fetch request = Worker.Respond response ->
         Worker.status response = 401 ->
         pathname request = "/mcp" /\ method request = "POST"
         /\ exists e,
             validateCredentials (parseTenantCredentials request) = Throw e).
Proof.
  unfold Worker.fetch.
  destruct (String.eqb_spec (pathname request) "/health") as [Hh|Hh].
  { split.
    - intros credentials. split; [discriminate|].
      intros [Hp _]. rewrite Hp in Hh. discriminate Hh.
    - intros response [= <-] Hs. discriminate Hs. }
  destruct (String.eqb_spec (pathname request) "/mcp") as [Hm|Hm];
    destruct (String.eqb_spec (method request) "POST") as [Hp|Hp];
    cbn [andb].
  - destruct (validateCredentials (parseTenantCredentials request))
      as [e|[]] eqn:Hv.
    + split.
      * intros credentials. split; [discriminate|].
        intros [_ [_ [-> Hok]]]. rewrite Hv in Hok. discriminate Hok.
      * intros response _ _. repeat split; eauto.
    + split.
      * intros credentials. split.
        -- intros [= <-]. repeat split; assumption.
        -- intros [_ [_ [-> _]]]. reflexivity.
      * intros response H. discriminate H.
  - split.
    + intros credentials.
      destruct (String.eqb_spec (pathname request) "/sse");
        (split; [discriminate | intros [_ [H _]]; contradiction]).
    + intros response.
      destruct (String.eqb_spec (pathname request) "/sse");
        intros [= <-] Hs; discriminate Hs.
  - split.
    + intros credentials.
      destruct (String.eqb_spec (pathname request) "/sse");
        (split; [discriminate | intros [H _]; contradiction]).
    + intros response.
      destruct (String.eqb_spec (pathname request) "/sse");
        intros [= <-] Hs; discriminate Hs.
  - split.
    + intros credentials.
      destruct (String.eqb_spec (pathname request) "/sse");
        (split; [discriminate | intros [H _]; contradiction]).
    + intros response.
      destruct (String.eqb_spec (pathname request) "/sse");
        intros [= <-] Hs; discriminate Hs.
Qed.

Lemma fetch_serves_witness :
  Worker.fetch basic_request
  = Worker.Serve (parseTenantCredentials basic_request).
Proof.
  apply (proj1 (fetch_serves_exactly_validated_posts basic_request)).
  repeat split.
Defined.

(** X3.  For a request that the worker serves, the client's
    Authorization header is Bearer followed by the value of
    X-Jira-Access-Token when that header has a value, and otherwise
    Basic followed by base64 of the X-Jira-Email value, a colon and the
    X-Jira-API-Token value. *)
Theorem served_requests_authenticate (request : Request)
        (credentials : TenantCredentials) :
  Worker.fetch request = Worker.Serve credentials ->
  (forall token,
      headers_get (headers request) "X-Jira-Access-Token" = Some token ->
      token <> EmptyString ->
      getAuthHeaders credentials = Return (bearer token))
  /\ (~ provided (headers_get (headers request) "X-Jira-Access-Token") ->
      exists user token,
        headers_get (headers request) "X-Jira-Email" = Some user
        /\ headers_get (headers request) "X-Jira-API-Token" = Some token
        /\ getAuthHeaders credentials = Return (basic_auth user token)).
Proof.
  intros Hs.
  apply fetch_serve_inv in Hs. destruct Hs as [-> Hv].
  apply validateCredentials_accepts in Hv. destruct Hv as [_ Hv].
  split.
  - intros token Ht Hne.
    unfold getAuthHeaders. cbn [parseTenantCredentials accessToken].
    rewrite Ht, truthy_or_undefined, (truthy_some token Hne).
    unfold Js.or_undefined. now rewrite (truthy_some token Hne).
  - intros Hno.
    assert (Hno' : ~ provided (accessToken (parseTenantCredentials request))).
    { cbn [parseTenantCredentials accessToken].
      rewrite not_provided_truthy, truthy_or_undefined.
      now apply not_provided_truthy. }
    destruct Hv as [Ha | [He Ht]]; [contradiction|].
    cbn [parseTenantCredentials email apiToken] in He, Ht.
    destruct He as [user [He Hune]]. destruct Ht as [token [Ht Htne]].
    exists user, token.
    assert (He' : headers_get (headers request) "X-Jira-Email" = Some user).
    { unfold Js.or_undefined in He.
      destruct (Js.truthy (headers_get (headers request) "X-Jira-Email"));
        [exact He | discriminate He]. }
    assert (Ht' : headers_get (headers request) "X-Jira-API-Token" = Some token).
    { unfold Js.or_undefined in Ht.
      destruct (Js.truthy (headers_get (headers request) "X-Jira-API-Token"));
        [exact Ht | discriminate Ht]. }
    repeat split; try assumption.
    apply not_provided_truthy in Hno'.
    unfold getAuthHeaders. rewrite Hno'.
    cbn [parseTenantCredentials email apiToken].
    rewrite He', Ht', !truthy_or_undefined.
    rewrite (truthy_some user Hune), (truthy_some token Htne).
    unfold Js.or_undefined.
    now rewrite (truthy_some user Hune), (truthy_some token Htne).
Qed.

Lemma served_requests_witness :
  getAuthHeaders (parseTenantCredentials oauth_request)
  = Return (bearer "tok")
  /\ getAuthHeaders (parseTenantCredentials basic_request)
     = Return (basic_auth "a" "b").
Proof.
  split.
  - apply (proj1 (served_requests_authenticate oauth_request
                    (parseTenantCredentials oauth_request) eq_refl) "tok");
      [reflexivity | discriminate].
  - destruct (proj2 (served_requests_authenticate basic_request
                       (parseTenantCredentials basic_request) eq_refl))
      as [user [token [Hu [Ht Hh]]]].
    + intros [s [H _]]. discriminate H.
    + injection Hu as <-. injection Ht as <-. exact Hh.
Defined.

(** ** The Authorization header and the tenant *)

Lemma colon_split_unique (u1 t1 u2 t2 : string) :
  colon_free u1 -> colon_free u2 ->
  u1 ++ ":" ++ t1 = u2 ++ ":" ++ t2 -> u1 = u2 /\ t1 = t2.
Proof.
  unfold colon_free. revert u2.
  induction u1 as [|a u1 IH]; intros [|b u2] H1 H2 E; cbn in *.
  - injection E as ->. split; reflexivity.
  - injection E as <- _. exfalso. apply H2. now left.
  - injection E as -> _. exfalso. apply H1. now left.
  - injection E as -> E.
    assert (H : u1 = u2 /\ t1 = t2) by (apply IH; tauto).
    destruct H as [-> ->]. split; reflexivity.
Qed.

(** X4.  The payload of a Basic header is read back by the base64
    decoder as the e-mail address, a colon and the API token. *)
Theorem basic_header_decodes (credentials : TenantCredentials)
        (user token : string) :
  ~ provided (accessToken credentials) ->
  email credentials = Some user -> user <> EmptyString ->
  apiToken credentials = Some token -> token <> EmptyString ->
  exists payload,
    getAuthHeaders credentials
    = Return {| Authorization := "Basic " ++ payload;
                ContentType := "application/json";
                Accept := "application/json" |}
    /\ Js.atob payload = Some (user ++ ":" ++ token).
Proof.
  intros Hno He Hune Ht Htne.
  exists (Js.btoa (user ++ ":" ++ token)). split.
  - apply not_provided_truthy in Hno. unfold getAuthHeaders.
    rewrite Hno, He, Ht, (truthy_some user Hune), (truthy_some token Htne).
    reflexivity.
  - apply atob_btoa.
Qed.

Lemma basic_header_decodes_witness :
  exists payload,
    getAuthHeaders Sample.basic
    = Return {| Authorization := "Basic " ++ payload;
                ContentType := "application/json";
                Accept := "application/json" |}
    /\ Js.atob payload = Some "a:b".
Proof.
  apply (basic_header_decodes Sample.basic "a" "b");
    try reflexivity; try discriminate.
  intros [s [H _]]. discriminate H.
Defined.

(** X5.  Two tenants get the same Authorization header only if they
    use the same OAuth token, or neither uses one and their e-mail
    address and API token agree (e-mail addresses hold no colon). *)
Theorem authorization_identifies_the_tenant
        (c1 c2 : TenantCredentials) (h1 h2 : AuthHeaders) :
  getAuthHeaders c1 = Return h1 ->
  getAuthHeaders c2 = Return h2 ->
  Authorization h1 = Authorization h2 ->
  (provided (accessToken c1) /\ accessToken c1 = accessToken c2)
  \/ (~ provided (accessToken c1) /\ ~ provided (accessToken c2)
      /\ forall u1 u2,
          email c1 = Some u1 -> email c2 = Some u2 ->
          colon_free u1 -> colon_free u2 ->
          email c1 = email c2 /\ apiToken c1 = apiToken c2).
Proof.
  unfold getAuthHeaders. intros H1 H2 E.
  destruct (truthy_provided_dec (accessToken c1)) as [[E1 P1]|[E1 P1]];
    destruct (truthy_provided_dec (accessToken c2)) as [[E2 P2]|[E2 P2]];
    rewrite E1 in H1; rewrite E2 in H2.
  - left. split; [assumption|].
    injection H1 as <-. injection H2 as <-. cbn [Authorization] in E.
    destruct P1 as [t1 [Ht1 _]]. destruct P2 as [t2 [Ht2 _]].
    rewrite Ht1, Ht2 in *. cbn in E. now injection E as ->.
  - exfalso.
    destruct (Js.truthy (email c2) && Js.truthy (apiToken c2))%bool;
      [|discriminate H2].
    injection H1 as <-. injection H2 as <-. cbn in E. discriminate E.
  - exfalso.
    destruct (Js.truthy (email c1) && Js.truthy (apiToken c1))%bool;
      [|discriminate H1].
    injection H1 as <-. injection H2 as <-. cbn in E. discriminate E.
  - right. split; [assumption|]. split; [assumption|].
    intros u1 u2 Hu1 Hu2 F1 F2.
    destruct (Js.truthy (email c1) && Js.truthy (apiToken c1))%bool eqn:B1;
      [|discriminate H1].
    destruct (Js.truthy (email c2) && Js.truthy (apiToken c2))%bool eqn:B2;
      [|discriminate H2].
    apply andb_prop in B1. apply andb_prop in B2.
    destruct B1 as [_ B1]. destruct B2 as [_ B2].
    apply truthy_spec in B1. apply truthy_spec in B2.
    destruct B1 as [t1 [Ht1 _]]. destruct B2 as [t2 [Ht2 _]].
    injection H1 as <-. injection H2 as <-. cbn [Authorization] in E.
    rewrite Hu1, Hu2, Ht1, Ht2 in *. cbn [interpolate] in E.
    assert (Eb : Js.btoa (u1 ++ ":" ++ t1) = Js.btoa (u2 ++ ":" ++ t2)).
    { cbn in E. now injection E. }
    apply btoa_injective in Eb.
    destruct (colon_split_unique u1 t1 u2 t2 F1 F2 Eb) as [-> ->].
    split; reflexivity.
Qed.

Lemma authorization_identifies_witness :
  Authorization (basic_auth "a" "b") <> Authorization (basic_auth "c" "d").
Proof.
  intros E.
  destruct (authorization_identifies_the_tenant Sample.basic other_tenant
              (basic_auth "a" "b") (basic_auth "c" "d") eq_refl eq_refl E)
    as [[[s [H _]] _] | [_ [_ H]]].
  - discriminate H.
  - destruct (H "a" "c" eq_refl eq_refl) as [He _].
    + intros [F|[]]. discriminate F.
    + intros [F|[]]. discriminate F.
    + discriminate He.
Defined.

(** ** What [request] does to the network and what its outcome tells *)

(** X6.  [request] calls [fetch] at most once: not at all when the
    credentials give no Authorization header, exactly once otherwise,
    whatever the outcome. *)
Theorem request_fetches_at_most_once {T} (credentials : TenantCredentials)
        (net : Network T) :
  replies (snd (request credentials net)) = replies net
  /\ ((exists e, getAuthHeaders credentials = Throw e) ->
      request credentials net
      = (Throw (AuthenticationError no_credentials_message), net))
  /\ ((exists auth, getAuthHeaders credentials = Return auth) ->
      fetched (snd (request credentials net)) = S (fetched net)).
Proof.
  unfold request, bind, lift, fetch_call.
  destruct (getAuthHeaders credentials) as [e|auth] eqn:Ha.
  - split; [reflexivity|]. split.
    + intros _. unfold getAuthHeaders in Ha.
      destruct (Js.truthy (accessToken credentials)); [discriminate Ha|].
      destruct (Js.truthy (email credentials) && Js.truthy (apiToken credentials))%bool;
        [discriminate Ha|].
      now injection Ha as <-.
    + intros [auth H]. discriminate H.
  - destruct (replies net (fetched net)) as [e|response];
      [|destruct (handleResponse response)];
      (split; [reflexivity|]; split;
       [intros [e' H]; discriminate H | intros _; reflexivity]).
Qed.

Lemma request_fetches_witness :
  request Sample.nothing (@unauthorized_vendor json)
  = (Throw (AuthenticationError no_credentials_message), unauthorized_vendor)
  /\ fetched (snd (request Sample.oauth (@unauthorized_vendor json))) = 1%nat.
Proof.
  split.
  - apply (proj1 (proj2 (request_fetches_at_most_once Sample.nothing
                           unauthorized_vendor))).
    eexists. reflexivity.
  - apply (proj2 (proj2 (request_fetches_at_most_once Sample.oauth
                           unauthorized_vendor))).
    eexists. reflexivity.
Defined.

(** X7.  [request] returns only for a 2xx response: when it returns,
    the vendor answered with a status between 200 and 299, the result
    is [undefined] exactly for 204 and otherwise the parsed body. *)
Theorem request_returns_only_on_success {T} (credentials : TenantCredentials)
        (net : Network T) (result : option T) :
  fst (request credentials net) = Return result ->
  exists response,
    replies net (fetched net) = Return response
    /\ 200 <= status response <= 299
    /\ (result = None <-> status response = 204)
    /\ (forall payload, result = Some payload ->
                        json_body response = Return payload).
Proof.
  unfold request, bind, lift, fetch_call.
  destruct (getAuthHeaders credentials) as [e|auth]; [discriminate|].
  destruct (replies net (fetched net)) as [e|response]; [discriminate|].
  intros H. exists response. split; [reflexivity|].
  destruct (handleResponse response) as [e|r] eqn:Hh; cbn [fst] in H;
    [discriminate H|]. injection H as ->.
  unfold handleResponse, ok in Hh.
  destruct (Z.eqb_spec (status response) 429); [discriminate Hh|].
  destruct (Z.eqb_spec (status response) 401); [discriminate Hh|].
  destruct (Z.eqb_spec (status response) 403); [discriminate Hh|].
  destruct (Z.leb_spec 200 (status response));
    destruct (Z.leb_spec (status response) 299);
    cbn [andb negb] in Hh; try discriminate Hh.
  split; [lia|].
  destruct (Z.eqb_spec (status response) 204) as [E|E].
  - injection Hh as <-. split; [tauto|]. intros payload Hp. discriminate Hp.
  - destruct (json_body response) as [e|v]; [discriminate Hh|].
    injection Hh as <-. split.
    + split; [discriminate | contradiction].
    + intros payload [= <-]. reflexivity.
Qed.

Lemma request_returns_witness :
  exists response,
    replies (Sample.always (accepted 200 (JStr "ok"))) 0%nat = Return response
    /\ 200 <= status response <= 299.
Proof.
  destruct (request_returns_only_on_success Sample.oauth
              (Sample.always (accepted 200 (JStr "ok"))) (Some (JStr "ok"))
              eq_refl) as [response [Hr [Hs _]]].
  exists response. split; assumption.
Defined.

(** X8.  The class of the error that [request] throws tells the status:
    a [RateLimitError] means 429, an [AuthenticationError] means 401, a
    [JiraApiError] carries the status of the response, which is then
    outside 2xx and neither 429 nor 401.  (The vendor has answered, and
    reading the body as JSON fails with a built-in error only.) *)
Theorem request_error_tells_the_status {T} (credentials : TenantCredentials)
        (net : Network T) (response : HttpResponse T) (auth : AuthHeaders) :
  getAuthHeaders credentials = Return auth ->
  replies net (fetched net) = Return response ->
  (forall e, json_body response = Throw e -> exists text, e = Error text) ->
  (forall text seconds,
      fst (request credentials net) = Throw (RateLimitError text seconds) ->
      status response = 429)
  /\ (forall text,
         fst (request credentials net) = Throw (AuthenticationError text) ->
         status response = 401)
  /\ (forall text code,
         fst (request credentials net) = Throw (JiraApiError text code) ->
         code = status response
         /\ ~ (200 <= code <= 299) /\ code <> 429 /\ code <> 401).
Proof.
  intros Ha Hr Hjson. rewrite (request_after_fetch _ _ _ _ Ha Hr).
  cbn [fst]. unfold handleResponse, ok.
  destruct (Z.eqb_spec (status response) 429) as [E429|E429].
  { split; [intros; assumption|].
    split; [intros text H; discriminate H | intros text code H; discriminate H]. }
  destruct (Z.eqb_spec (status response) 401) as [E401|E401].
  { split; [intros text seconds H; discriminate H|].
    split; [intros; assumption | intros text code H; discriminate H]. }
  destruct (Z.eqb_spec (status response) 403) as [E403|E403].
  { split; [intros text seconds H; discriminate H|].
    split; [intros text H; discriminate H|].
    intros text code [= _ <-]. rewrite E403. repeat split; lia. }
  assert (Hgeneric :
            forall m,
              (forall text seconds,
                  Throw (JiraApiError m (status response))
                  = @Throw JsError (option T) (RateLimitError text seconds) ->
                  status response = 429)
              /\ (forall text,
                     Throw (JiraApiError m (status response))
                     = @Throw JsError (option T) (AuthenticationError text) ->
                     status response = 401)
              /\ (forall text code,
                     Throw (JiraApiError m (status response))
                     = @Throw JsError (option T) (JiraApiError text code) ->
                     ~ (200 <= status response <= 299) ->
                     code = status response
                     /\ ~ (200 <= code <= 299) /\ code <> 429 /\ code <> 401)).
  { intros m. split; [intros text seconds H; discriminate H|].
    split; [intros text H; discriminate H|].
    intros text code [= _ <-] Hn. repeat split; assumption. }
  assert (Hnone :
            forall c : Completion JsError (option T),
              (forall e, c = Throw e -> exists text, e = Error text) ->
              (forall text seconds,
                  c = Throw (RateLimitError text seconds) ->
                  status response = 429)
              /\ (forall text, c = Throw (AuthenticationError text) ->
                               status response = 401)
              /\ (forall text code,
                     c = Throw (JiraApiError text code) ->
                     code = status response
                     /\ ~ (200 <= code <= 299) /\ code <> 429 /\ code <> 401)).
  { intros c Hc. split; [|split].
    - intros text seconds H. destruct (Hc _ H) as [t F]. discriminate F.
    - intros text H. destruct (Hc _ H) as [t F]. discriminate F.
    - intros text code H. destruct (Hc _ H) as [t F]. discriminate F. }
  destruct (Z.leb_spec 200 (status response));
    destruct (Z.leb_spec (status response) 299); cbn [andb negb];
    try (destruct (Hgeneric (errorMessage response)) as [G1 [G2 G3]];
         split; [exact G1|]; split; [exact G2|];
         intros text code H'; apply (G3 text code H'); lia).
  destruct (Z.eqb_spec (status response) 204) as [E204|E204].
  { apply Hnone. intros e H'. discriminate H'. }
  apply Hnone. intros e H'.
  destruct (json_body response) as [e'|v] eqn:Hb; [|discriminate H'].
  injection H' as <-. apply (Hjson e' eq_refl).
Qed.

Lemma request_error_witness :
  404 = status (rejected 404 (Some envelope_with_message))
  /\ ~ (200 <= 404 <= 299) /\ 404 <> 429 /\ 404 <> 401.
Proof.
  assert (Hjson : forall e,
             json_body (rejected 404 (Some envelope_with_message)) = Throw e ->
             exists text, e = Error text).
  { intros e E. injection E as <-. eexists. reflexivity. }
  apply (proj2 (proj2 (request_error_tells_the_status Sample.oauth
                         (Sample.always (rejected 404 (Some envelope_with_message)))
                         (rejected 404 (Some envelope_with_message))
                         (bearer "tok") eq_refl eq_refl Hjson))
           "Not found" 404 eq_refl).
Defined.

Lemma string_of_Z_not_empty (z : Z) : Js.string_of_Z z <> EmptyString.
Proof.
  unfold Js.string_of_Z.
  destruct z as [|p|p]; cbn [Z.to_int NilZero.string_of_int];
    try discriminate;
    pose proof (Unsigned.to_uint_nonnil p) as Hn;
    destruct (Pos.to_uint p); try contradiction; discriminate.
Qed.

(** X9.  A Retry-After header that is the decimal rendering of an
    integer of magnitude at most [2 ^ 53] reaches the thrown
    [RateLimitError] as that integer, negative or not. *)
Theorem retry_after_seconds_are_read_back {T}
        (credentials : TenantCredentials) (net : Network T)
        (response : HttpResponse T) (auth : AuthHeaders) (seconds : Z) :
  getAuthHeaders credentials = Return auth ->
  replies net (fetched net) = Return response ->
  status response = 429 ->
  retryAfterHeader response = Some (Js.string_of_Z seconds) ->
  Z.abs seconds <= 2 ^ 53 ->
  fst (request credentials net)
  = Throw (RateLimitError "Rate limit exceeded" (Js.Num seconds)).
Proof.
  intros Ha Hr Hs Hh Hsafe. rewrite (request_after_fetch _ _ _ _ Ha Hr).
  cbn [fst]. unfold handleResponse, retryAfterValue.
  rewrite Hs, Hh. cbn [Z.eqb Pos.eqb].
  rewrite (truthy_some _ (string_of_Z_not_empty seconds)).
  cbn [interpolate].
  now rewrite parseInt10_string_of_Z, (toDouble_safe seconds Hsafe).
Qed.

Lemma retry_after_witness :
  fst (request Sample.oauth (Sample.always (rate_limited (Some "3600"))))
  = Throw (RateLimitError "Rate limit exceeded" (Js.Num 3600)).
Proof.
  apply (retry_after_seconds_are_read_back Sample.oauth
           (Sample.always (rate_limited (Some "3600")))
           (rate_limited (Some "3600")) (bearer "tok") 3600);
    first [reflexivity | (cbn; lia)].
Defined.

(** Beyond [2 ^ 53] the seconds are rounded as a double is. *)
Example retry_after_beyond_safe_integers :
  fst (request Sample.oauth
         (Sample.always (rate_limited (Some "9007199254740993"))))
  = Throw (RateLimitError "Rate limit exceeded" (Js.Num 9007199254740992)).
Proof. reflexivity. Qed.

(** ** testConnection *)

(** X10.  [testConnection] never throws and fetches exactly what
    [getMyself] fetches.  It reports [connected: true] exactly when
    [getMyself] returned a user, with a message that names the user
    (display name, then e-mail address or else account id); otherwise
    it reports [connected: false] with the message of the error. *)
Theorem testConnection_reports (credentials : TenantCredentials)
        (net : Network JiraMyself) :
  exists result,
    testConnection credentials net
    = (Return result, snd (getMyself credentials net))
    /\ (connected result = true
        <-> exists myself,
            fst (getMyself credentials net) = Return (Some myself))
    /\ (forall myself,
           fst (getMyself credentials net) = Return (Some myself) ->
           status_message result
           = "Connected as " ++ displayName myself ++ " ("
             ++ match emailAddress myself with
                | Some (String c address) => String c address
                | _ => accountId myself
                end ++ ")")
    /\ (forall e,
           fst (getMyself credentials net) = Throw e ->
           connected result = false
           /\ (instanceofError e = true ->
               status_message result = error_message e)).
Proof.
  unfold testConnection, try_catch, bind.
  destruct (getMyself credentials net) as [[e | [myself |]] net'];
    cbn [fst snd read ret throw]; eexists; (split; [reflexivity|]);
    cbn [connected status_message].
  - split; [|split].
    + split; [discriminate | intros [m H]; discriminate H].
    + intros m H. discriminate H.
    + intros e' [= <-]. split; [reflexivity|]. now intros ->.
  - split; [|split].
    + split; [eauto | reflexivity].
    + intros m [= <-]. destruct (emailAddress myself) as [[|c a]|]; reflexivity.
    + intros e H. discriminate H.
  - split; [|split].
    + split; [discriminate | intros [m H]; discriminate H].
    + intros m H. discriminate H.
    + intros e H. discriminate H.
Qed.

Example testConnection_connected :
  fst (testConnection Sample.oauth (Sample.always (myself_reply alice)))
  = Return {| connected := true;
              status_message := "Connected as Alice (alice@example.com)" |}.
Proof. reflexivity. Qed.

(** After a 204 there is no user to read: the [TypeError] is reported
    like any other failure. *)
Example testConnection_no_content :
  fst (testConnection Sample.oauth (Sample.always (Sample.bare 204)))
  = Return {| connected := false;
              status_message :=
                "Cannot read properties of undefined (reading 'displayName')" |}.
Proof. reflexivity. Qed.

(** ** String methods *)

Lemma length_take (k : nat) (s : string) :
  String.length (Text.take k s) = Nat.min k (String.length s).
Proof.
  revert s. induction k as [|k IH]; intros [|c s]; cbn; try reflexivity.
  now rewrite IH.
Qed.

Lemma take_all (k : nat) (s : string) :
  (String.length s <= k)%nat -> Text.take k s = s.
Proof.
  revert s. induction k as [|k IH]; intros [|c s] H; cbn in *;
    try reflexivity; try lia.
  rewrite IH; [reflexivity | lia].
Qed.

Lemma length_append (a b : string) :
  String.length (a ++ b) = (String.length a + String.length b)%nat.
Proof. induction a as [|c a IH]; cbn; [reflexivity | now rewrite IH]. Qed.

Lemma append_empty (s : string) : s ++ EmptyString = s.
Proof. induction s as [|c s IH]; cbn; [reflexivity | now rewrite IH]. Qed.

Lemma split_not_nil (c : ascii) (s : string) : Text.split c s <> [].
Proof.
  destruct s as [|d s]; cbn; [discriminate|].
  destruct (Ascii.eqb d c); [discriminate|].
  destruct (Text.split c s); discriminate.
Qed.

Lemma length_split (c : ascii) (s : string) :
  List.length (Text.split c s) = S (occurrences c s).
Proof.
  induction s as [|d s IH]; cbn; [reflexivity|].
  destruct (Ascii.eqb d c); cbn; [now rewrite IH|].
  pose proof (split_not_nil c s) as Hn.
  destruct (Text.split c s) as [|first others]; [contradiction|].
  exact IH.
Qed.

Lemma join_split (c : ascii) (s : string) :
  Js.join (String c EmptyString) (Text.split c s) = s.
Proof.
  induction s as [|d s IH]; cbn; [reflexivity|].
  destruct (Ascii.eqb_spec d c) as [->|Hne].
  - pose proof (split_not_nil c s) as Hn.
    destruct (Text.split c s) as [|first others]; [contradiction|].
    cbn [Js.join]. cbn. now rewrite <- IH.
  - pose proof (split_not_nil c s) as Hn.
    destruct (Text.split c s) as [|first others]; [contradiction|].
    destruct others as [|second others]; cbn in *; now rewrite <- IH.
Qed.

Lemma split_parts_lack (c : ascii) (s part : string) :
  In part (Text.split c s) -> lacks c part.
Proof.
  unfold lacks. revert part.
  induction s as [|d s IH]; intros part Hin; cbn in Hin.
  - destruct Hin as [<-|[]]. intros [].
  - destruct (Ascii.eqb_spec d c) as [->|Hne].
    + destruct Hin as [<-|Hin]; [intros [] | now apply IH].
    + pose proof (split_not_nil c s) as Hn.
      destruct (Text.split c s) as [|first others]; [contradiction|].
      destruct Hin as [<-|Hin].
      * cbn. intros [E|F]; [now apply Hne | revert F; apply IH; now left].
      * apply IH. now right.
Qed.

Lemma split_lacking (c : ascii) (s : string) :
  lacks c s -> Text.split c s = [s].
Proof.
  unfold lacks. induction s as [|d s IH]; intros H; cbn in *; [reflexivity|].
  destruct (Ascii.eqb_spec d c) as [->|Hne]; [exfalso; apply H; now left|].
  rewrite IH; [reflexivity | tauto].
Qed.

Lemma split_append (c : ascii) (s rest : string) :
  lacks c s ->
  Text.split c (s ++ String c rest) = s :: Text.split c rest.
Proof.
  unfold lacks. induction s as [|d s IH]; intros H; cbn in *.
  - now rewrite Ascii.eqb_refl.
  - destruct (Ascii.eqb_spec d c) as [->|Hne]; [exfalso; apply H; now left|].
    rewrite IH; [reflexivity | tauto].
Qed.

Lemma split_join (c : ascii) (parts : list string) :
  parts <> [] -> Forall (lacks c) parts ->
  Text.split c (Js.join (String c EmptyString) parts) = parts.
Proof.
  induction parts as [|p parts IH]; intros Hne Hall; [contradiction|].
  inversion_clear Hall as [|? ? Hp Hrest].
  destruct parts as [|q parts].
  - cbn. now apply split_lacking.
  - cbn [Js.join]. cbn [append].
    rewrite split_append by assumption.
    f_equal. apply IH; [discriminate | assumption].
Qed.

Lemma trimStart_chars (s : string) (c : ascii) :
  In c (list_ascii_of_string (Js.trimStart s)) ->
  In c (list_ascii_of_string s).
Proof.
  induction s as [|d s IH]; cbn; [tauto|].
  destruct (Js.isWhiteSpace d); cbn; [intros H; right; now apply IH | tauto].
Qed.

Lemma trimEnd_chars (s : string) (c : ascii) :
  In c (list_ascii_of_string (Text.trimEnd s)) ->
  In c (list_ascii_of_string s).
Proof.
  revert c. induction s as [|d s IH]; intros c; cbn; [tauto|].
  destruct (Text.trimEnd s) as [|e kept] eqn:E.
  - destruct (Js.isWhiteSpace d); cbn; [tauto|]. intros [H|[]]. now left.
  - cbn. intros [H|H]; [now left | right; apply IH; exact H].
Qed.

Lemma trim_lacks (c : ascii) (s : string) : lacks c s -> lacks c (Text.trim s).
Proof.
  unfold lacks, Text.trim. intros H Hin. apply H.
  now apply trimStart_chars, trimEnd_chars.
Qed.

Lemma trimStart_fixed (s : string) :
  match s with
  | String c _ => Js.isWhiteSpace c = false
  | EmptyString => True
  end -> Js.trimStart s = s.
Proof. destruct s as [|c s]; cbn; [reflexivity | now intros ->]. Qed.

Lemma trimStart_starts (s : string) :
  match Js.trimStart s with
  | String c _ => Js.isWhiteSpace c = false
  | EmptyString => True
  end.
Proof.
  induction s as [|c s IH]; cbn; [exact I|].
  destruct (Js.isWhiteSpace c) eqn:E; [exact IH | exact E].
Qed.

Lemma trimEnd_keeps_start (s : string) :
  match s with
  | String c _ => Js.isWhiteSpace c = false
  | EmptyString => True
  end ->
  match Text.trimEnd s with
  | String c _ => Js.isWhiteSpace c = false
  | EmptyString => True
  end.
Proof.
  destruct s as [|c s]; cbn; [tauto|]. intros Hc.
  destruct (Text.trimEnd s); [now rewrite Hc | exact Hc].
Qed.

Lemma trimEnd_idempotent (s : string) :
  Text.trimEnd (Text.trimEnd s) = Text.trimEnd s.
Proof.
  induction s as [|c s IH]; cbn; [reflexivity|].
  destruct (Text.trimEnd s) as [|d kept] eqn:E.
  - destruct (Js.isWhiteSpace c) eqn:W; cbn; [reflexivity | now rewrite W].
  - change (Text.trimEnd (String c (String d kept)))
      with (match Text.trimEnd (String d kept) with
            | EmptyString =>
                if Js.isWhiteSpace c then EmptyString
                else String c EmptyString
            | String e k => String c (String e k)
            end).
    now rewrite IH.
Qed.

Lemma trim_idempotent (s : string) : Text.trim (Text.trim s) = Text.trim s.
Proof.
  unfold Text.trim.
  rewrite (trimStart_fixed (Text.trimEnd (Js.trimStart s))).
  - apply trimEnd_idempotent.
  - apply trimEnd_keeps_start, trimStart_starts.
Qed.

(** X11.  A comma-separated argument is never read as an empty list: it
    gives one entry more than it has commas, and every entry is free of
    commas and of white space at both ends. *)
Theorem comma_list_entries (value : string) :
  List.length (Text.comma_list value) = S (occurrences ","%char value)
  /\ forall entry,
      In entry (Text.comma_list value) ->
      lacks ","%char entry /\ Text.trim entry = entry.
Proof.
  unfold Text.comma_list. split.
  - rewrite length_map. apply length_split.
  - intros entry Hin. apply in_map_iff in Hin.
    destruct Hin as [part [<- Hin]]. split.
    + apply trim_lacks. now apply (split_parts_lack _ value).
    + apply trim_idempotent.
Qed.

(** The empty argument gives one empty entry, and so does every gap
    between two commas. *)
Example comma_list_edge_values :
  Text.comma_list EmptyString = [EmptyString]
  /\ Text.comma_list "PROJ-1, PROJ-2,,PROJ-3 ,"
     = ["PROJ-1"; "PROJ-2"; EmptyString; "PROJ-3"; EmptyString].
Proof. split; reflexivity. Qed.

(** X12.  Entries written with commas between them, each possibly
    surrounded by white space, are read back exactly. *)
Theorem comma_list_reads_back (entries written : list string) :
  entries <> [] ->
  Forall2 (fun entry text => lacks ","%char text /\ Text.trim text = entry)
          entries written ->
  Text.comma_list (Js.join comma written) = entries.
Proof.
  intros Hne Hall. unfold Text.comma_list, comma.
  rewrite split_join.
  - clear Hne.
    induction Hall as [|entry text entries written [_ Ht] _ IH];
      [reflexivity|]. cbn [map]. now rewrite Ht, IH.
  - intros ->. inversion Hall. subst. now apply Hne.
  - clear Hne.
    induction Hall as [|entry text entries written [Hl _] _ IH];
      constructor; assumption.
Qed.

Lemma comma_list_reads_back_witness :
  Text.comma_list "PROJ-1, PROJ-2 ,PROJ-3" = ["PROJ-1"; "PROJ-2"; "PROJ-3"].
Proof.
  apply (comma_list_reads_back ["PROJ-1"; "PROJ-2"; "PROJ-3"]
           ["PROJ-1"; " PROJ-2 "; "PROJ-3"]).
  - discriminate.
  - repeat constructor; unfold lacks; cbn; intuition discriminate.
Defined.

(** ** Markdown helpers *)

(** X13.  For a limit of at least 3, [truncate] returns a string of at
    most that many code units: the string itself when it fits, and
    otherwise its first [maxLength - 3] code units followed by three
    dots, of length exactly [maxLength]; truncating again changes
    nothing. *)
Theorem truncate_fits (str : string) (maxLength : Z) :
  3 <= maxLength ->
  Z.of_nat (String.length (Markdown.truncate str maxLength)) <= maxLength
  /\ (Z.of_nat (String.length str) <= maxLength ->
      Markdown.truncate str maxLength = str)
  /\ (maxLength < Z.of_nat (String.length str) ->
      Markdown.truncate str maxLength
      = Text.take (Z.to_nat (maxLength - 3)) str ++ "..."
      /\ Z.of_nat (String.length (Markdown.truncate str maxLength))
         = maxLength)
  /\ Markdown.truncate (Markdown.truncate str maxLength) maxLength
     = Markdown.truncate str maxLength.
Proof.
  intros Hn.
  assert (Hfit : Z.of_nat (String.length str) <= maxLength ->
                 Markdown.truncate str maxLength = str).
  { intros H. unfold Markdown.truncate.
    destruct (Z.leb_spec (Z.of_nat (String.length str)) maxLength);
      [reflexivity | lia]. }
  assert (Hcut : maxLength < Z.of_nat (String.length str) ->
                 Markdown.truncate str maxLength
                 = Text.take (Z.to_nat (maxLength - 3)) str ++ "..."
                 /\ Z.of_nat (String.length (Markdown.truncate str maxLength))
                    = maxLength).
  { intros H. unfold Markdown.truncate.
    destruct (Z.leb_spec (Z.of_nat (String.length str)) maxLength); [lia|].
    unfold Text.slice, Text.clamp.
    destruct (Z.ltb_spec 0 0); [lia|].
    destruct (Z.ltb_spec (maxLength - 3) 0); [lia|].
    rewrite Z.min_l by lia. rewrite Z.min_l by lia.
    cbn [Z.to_nat Text.drop]. rewrite Z.sub_0_r.
    split; [reflexivity|].
    rewrite length_append, length_take. cbn [String.length]. lia. }
  assert (Hlen : Z.of_nat (String.length (Markdown.truncate str maxLength))
                 <= maxLength).
  { destruct (Z.le_gt_cases (Z.of_nat (String.length str)) maxLength) as [H|H].
    - now rewrite (Hfit H).
    - destruct (Hcut H) as [_ ->]. lia. }
  repeat split; try assumption; try (now apply Hcut).
  unfold Markdown.truncate at 1.
  destruct (Z.leb_spec
              (Z.of_nat (String.length (Markdown.truncate str maxLength)))
              maxLength); [reflexivity | lia].
Qed.

Lemma truncate_fits_witness :
  Markdown.truncate "A summary that is too long" 10 = "A summa...".
Proof.
  destruct (truncate_fits "A summary that is too long" 10) as [_ [_ [H _]]];
    [lia|].
  destruct H as [H _]; [cbn; lia|]. exact H.
Defined.

(** Below 3 the limit is not kept: the slice index is negative and cuts
    from the end. *)
Example truncate_below_three :
  Markdown.truncate "abcdef" 2 = "abcde...".
Proof. reflexivity. Qed.

(** X14.  In Markdown, a user search that reports more users tells to go
    on at the offset right after the users shown: the request's
    [startAt] plus the number of users returned. *)
Theorem user_search_hint_is_the_next_offset
        (tables : Markdown.Tables)
        (build : Tools.ListArgs -> list json -> Paginated.PaginatedResponse)
        (args : Tools.ListArgs) (users : list json) (out : string) :
  In build user_list_envelopes ->
  Paginated.hasMore (build args users) = true ->
  Markdown.formatPaginatedAsMarkdown tables (build args users) "users"
  = Return out ->
  exists last,
    out = Js.join Markdown.newline
            ["## Users"; EmptyString;
             "**Showing:** " ++ Js.string_of_Z (len users);
             "**More available:** Yes (startAt: "
             ++ Js.string_of_Z (Tools.startAt args + len users) ++ ")";
             EmptyString; last].
Proof.
  intros Hin Hmore Hout.
  assert (Hshape : build args users
                   = {| Paginated.items := users;
                        Paginated.count := len users;
                        Paginated.total := None;
                        Paginated.startAt := Tools.startAt args;
                        Paginated.maxResults := Tools.maxResults args;
                        Paginated.hasMore := true |}
                   /\ len users = Tools.maxResults args).
  { destruct Hin as [<- | [<- | []]]; cbn in Hmore;
      apply Z.eqb_eq in Hmore;
      (split; [|exact Hmore]);
      [unfold Tools.jira_search_users_envelope
      |unfold Tools.jira_find_assignable_users_envelope];
      f_equal; now apply Z.eqb_eq. }
  destruct Hshape as [Hshape Hfull]. rewrite Hshape in Hout.
  unfold Markdown.formatPaginatedAsMarkdown, Markdown.heading_lines in Hout.
  cbn [Paginated.items Paginated.count Paginated.total Paginated.startAt
       Paginated.maxResults Paginated.hasMore app] in Hout.
  rewrite <- Hfull in Hout.
  change (Markdown.capitalize "users") with "Users" in Hout.
  destruct (Z.of_nat (List.length users) =? 0).
  - injection Hout as <-. eexists. reflexivity.
  - destruct (Markdown.table_for tables "users" users) as [e|table];
      [discriminate Hout|].
    injection Hout as <-. eexists. reflexivity.
Qed.

Lemma user_search_hint_witness :
  exists last,
    third_page_markdown
    = Js.join Markdown.newline
        ["## Users"; EmptyString;
         "**Showing:** " ++ Js.string_of_Z (len two_users);
         "**More available:** Yes (startAt: "
         ++ Js.string_of_Z (Tools.startAt third_page_of_two + len two_users)
         ++ ")";
         EmptyString; last].
Proof.
  apply (user_search_hint_is_the_next_offset plain_tables
           Tools.jira_search_users_envelope third_page_of_two two_users
           third_page_markdown).
  - left. reflexivity.
  - reflexivity.
  - reflexivity.
Defined.

(** For a page of the vendor the hint is [startAt + maxResults], which
    is further than the items shown when the vendor sent fewer. *)
Example vendor_page_hint_can_skip :
  Markdown.heading_lines
    (reshaped {| startAt := 0; maxResults := 50; total := 120;
                 entries := [JStr "a"; JStr "b"] |})
    "boards"
  = ["## Boards"; EmptyString; "**Total:** 120 | **Showing:** 2";
     "**More available:** Yes (startAt: 50)"; EmptyString].
Proof. reflexivity. Qed.

(** ** The statuses of a project *)

Lemma fold_left_concat {A B} (f : A -> B -> A) (ls : list (list B)) (a : A) :
  fold_left f (List.concat ls) a
  = fold_left (fun acc l => fold_left f l acc) ls a.
Proof.
  revert a. induction ls as [|l ls IH]; intros a; cbn; [reflexivity|].
  now rewrite fold_left_app, IH.
Qed.

Lemma statusMap_of_listed (response : list Statuses.IssueTypeStatuses) :
  Statuses.statusMap_of response
  = fold_left (fun m s => Statuses.map_set m (Statuses.id s) s)
              (listed response) [].
Proof.
  unfold Statuses.statusMap_of, listed.
  rewrite fold_left_concat.
  generalize (@nil (string * Statuses.JiraStatus)).
  induction response as [|t response IH]; intros m; cbn; [reflexivity|].
  apply IH.
Qed.

Lemma map_set_keys (m : Statuses.StatusMap) (key : string)
      (value : Statuses.JiraStatus) (k : string) :
  In k (map fst (Statuses.map_set m key value))
  <-> In k (map fst m) \/ k = key.
Proof.
  induction m as [|[k0 v0] m IH]; cbn.
  - split; [intros [<- | []]; now right | intros [[] | ->]; now left].
  - destruct (String.eqb_spec k0 key) as [->|Hne]; cbn.
    + split; [tauto | intros [H | ->]; [exact H | now left]].
    + rewrite IH. tauto.
Qed.

Lemma map_set_NoDup (m : Statuses.StatusMap) (key : string)
      (value : Statuses.JiraStatus) :
  NoDup (map fst m) -> NoDup (map fst (Statuses.map_set m key value)).
Proof.
  induction m as [|[k0 v0] m IH]; cbn; intros Hnd.
  - constructor; [intros [] | constructor].
  - inversion_clear Hnd as [|? ? Hnot Hrest].
    destruct (String.eqb_spec k0 key) as [->|Hne]; cbn.
    + constructor; assumption.
    + constructor; [|now apply IH].
      rewrite map_set_keys. intros [H | ->]; [now apply Hnot | now apply Hne].
Qed.

Lemma map_set_entries (m : Statuses.StatusMap) (key : string)
      (value : Statuses.JiraStatus) (k : string) (v : Statuses.JiraStatus) :
  NoDup (map fst m) ->
  In (k, v) (Statuses.map_set m key value)
  <-> (k = key /\ v = value) \/ (k <> key /\ In (k, v) m).
Proof.
  induction m as [|[k0 v0] m IH]; cbn; intros Hnd.
  - split.
    + intros [[= <- <-]|[]]. now left.
    + intros [[-> ->] | [_ []]]. now left.
  - inversion_clear Hnd as [|? ? Hnot Hrest].
    destruct (String.eqb_spec k0 key) as [->|Hne]; cbn.
    + split.
      * intros [[= <- <-] | H]; [now left|].
        right. split; [|now right].
        intros ->. apply Hnot. apply in_map_iff. now exists (key, v).
      * intros [[-> ->] | [Hk [[= -> _] | H]]];
          [now left | now contradiction Hk | now right].
    + rewrite (IH Hrest). split.
      * intros [[= <- <-] | [H | [Hk H]]].
        -- right. split; [exact Hne | now left].
        -- now left.
        -- right. split; [exact Hk | now right].
      * intros [H | [Hk [[= -> ->] | H]]].
        -- right. now left.
        -- now left.
        -- right. right. now split.
Qed.

(** What the map holds after the statuses [l] have been set, starting
    from [m]: for each id the last status of [l] with that id, and the
    entries of [m] whose id [l] does not mention. *)
Lemma fold_set_entries (l : list Statuses.JiraStatus) (m : Statuses.StatusMap)
      (k : string) (v : Statuses.JiraStatus) :
  NoDup (map fst m) ->
  In (k, v) (fold_left (fun m s => Statuses.map_set m (Statuses.id s) s) l m)
  <-> (exists before after,
          l = (before ++ v :: after)%list /\ Statuses.id v = k
          /\ ~ In k (map Statuses.id after))
      \/ (~ In k (map Statuses.id l) /\ In (k, v) m).
Proof.
  revert m. induction l as [|s l IH]; intros m Hnd; cbn [fold_left].
  - split.
    + intros H. right. split; [intros [] | exact H].
    + intros [[before [after [E _]]] | [_ H]]; [|exact H].
      destruct before; discriminate E.
  - rewrite (IH _ (map_set_NoDup m (Statuses.id s) s Hnd)).
    rewrite (map_set_entries m (Statuses.id s) s k v Hnd).
    split.
    + intros [[before [after [-> [Hid Hlast]]]] | [Hnot [[-> ->] | [Hk Hin]]]].
      * left. exists (s :: before), after. repeat split; assumption.
      * left. exists [], l. repeat split; assumption.
      * right. split; [|exact Hin].
        cbn. intros [H | H]; [now apply Hk | now apply Hnot].
    + intros [[before [after [E [Hid Hlast]]]] | [Hnot Hin]].
      * destruct before as [|b before]; cbn in E; injection E as -> ->.
        -- right. split; [exact Hlast | now left].
        -- left. exists before, after. repeat split; assumption.
      * cbn in Hnot. right. split; [tauto|].
        right. split; [|exact Hin]. intros ->. apply Hnot. now left.
Qed.

Lemma fold_set_NoDup (l : list Statuses.JiraStatus) (m : Statuses.StatusMap) :
  NoDup (map fst m) ->
  NoDup (map fst (fold_left
                    (fun m s => Statuses.map_set m (Statuses.id s) s) l m)).
Proof.
  revert m. induction l as [|s l IH]; intros m Hnd; cbn; [exact Hnd|].
  apply IH. now apply map_set_NoDup.
Qed.

Lemma statuses_returned (credentials : TenantCredentials)
      (net : Network (list Statuses.IssueTypeStatuses))
      (response : list Statuses.IssueTypeStatuses) :
  fst (request credentials net) = Return (Some response) ->
  fst (Statuses.getStatusesForProject credentials net)
  = Return (Statuses.map_values (Statuses.statusMap_of response)).
Proof.
  unfold Statuses.getStatusesForProject, bind.
  destruct (request credentials net) as [[e | r] net']; cbn [fst];
    [discriminate|].
  now intros [= ->].
Qed.

(** X15.  [getStatusesForProject] returns one status per id: the ids of
    the result are pairwise distinct, and a status is in the result
    exactly when it is the last one that the vendor lists, over all
    issue types, with its id. *)
Theorem project_statuses_are_deduplicated
        (credentials : TenantCredentials)
        (net : Network (list Statuses.IssueTypeStatuses))
        (response : list Statuses.IssueTypeStatuses)
        (result : list Statuses.JiraStatus) :
  fst (request credentials net) = Return (Some response) ->
  fst (Statuses.getStatusesForProject credentials net) = Return result ->
  NoDup (map Statuses.id result)
  /\ forall s,
      In s result
      <-> exists before after,
          listed response = (before ++ s :: after)%list
          /\ ~ In (Statuses.id s) (map Statuses.id after).
Proof.
  intros Hr Hs. rewrite (statuses_returned _ _ _ Hr) in Hs.
  injection Hs as <-. unfold Statuses.map_values.
  rewrite statusMap_of_listed.
  set (m := fold_left (fun m s => Statuses.map_set m (Statuses.id s) s)
                      (listed response) []).
  assert (Hentries : forall k v,
             In (k, v) m
             <-> exists before after,
                 listed response = (before ++ v :: after)%list
                 /\ Statuses.id v = k
                 /\ ~ In k (map Statuses.id after)).
  { intros k v. unfold m.
    rewrite (fold_set_entries (listed response) [] k v (NoDup_nil _)).
    split; [intros [H | [_ []]]; exact H | now left]. }
  assert (Hkeys : map Statuses.id (map snd m) = map fst m).
  { rewrite map_map. apply map_ext_in. intros [k v] Hin.
    apply Hentries in Hin. destruct Hin as [_ [_ [_ [Hid _]]]]. exact Hid. }
  split.
  - rewrite Hkeys. unfold m. apply fold_set_NoDup. constructor.
  - intros s. rewrite in_map_iff. split.
    + intros [[k v] [<- Hin]]. apply Hentries in Hin.
      destruct Hin as [before [after [E [Hid Hlast]]]].
      exists before, after. cbn [snd]. rewrite Hid. now split.
    + intros [before [after [E Hlast]]].
      exists (Statuses.id s, s). split; [reflexivity|].
      apply Hentries. exists before, after. repeat split; assumption.
Qed.

Lemma project_statuses_witness :
  NoDup (map Statuses.id
           [status_named "1" "To Do"; status_named "3" "Done";
            status_named "2" "Doing"]).
Proof.
  apply (project_statuses_are_deduplicated Sample.oauth
           (Sample.always (accepted 200 project_statuses))
           project_statuses
           [status_named "1" "To Do"; status_named "3" "Done";
            status_named "2" "Doing"]);
    reflexivity.
Defined.

(** ** Moving issues *)

(** X16.  When the vendor accepts the request, each of the four
    handlers that move issues reports a count that is one more than the
    number of commas in the argument: never zero, and one even for the
    empty argument. *)
Theorem move_handlers_count_the_entries `{Platform}
        (before after : string)
        (handler : TenantCredentials -> string -> Async json ToolResponse)
        (credentials : TenantCredentials) (issueKeys : string)
        (net : Network json) (response : HttpResponse json)
        (auth : AuthHeaders) (result : option json) :
  In (before, after, handler) move_handlers ->
  getAuthHeaders credentials = Return auth ->
  replies net (fetched net) = Return response ->
  handleResponse response = Return result ->
  fst (handler credentials issueKeys net)
  = Return
      (IssueMoves.success
         (before
          ++ Js.string_of_Z (1 + Z.of_nat (occurrences ","%char issueKeys))
          ++ after)).
Proof.
  intros Hin Ha Hr Hh.
  assert (Hcount : IssueMoves.count_of (Text.comma_list issueKeys)
                   = Js.string_of_Z
                       (1 + Z.of_nat (occurrences ","%char issueKeys))).
  { unfold IssueMoves.count_of, Text.comma_list.
    rewrite length_map, length_split. f_equal. lia. }
  destruct Hin as [E | [E | [E | [E | []]]]]; injection E as <- <- <-;
    [unfold IssueMoves.jira_move_issues_to_sprint,
       IssueMoves.moveIssuesToSprint
    |unfold IssueMoves.jira_move_issues_to_backlog,
       IssueMoves.moveIssuesToBacklog
    |unfold IssueMoves.jira_move_issues_to_epic,
       IssueMoves.moveIssuesToEpic
    |unfold IssueMoves.jira_remove_issues_from_epic,
       IssueMoves.removeIssuesFromEpic];
    unfold Tools.tool_handler, try_catch, bind;
    rewrite (request_after_fetch _ _ _ _ Ha Hr), Hh;
    cbn [fst ret]; now rewrite Hcount.
Qed.

Lemma move_handlers_witness :
  fst (@IssueMoves.jira_move_issues_to_sprint Sample.platform Sample.oauth
         EmptyString (Sample.always no_content))
  = Return (@IssueMoves.success Sample.platform "Moved 1 issues to sprint").
Proof.
  apply (@move_handlers_count_the_entries Sample.platform
           "Moved " " issues to sprint"
           (@IssueMoves.jira_move_issues_to_sprint Sample.platform)
           Sample.oauth EmptyString (Sample.always no_content) no_content
           (bearer "tok") None);
    try reflexivity.
  left. reflexivity.
Defined.

(** ** Configuration values *)

(** X17.  A binding that is the decimal rendering of an integer of
    magnitude at most [2 ^ 53] is read as that integer, negative or
    zero included: the accessors check no range. *)
Theorem knob_reads_decimal_text (env : EnvBindings) (key : EnvKey)
        (defaultValue value : Z) :
  env key = EnvString (Js.string_of_Z value) ->
  Z.abs value <= 2 ^ 53 ->
  getEnvNumber env key defaultValue = value.
Proof.
  intros H Hsafe. unfold getEnvNumber.
  now rewrite H, parseInt10_string_of_Z, (toDouble_safe value Hsafe).
Qed.

Lemma knob_reads_witness : getMaxPageSize (knob_env "-5") = -5.
Proof.
  apply (knob_reads_decimal_text (knob_env "-5") MAX_PAGE_SIZE 100 (-5)).
  - reflexivity.
  - cbn. lia.
Defined.

(** Beyond [2 ^ 53] the binding is rounded as a double is. *)
Example knob_beyond_safe_integers :
  getMaxPageSize (knob_env "9007199254740993") = 9007199254740992.
Proof. reflexivity. Qed.

(** Digits are read up to the first other character, after leading
    white space. *)
Example knob_reads_a_prefix : getMaxPageSize (knob_env " 42px") = 42.
Proof. reflexivity. Qed.

(** ** The fields of a created or updated issue *)

Import Issues.

Lemma obj_get_set (o : Fields) (key k : string) (value : FieldValue) :
  obj_get (obj_set o key value) k
  = if String.eqb key k then Some value else obj_get o k.
Proof.
  induction o as [|[k0 v0] rest IH]; simpl.
  - reflexivity.
  - destruct (String.eqb_spec k0 key) as [E0|E0]; simpl.
    + subst k0. now destruct (String.eqb_spec key k).
    + rewrite IH.
      destruct (String.eqb_spec k0 k) as [E1|E1]; [|reflexivity].
      subst k0. destruct (String.eqb_spec key k) as [E2|E2];
        [now subst key | reflexivity].
Qed.

Lemma obj_get_set_defined {A} (o : Fields) (v : option A) (key k : string)
      (f : A -> FieldValue) :
  obj_get (set_defined o v key f) k
  = if String.eqb key k
    then match v with Some x => Some (f x) | None => obj_get o k end
    else obj_get o k.
Proof.
  destruct v as [x|]; simpl.
  - apply obj_get_set.
  - now destruct (String.eqb key k).
Qed.

Lemma obj_get_set_truthy (o : Fields) (v : option string) (key k : string)
      (f : string -> FieldValue) :
  obj_get (set_truthy o v key f) k
  = if String.eqb key k
    then match Js.or_undefined v with
         | Some x => Some (f x)
         | None => obj_get o k
         end
    else obj_get o k.
Proof.
  destruct v as [[|c s]|]; simpl; try apply obj_get_set;
    now destruct (String.eqb key k).
Qed.

Lemma obj_get_set_description (o : Fields) (d : option ADFInput)
      (k : string) :
  String.eqb "description" k = false ->
  obj_get (set_description_truthy o d) k = obj_get o k.
Proof.
  intros E.
  destruct d as [[[|c s]|doc]|]; simpl; try reflexivity;
    now rewrite obj_get_set, E.
Qed.

Lemma set_truthy_or_undefined (o : Fields) (v : option string)
      (key : string) (f : string -> FieldValue) :
  set_truthy o (Js.or_undefined v) key f = set_truthy o v key f.
Proof. now destruct v as [[|c s]|]. Qed.

Lemma set_description_or_undefined (o : Fields) (v : option string) :
  set_description_truthy o (option_map Plain (Js.or_undefined v))
  = set_description_truthy o (option_map Plain v).
Proof. now destruct v as [[|c s]|]. Qed.

Lemma assign_get_other (source : list (string * json)) (k : string) :
  ~ In k (map fst source) ->
  forall target, obj_get (assign target source) k = obj_get target k.
Proof.
  unfold assign.
  induction source as [|[k0 v0] rest IH]; intros Hk target; simpl.
  - reflexivity.
  - simpl in Hk. rewrite IH by tauto.
    destruct (String.eqb k0 "__proto__"); [reflexivity|].
    rewrite obj_get_set.
    destruct (String.eqb_spec k0 k) as [E|E]; [|reflexivity].
    exfalso. apply Hk. now left.
Qed.

Lemma assign_get (source : list (string * json)) (k : string)
      (value : json) :
  NoDup (map fst source) ->
  In (k, value) source ->
  k <> "__proto__" ->
  forall target, obj_get (assign target source) k = Some (Custom value).
Proof.
  intros Hnd Hin Hk.
  induction source as [|[k0 v0] rest IH]; intros target.
  - destruct Hin.
  - simpl in Hnd. inversion Hnd as [|? ? Hnot Hrest]. subst.
    destruct Hin as [E|Hin].
    + injection E as -> ->.
      change (assign target ((k, value) :: rest))
        with (assign (if String.eqb k "__proto__" then target
                      else obj_set target k (Custom value)) rest).
      rewrite (assign_get_other rest k Hnot).
      destruct (String.eqb_spec k "__proto__") as [E|_];
        [contradiction|].
      now rewrite obj_get_set, String.eqb_refl.
    + change (assign target ((k0, v0) :: rest))
        with (assign (if String.eqb k0 "__proto__" then target
                      else obj_set target k0 (Custom v0)) rest).
      now apply IH.
Qed.

Lemma given_map {A B} (f : A -> B) (v : option A) :
  given (option_map f v) = given v.
Proof. now destruct v. Qed.

Lemma present_set_defined {A} (o : Fields) (v : option A) (key k : string)
      (f : A -> FieldValue) :
  obj_get (set_defined o v key f) k <> None
  <-> (key = k /\ given v = true) \/ obj_get o k <> None.
Proof.
  rewrite obj_get_set_defined.
  destruct (String.eqb_spec key k) as [E|E].
  - destruct v as [x|]; simpl.
    + split; [intros _; left; now split | intros _; discriminate].
    + split; [now right | intros [[_ H]|H]; [discriminate H | exact H]].
  - split; [now right | intros [[H _]|H]; [contradiction | exact H]].
Qed.

Lemma comma_list_not_empty (value : string) : Text.comma_list value <> [].
Proof.
  intros E. apply (f_equal (@List.length string)) in E.
  unfold Text.comma_list in E. rewrite length_map, length_split in E.
  discriminate E.
Qed.

(** X18.  A custom field is sent under its own name with its own value
    by [createIssue] and by [updateIssue], in place of whatever standard
    field of that name the other parameters gave. *)
Theorem custom_fields_replace_standard_ones
        (custom : list (string * json)) (key : string) (value : json) :
  NoDup (map fst custom) ->
  In (key, value) custom ->
  key <> "__proto__" ->
  (forall params,
      CreateIssue.customFields params = Some custom ->
      obj_get (CreateIssue.createIssue_fields params) key
      = Some (Custom value))
  /\ (forall params,
         UpdateIssue.customFields params = Some custom ->
         obj_get (UpdateIssue.updateIssue_fields params) key
         = Some (Custom value)).
Proof.
  intros Hnd Hin Hk. split; intros params Hc.
  - unfold CreateIssue.createIssue_fields. cbv zeta. rewrite Hc.
    now apply assign_get.
  - unfold UpdateIssue.updateIssue_fields. cbv zeta. rewrite Hc.
    now apply assign_get.
Qed.

Lemma custom_fields_witness :
  obj_get (CreateIssue.createIssue_fields (create_params (Some custom_summary)))
    "summary"
  = Some (Custom (JStr "Replaced")).
Proof.
  apply (proj1 (custom_fields_replace_standard_ones
                  custom_summary "summary" (JStr "Replaced")
                  ltac:(repeat constructor; simpl; intuition discriminate)
                  ltac:(right; left; reflexivity)
                  ltac:(discriminate))).
  reflexivity.
Defined.

(** X19.  [jira_create_issue] always sends the project, the issue type
    and the summary as given, even when empty.  An empty description,
    priority, assignee, due date or parent is the same as none.  A list
    argument that is given is always sent, with at least one entry. *)
Theorem jira_create_issue_fields (a : CreateIssue.Args) :
  let fields :=
    CreateIssue.createIssue_fields (CreateIssue.jira_create_issue_params a) in
  (obj_get fields "project" = Some (Keyed (CreateIssue.arg_projectKey a))
   /\ obj_get fields "issuetype" = Some (Named (CreateIssue.arg_issueType a))
   /\ obj_get fields "summary" = Some (Text (CreateIssue.arg_summary a)))
  /\ fields
     = CreateIssue.createIssue_fields
         (CreateIssue.jira_create_issue_params (without_empty_text a))
  /\ (forall field text shape,
         In (field, Some text, shape) (create_list_arguments a) ->
         obj_get fields field = Some (shape (Text.comma_list text))
         /\ Text.comma_list text <> []).
Proof.
  cbv zeta. unfold CreateIssue.createIssue_fields, create_list_arguments.
  cbv zeta.
  destruct a as [pk it su de pr asg la co fv du pa].
  cbn [CreateIssue.jira_create_issue_params without_empty_text
       CreateIssue.projectKey CreateIssue.issueType CreateIssue.summary
       CreateIssue.description CreateIssue.priority CreateIssue.assigneeId
       CreateIssue.reporterId CreateIssue.labels CreateIssue.components
       CreateIssue.fixVersions CreateIssue.dueDate CreateIssue.parentKey
       CreateIssue.customFields CreateIssue.arg_projectKey
       CreateIssue.arg_issueType CreateIssue.arg_summary
       CreateIssue.arg_description CreateIssue.arg_priority
       CreateIssue.arg_assigneeId CreateIssue.arg_labels
       CreateIssue.arg_components CreateIssue.arg_fixVersions
       CreateIssue.arg_dueDate CreateIssue.arg_parentKey assign_custom].
  split; [|split].
  - repeat split;
      rewrite !obj_get_set_truthy, !obj_get_set_defined,
        !obj_get_set_truthy, obj_get_set_description by reflexivity;
      reflexivity.
  - now rewrite !set_truthy_or_undefined, set_description_or_undefined.
  - intros field text shape Hin. split; [|apply comma_list_not_empty].
    destruct Hin as [E|[E|[E|[]]]]; injection E as <- -> <-;
      rewrite !obj_get_set_truthy, !obj_get_set_defined; reflexivity.
Qed.

(** X20.  [jira_update_issue] sends a field exactly for each argument
    that is given, empty or not, and no other field.  An empty assignee
    is sent as [null], and a list argument that is given is sent with at
    least one entry. *)
Theorem jira_update_issue_sends_what_is_given (a : UpdateIssue.Args) :
  let fields :=
    UpdateIssue.updateIssue_fields (UpdateIssue.jira_update_issue_params a) in
  (forall field,
      obj_get fields field <> None <-> In (field, true) (update_arguments a))
  /\ (UpdateIssue.arg_assigneeId a = Some EmptyString ->
      obj_get fields "assignee" = Some Null)
  /\ (forall field text shape,
         In (field, Some text, shape) (update_list_arguments a) ->
         obj_get fields field = Some (shape (Text.comma_list text))
         /\ Text.comma_list text <> []).
Proof.
  cbv zeta. unfold UpdateIssue.updateIssue_fields, update_list_arguments.
  cbv zeta.
  destruct a as [su de pr asg la co fv du].
  cbn [UpdateIssue.jira_update_issue_params update_arguments
       UpdateIssue.summary UpdateIssue.description UpdateIssue.priority
       UpdateIssue.assigneeId UpdateIssue.labels UpdateIssue.components
       UpdateIssue.fixVersions UpdateIssue.dueDate UpdateIssue.customFields
       UpdateIssue.arg_summary UpdateIssue.arg_description
       UpdateIssue.arg_priority UpdateIssue.arg_assigneeId
       UpdateIssue.arg_labels UpdateIssue.arg_components
       UpdateIssue.arg_fixVersions UpdateIssue.arg_dueDate assign_custom].
  split; [|split].
  - intros field. rewrite !present_set_defined, !given_map.
    unfold update_arguments.
    cbn [obj_get In UpdateIssue.arg_summary UpdateIssue.arg_description
         UpdateIssue.arg_priority UpdateIssue.arg_assigneeId
         UpdateIssue.arg_labels UpdateIssue.arg_components
         UpdateIssue.arg_fixVersions UpdateIssue.arg_dueDate].
    split.
    + intros Hp.
      repeat (destruct Hp as [[E1 E2]|Hp];
              [subst field; rewrite E2; auto 10|]).
      now contradiction Hp.
    + intros Hin.
      repeat (destruct Hin as [E|Hin];
              [injection E as <- E; rewrite E; auto 10|]).
      destruct Hin.
  - intros [= ->]. rewrite !obj_get_set_defined. reflexivity.
  - intros field text shape Hin. split; [|apply comma_list_not_empty].
    destruct Hin as [E|[E|[E|[]]]]; injection E as <- -> <-;
      rewrite !obj_get_set_defined; reflexivity.
Qed.

(** An empty assignee and empty labels: the issue is unassigned, and one
    empty label is sent. *)
Example update_with_empty_arguments :
  UpdateIssue.updateIssue_fields (UpdateIssue.jira_update_issue_params unassign)
  = [("assignee", Null); ("labels", Strings [EmptyString])].
Proof. reflexivity. Qed.
